(** * GitHub PR statistics generator: a shallow embedding of [main.py]

  The development follows the source file top to bottom:

  - [Py]: the fragment of Python's dynamic values that the program
    manipulates (decoded JSON, dictionaries in insertion order,
    exceptions, truthiness, [==], [<], [min(..., key=...)]);
  - [World]: the effects of the program as explicit state passing: the
    responses the service will give, the clock, the log, the files;
  - [Client]: class [GitHubAPIClient];
  - [Generator]: class [PRStatsGenerator];
  - the properties, one section per topic.

  Conventions.  A Python [str] is a Rocq [string], one character per
  element (exact for ASCII text such as ISO-8601 timestamps and the
  service's enumerations).  A JSON number is an integer.  An f-string is
  kept as the list of its pieces, so that no rendering of values to text
  has to be modelled.  A loop that waits for the service is bounded by
  the number of responses the service still has to give: when they run
  out, the call does not return ([None]). *)

From Stdlib Require Import ZArith String Ascii List Bool Lia.
From stdpp Require Import base option list strings gmap.
Import ListNotations.

Set Warnings "-register-all".

Local Open Scope string_scope.
Local Open Scope list_scope.
Local Open Scope Z_scope.

(** ** Python values *)

Module Py.

(** What [json.load] and [response.json()] produce.  [JNull] is [None];
    an object keeps its keys in insertion order, as a [dict] does. *)
Inductive json : Type :=
| JNull
| JBool (b : bool)
| JInt (n : Z)
| JStr (s : string)
| JArr (items : list json)
| JObj (fields : list (string * json)).

Definition dict : Type := list (string * json).

(** The exceptions the program can meet. *)
Inductive exn : Type :=
| KeyError (key : string)
| TypeError
| AttributeError
| ValueError
| HTTPError (status : Z)
| ConnectionError
| JSONDecodeError
| FileNotFoundError (path : string)
| OverflowError.

Inductive result (A : Type) : Type :=
| Ok (a : A)
| Raise (e : exn).
Arguments Ok {A} a.
Arguments Raise {A} e.

Definition rbind {A B} (r : result A) (k : A -> result B) : result B :=
  match r with
  | Ok a => k a
  | Raise e => Raise e
  end.

(** [d.get(k)] on a dictionary: the value of the key, if present. *)
Fixpoint dict_get (d : dict) (k : string) : option json :=
  match d with
  | [] => None
  | (k', v) :: d' => if String.eqb k' k then Some v else dict_get d' k
  end.

(** [d[k] = v]: an existing key keeps its place, a new one goes last. *)
Fixpoint dict_set (d : dict) (k : string) (v : json) : dict :=
  match d with
  | [] => [(k, v)]
  | (k', v') :: d' =>
      if String.eqb k' k then (k', v) :: d' else (k', v') :: dict_set d' k v
  end.

(** [o.get(k, default)]: only a dict has the method. *)
Definition py_get (o : json) (k : string) (default : json) : result json :=
  match o with
  | JObj d => Ok (match dict_get d k with Some v => v | None => default end)
  | _ => Raise AttributeError
  end.

(** [o[k]] with a string key. *)
Definition py_getitem (o : json) (k : string) : result json :=
  match o with
  | JObj d => match dict_get d k with Some v => Ok v | None => Raise (KeyError k) end
  | _ => Raise TypeError
  end.

(** [bool(v)]. *)
Definition truthy (v : json) : bool :=
  match v with
  | JNull => false
  | JBool b => b
  | JInt n => negb (n =? 0)
  | JStr s => negb (String.eqb s EmptyString)
  | JArr l => match l with [] => false | _ => true end
  | JObj d => match d with [] => false | _ => true end
  end.

Definition is_list (v : json) : bool :=
  match v with JArr _ => true | _ => false end.

(** [bool] is a subclass of [int]. *)
Definition py_num (v : json) : option Z :=
  match v with
  | JBool b => Some (if b then 1 else 0)
  | JInt n => Some n
  | _ => None
  end.

(** [a == b]: lists element by element, dicts as mappings. *)
Fixpoint py_eq (a b : json) {struct a} : bool :=
  match a, b with
  | JNull, JNull => true
  | JStr s, JStr t => String.eqb s t
  | JArr l, JArr m =>
      (fix all2 (l m : list json) {struct l} : bool :=
         match l, m with
         | [], [] => true
         | x :: l', y :: m' => py_eq x y && all2 l' m'
         | _, _ => false
         end) l m
  | JObj d, JObj e =>
      Nat.eqb (length d) (length e) &&
      (fix sub (d : dict) {struct d} : bool :=
         match d with
         | [] => true
         | (k, v) :: d' =>
             match dict_get e k with
             | Some w => py_eq v w
             | None => false
             end && sub d'
         end) d
  | _, _ =>
      match py_num a, py_num b with
      | Some x, Some y => x =? y
      | _, _ => false
      end
  end.

(** [a < b]: strings by code points, numbers by value, lists
    lexicographically; anything else is a [TypeError]. *)
Fixpoint py_lt (a b : json) {struct a} : result bool :=
  match a, b with
  | JStr s, JStr t => Ok (String.ltb s t)
  | JArr l, JArr m =>
      (fix lex (l m : list json) {struct l} : result bool :=
         match l, m with
         | [], [] => Ok false
         | [], _ :: _ => Ok true
         | _ :: _, [] => Ok false
         | x :: l', y :: m' => if py_eq x y then lex l' m' else py_lt x y
         end) l m
  | _, _ =>
      match py_num a, py_num b with
      | Some x, Some y => Ok (x <? y)
      | _, _ => Raise TypeError
      end
  end.

(** [v in [c1, c2, ...]] for string constants. *)
Definition py_in (v : json) (consts : list string) : bool :=
  existsb (fun c => py_eq v (JStr c)) consts.

(** [v[:n]]: strings and lists can be sliced.  A string is cut by
    elements, which are its characters when it is ASCII.  Anything else is
    a [TypeError]; for a dict that is so up to Python 3.11, where a slice
    cannot be hashed (later versions look the slice up as a key and raise
    [KeyError]). *)
Definition py_prefix (n : nat) (v : json) : result json :=
  match v with
  | JStr s => Ok (JStr (substring 0 n s))
  | JArr l => Ok (JArr (firstn n l))
  | _ => Raise TypeError
  end.

Fixpoint chars (s : string) : list json :=
  match s with
  | EmptyString => []
  | String c s' => JStr (String c EmptyString) :: chars s'
  end.

(** [for x in v]: a list gives its items, a dict its keys, a string its
    characters. *)
Definition py_iter (v : json) : result (list json) :=
  match v with
  | JArr l => Ok l
  | JObj d => Ok (map (fun kv => JStr (fst kv)) d)
  | JStr s => Ok (chars s)
  | _ => Raise TypeError
  end.

(** A list comprehension [[f(x) for x in l]]: the first exception ends it. *)
Fixpoint comprehension {A B} (f : A -> result B) (l : list A) : result (list B) :=
  match l with
  | [] => Ok []
  | x :: l' => rbind (f x) (fun y => rbind (comprehension f l') (fun ys => Ok (y :: ys)))
  end.

(** [min(items, key=lambda x: x[k])], as CPython runs it: keys are
    computed left to right, and an item replaces the best one so far
    only when its key is strictly smaller. *)
Fixpoint min_scan (k : string) (best kbest : json) (rest : list json) : result json :=
  match rest with
  | [] => Ok best
  | x :: rest' =>
      rbind (py_getitem x k) (fun kx =>
      rbind (py_lt kx kbest) (fun smaller =>
      if smaller then min_scan k x kx rest' else min_scan k best kbest rest'))
  end.

Definition min_by_key (k : string) (items : list json) : result json :=
  match items with
  | [] => Raise ValueError
  | x :: rest => rbind (py_getitem x k) (fun kx => min_scan k x kx rest)
  end.

(** The pieces of an f-string: literal text and formatted values. *)
Inductive piece : Type :=
| Lit (s : string)
| Fmt (v : json)
| FmtExn (e : exn).

Definition fstring : Type := list piece.

End Py.

(** ** Effects *)

Module World.
Import Py.

(** The [X-RateLimit-Reset] header of a response, after
    [int(response.headers.get('X-RateLimit-Reset', 0))]: absent (the
    default 0 is used), an integer, or text that [int] rejects. *)
Inductive reset_header : Type :=
| ResetAbsent
| ResetAt (T : Z)
| ResetMalformed.

(** The parts of an HTTP response the program looks at.  [body] is the
    decoded JSON body, [None] when the body is not JSON. *)
Record response : Type := {
  status_code : Z;
  body : option json;
  reset : reset_header
}.

(** What comes back for one request: a response, or no connection. *)
Inductive arrival : Type :=
| Answer (r : response)
| Unreachable.

Record request : Type := {
  req_url : fstring;
  req_params : option dict;
  req_headers : list (string * string)
}.

Inductive level : Type := INFO | WARNING | ERROR.

(** What the program does to the outside, in order. *)
Inductive event : Type :=
| Get (r : request)
| Sleep (seconds : Z)
| Log (l : level) (msg : fstring).

(** A file at rest: the JSON document its text denotes, or text that
    [json.load] rejects. *)
Inductive content : Type :=
| Json (doc : json)
| Garbage.

(** The clock is a virtual one: it reads the same until the process
    sleeps, and a sleep moves it by its length; the time the requests
    themselves take is not counted. *)
Record world : Type := {
  incoming : list arrival;     (* the service's next answers, in order *)
  clock : Z;                   (* int(time.time()) *)
  utc_now : string;            (* datetime.now(timezone.utc).isoformat() *)
  trace : list event;          (* effects so far, oldest first *)
  disk : gmap string content   (* files by path *)
}.

(** A computation: from a world, either it does not return, or it
    returns a value or raises, in a new world. *)
Definition M (A : Type) : Type := world -> option (result A * world).

Definition ret {A} (a : A) : M A := fun w => Some (Ok a, w).
Definition raise {A} (e : exn) : M A := fun w => Some (Raise e, w).
Definition bind {A B} (k : A -> M B) (c : M A) : M B :=
  fun w =>
    match c w with
    | None => None
    | Some (Raise e, w') => Some (Raise e, w')
    | Some (Ok a, w') => k a w'
    end.

#[global] Instance M_ret : MRet M := @ret.
#[global] Instance M_bind : MBind M := @bind.

(** A pure step that may raise. *)
Definition lift {A} (r : result A) : M A :=
  match r with
  | Ok a => ret a
  | Raise e => raise e
  end.

(** [try: c  except Exception as e: handler(e)]. *)
Definition try_except {A} (c : M A) (handler : exn -> M A) : M A :=
  fun w =>
    match c w with
    | None => None
    | Some (Raise e, w') => handler e w'
    | Some (Ok a, w') => Some (Ok a, w')
    end.

(** The elementary changes of the world. *)
Definition log_event (e : event) (w : world) : world :=
  {| incoming := incoming w; clock := clock w; utc_now := utc_now w;
     trace := trace w ++ [e]; disk := disk w |}.

Definition answered (rest : list arrival) (w : world) : world :=
  {| incoming := rest; clock := clock w; utc_now := utc_now w;
     trace := trace w; disk := disk w |}.

Definition slept (seconds : Z) (w : world) : world :=
  {| incoming := incoming w; clock := clock w + seconds; utc_now := utc_now w;
     trace := trace w; disk := disk w |}.

Definition written (path : string) (doc : json) (w : world) : world :=
  {| incoming := incoming w; clock := clock w; utc_now := utc_now w;
     trace := trace w; disk := <[path := Json doc]> (disk w) |}.

Definition emit (e : event) : M unit := fun w => Some (Ok tt, log_event e w).

Definition logger (l : level) (msg : fstring) : M unit := emit (Log l msg).

(** One GET: the request goes out, the next answer comes in. *)
Definition http_get (r : request) : M response :=
  fun w =>
    match incoming w with
    | [] => None
    | a :: rest =>
        let w' := answered rest (log_event (Get r) w) in
        match a with
        | Answer resp => Some (Ok resp, w')
        | Unreachable => Some (Raise ConnectionError, w')
        end
    end.

(** [response.json()]. *)
Definition response_json (r : response) : result json :=
  match body r with
  | Some j => Ok j
  | None => Raise JSONDecodeError
  end.

(** [response.raise_for_status()]: only 4xx and 5xx raise. *)
Definition raise_for_status (r : response) : result unit :=
  if (400 <=? status_code r) && (status_code r <? 600)
  then Raise (HTTPError (status_code r))
  else Ok tt.

(** [int(response.headers.get('X-RateLimit-Reset', 0))]. *)
Definition reset_time (r : response) : result Z :=
  match reset r with
  | ResetAbsent => Ok 0
  | ResetAt T => Ok T
  | ResetMalformed => Raise ValueError
  end.

Definition time_time : M Z := fun w => Some (Ok (clock w), w).

(** The longest [time.sleep] takes: the length is converted to
    nanoseconds in a signed 64-bit integer, [(2 ** 63 - 1) // 10 ** 9]
    seconds is the last that fits. *)
Definition sleep_max : Z := 9223372036.

(** [time.sleep(seconds)] with an [int]: a length too large to convert,
    either way, is an [OverflowError], a negative one a [ValueError];
    otherwise the process sleeps. *)
Definition time_sleep (seconds : Z) : M unit :=
  fun w =>
    if (sleep_max <? seconds) || (seconds <? - sleep_max) then Some (Raise OverflowError, w)
    else if seconds <? 0 then Some (Raise ValueError, w)
    else Some (Ok tt, slept seconds (log_event (Sleep seconds) w)).

Definition now_isoformat : M string := fun w => Some (Ok (utc_now w), w).

(** [with open(path, 'w') as f: json.dump(doc, f, indent=2)], for a path
    the system lets the process open and write: the refusals of [open]
    (an empty name, a directory that does not exist, no permission) are
    not modelled, and a statement that a write is done is about a path
    that can be written.  The file is seen at rest, once it is closed:
    the moment between the truncation and the end of the write is not a
    state of the model. *)
Definition json_dump (path : string) (doc : json) : M unit :=
  fun w => Some (Ok tt, written path doc w).

(** [with open(path, 'r') as f: json.load(f)]. *)
Definition json_load (path : string) : M json :=
  fun w =>
    match disk w !! path with
    | None => Some (Raise (FileNotFoundError path), w)
    | Some Garbage => Some (Raise JSONDecodeError, w)
    | Some (Json doc) => Some (Ok doc, w)
    end.

(** A [for] loop with an accumulator. *)
Fixpoint foldM {A S} (f : S -> A -> M S) (s : S) (l : list A) : M S :=
  match l with
  | [] => mret s
  | x :: l' => s' ← f s x; foldM f s' l'
  end.

(** [with open(path, 'w') as f: ...] leaving text that is not JSON. *)
Definition write_text (path : string) : M unit :=
  fun w =>
    Some (Ok tt, {| incoming := incoming w; clock := clock w; utc_now := utc_now w;
                    trace := trace w; disk := <[path := Garbage]> (disk w) |}).

End World.

(** ** class GitHubAPIClient *)

Module GitHubAPIClient.
Import Py World.

(** [headers[k] = v] on a header dictionary. *)
Fixpoint header_set (h : list (string * string)) (k v : string) : list (string * string) :=
  match h with
  | [] => [(k, v)]
  | (k', v') :: h' =>
      if String.eqb k' k then (k', v) :: h' else (k', v') :: header_set h' k v
  end.

Fixpoint header_get (h : list (string * string)) (k : string) : option string :=
  match h with
  | [] => None
  | (k', v) :: h' => if String.eqb k' k then Some v else header_get h' k
  end.

(** The headers of a request: those of the session, overridden by the
    ones given with the call. *)
Definition merge_headers (session extra : list (string * string)) : list (string * string) :=
  fold_left (fun h kv => header_set h (fst kv) (snd kv)) extra session.

Record client : Type := {
  token : string;
  session_headers : list (string * string);
  base_url : string
}.

Definition default_accept : string := "application/vnd.github.v3+json".
Definition timeline_accept : string := "application/vnd.github.mockingbird-preview+json".

(** [__init__]. *)
Definition new_client (token : string) : client :=
  {| token := token;
     session_headers :=
       [("Authorization", String.append "token " token);
        ("Accept", default_accept);
        ("User-Agent", "GitHub-PR-Stats-Generator")];
     base_url := "https://api.github.com" |}.

(** [self.session.get(url, params=params, headers=headers)]. *)
Definition session_get (c : client) (url : fstring) (params : option dict)
    (headers : list (string * string)) : M response :=
  http_get {| req_url := url; req_params := params;
              req_headers := merge_headers (session_headers c) headers |}.

(** The body of [while True] in [_make_request]; [fuel] bounds the
    number of rounds. *)
Fixpoint make_request_loop (fuel : nat) (c : client) (url : fstring)
    (params : option dict) : M json :=
  match fuel with
  | O => fun _ => None
  | S fuel' =>
      response ← session_get c url params [];
      if status_code response =? 200 then
        lift (response_json response)
      else if status_code response =? 403 then
        reset_time ← lift (reset_time response);
        current_time ← time_time;
        let sleep_time := Z.max (reset_time - current_time + 60) 60 in
        logger WARNING [Lit "Rate limited. Sleeping for "; Fmt (JInt sleep_time);
                        Lit " seconds"];;
        time_sleep sleep_time;;
        make_request_loop fuel' c url params
      else if status_code response =? 404 then
        logger ERROR (Lit "Resource not found: " :: url);;
        mret (JObj [])
      else
        lift (raise_for_status response);;
        make_request_loop fuel' c url params
  end.

(** Every round takes one answer of the service, so the answers still to
    come bound the rounds. *)
Definition _make_request (c : client) (url : fstring) (params : option dict) : M json :=
  fun w => make_request_loop (length (incoming w)) c url params w.

(** [params or {}]. *)
Definition or_empty (params : option dict) : dict :=
  match params with
  | Some (kv :: d) => kv :: d
  | _ => []
  end.

(** The items [results.extend(data)] adds. *)
Definition list_items (data : json) : list json :=
  match data with
  | JArr items => items
  | _ => []
  end.

(** The body of [while True] in [_paginate]. *)
Fixpoint paginate_loop (fuel : nat) (c : client) (url : fstring) (params : dict)
    (results : list json) (page : Z) : M (list json) :=
  match fuel with
  | O => fun _ => None
  | S fuel' =>
      let params := dict_set (dict_set params "page" (JInt page)) "per_page" (JInt 100) in
      data ← _make_request c url (Some params);
      if negb (truthy data) || negb (is_list data) then
        mret results
      else
        let results := results ++ list_items data in
        if (length (list_items data) <? 100)%nat then
          mret results
        else
          paginate_loop fuel' c url params results (page + 1)
  end.

(** Every page takes at least one answer of the service. *)
Definition _paginate (c : client) (url : fstring) (params : option dict) : M (list json) :=
  fun w => paginate_loop (length (incoming w)) c url (or_empty params) [] 1 w.

(** The URLs are the texts the client builds and gives to
    [session.get], kept as the pieces of their f-strings; what the HTTP
    library does to a text before it sends the request (it resolves dot
    segments and escapes characters) is not modelled. *)
Definition repo_url (c : client) (owner repo : string) : fstring :=
  [Fmt (JStr (base_url c)); Lit "/repos/"; Fmt (JStr owner); Lit "/"; Fmt (JStr repo)].

Definition get_pull_requests (c : client) (owner repo : string) (state : string)
    : M (list json) :=
  let url := repo_url c owner repo ++ [Lit "/pulls"] in
  _paginate c url (Some [("state", JStr state)]).

Definition get_pr_reviews (c : client) (owner repo : string) (pr_number : json)
    : M (list json) :=
  let url := repo_url c owner repo ++ [Lit "/pulls/"; Fmt pr_number; Lit "/reviews"] in
  _paginate c url None.

Definition get_pr_comments (c : client) (owner repo : string) (pr_number : json)
    : M (list json) :=
  let url := repo_url c owner repo ++ [Lit "/pulls/"; Fmt pr_number; Lit "/comments"] in
  _paginate c url None.

Definition get_issue_comments (c : client) (owner repo : string) (issue_number : json)
    : M (list json) :=
  let url := repo_url c owner repo ++ [Lit "/issues/"; Fmt issue_number; Lit "/comments"] in
  _paginate c url None.

Definition get_pr_timeline (c : client) (owner repo : string) (issue_number : json)
    : M json :=
  let url := repo_url c owner repo ++ [Lit "/issues/"; Fmt issue_number; Lit "/timeline"] in
  let headers := [("Accept", timeline_accept)] in
  response ← session_get c url None headers;
  if status_code response =? 200 then
    lift (response_json response)
  else
    mret (JArr []).

Definition get_pr_commits (c : client) (owner repo : string) (pr_number : json)
    : M (list json) :=
  let url := repo_url c owner repo ++ [Lit "/pulls/"; Fmt pr_number; Lit "/commits"] in
  _paginate c url None.

End GitHubAPIClient.

(** ** class PRStatsGenerator *)

Module PRStatsGenerator.
Import Py World GitHubAPIClient.

(** The dataclasses.  A field annotated [str] or [Optional[str]] holds
    whatever the service sent; [None] is [JNull]. *)
Record PullRequest : Type := {
  created_at : json;
  updated_at : json;
  closed_at : json;
  merged_at : json;
  author : json;
  number : json;
  title : json
}.

Record PullRequestStats : Type := {
  pr_meta : PullRequest;
  request_to_review_timestamp : json;
  pr_approved_timestamp : json;
  review_given_timestamp : json;
  reviews : list json;
  timeline : list json
}.

Record RepositoryStats : Type := {
  repository : list (string * string);
  generated_at : string;
  pull_requests : list PullRequestStats
}.

(** [dataclasses.asdict]: fields in declaration order, nested
    dataclasses converted too. *)
Definition asdict_pr (p : PullRequest) : json :=
  JObj [("created_at", created_at p); ("updated_at", updated_at p);
        ("closed_at", closed_at p); ("merged_at", merged_at p);
        ("author", author p); ("number", number p); ("title", title p)].

Definition asdict (s : PullRequestStats) : json :=
  JObj [("pr_meta", asdict_pr (pr_meta s));
        ("request_to_review_timestamp", request_to_review_timestamp s);
        ("pr_approved_timestamp", pr_approved_timestamp s);
        ("review_given_timestamp", review_given_timestamp s);
        ("reviews", JArr (reviews s));
        ("timeline", JArr (timeline s))].

Record generator : Type := { client_of : client }.

(** [__init__]. *)
Definition new_generator (token : string) : generator :=
  {| client_of := new_client token |}.

(** The [for] loop of [_get_request_to_review_timestamp], with the
    [return] after it. *)
Fixpoint scan_timeline (pr : json) (events : list json) : result json :=
  match events with
  | [] => py_getitem pr "created_at"
  | event :: rest =>
      rbind (py_get event "event" JNull) (fun kind =>
      if py_in kind ["ready_for_review"; "review_requested"]
      then py_get event "created_at" JNull
      else scan_timeline pr rest)
  end.

Definition _get_request_to_review_timestamp (pr timeline : json) : result json :=
  rbind (py_get pr "draft" (JBool false)) (fun draft =>
  if negb (truthy draft) then py_getitem pr "created_at"
  else rbind (py_iter timeline) (scan_timeline pr)).

(** [[r for r in reviews if keep(r)]]. *)
Fixpoint select (keep : json -> result bool) (reviews : list json) : result (list json) :=
  match reviews with
  | [] => Ok []
  | r :: rest =>
      rbind (keep r) (fun b =>
      rbind (select keep rest) (fun kept =>
      Ok (if b then r :: kept else kept)))
  end.

(** [r.get('state') == 'APPROVED']. *)
Definition is_approved (r : json) : result bool :=
  rbind (py_get r "state" JNull) (fun state => Ok (py_eq state (JStr "APPROVED"))).

(** [min(rs, key=lambda x: x['submitted_at'])['submitted_at']] when
    [rs] is not empty, [None] otherwise. *)
Definition earliest_submitted (rs : list json) : result json :=
  if truthy (JArr rs)
  then rbind (min_by_key "submitted_at" rs) (fun r => py_getitem r "submitted_at")
  else Ok JNull.

Definition _get_approval_timestamp (reviews : list json) : result json :=
  rbind (select is_approved reviews) earliest_submitted.

(** [r.get('state') in ['REQUEST_CHANGES', 'COMMENT'] or
     (r.get('state') == 'APPROVED' and r.get('body'))]. *)
Definition is_substantive (r : json) : result bool :=
  rbind (py_get r "state" JNull) (fun state =>
  if py_in state ["REQUEST_CHANGES"; "COMMENT"] then Ok true
  else
    rbind (py_get r "state" JNull) (fun state' =>
    if py_eq state' (JStr "APPROVED")
    then rbind (py_get r "body" JNull) (fun body => Ok (truthy body))
    else Ok false)).

Definition _get_review_given_timestamp (reviews : list json) : result json :=
  rbind (select is_substantive reviews) earliest_submitted.

Definition get_timeline_stat (timeline_event : json) : result json :=
  rbind (py_get timeline_event "actor" (JObj [])) (fun a =>
  rbind (py_get a "login" JNull) (fun actor =>
  rbind (py_get timeline_event "author" (JObj [])) (fun a =>
  rbind (py_get a "name" JNull) (fun author =>
  rbind (py_get timeline_event "event" JNull) (fun event =>
  rbind (py_get timeline_event "author" (JObj [])) (fun a =>
  rbind (py_get a "date" JNull) (fun date =>
  rbind (py_get timeline_event "created_at" date) (fun created_at =>
  Ok (JObj [("event", event);
            ("author", if truthy actor then actor else author);
            ("created_at", created_at)]))))))))).

Definition get_review_stat (review_event : json) : result json :=
  rbind (py_get review_event "state" JNull) (fun state =>
  rbind (py_get review_event "submitted_at" JNull) (fun submitted_at =>
  rbind (py_get review_event "user" (JObj [])) (fun user =>
  rbind (py_get user "login" JNull) (fun login =>
  Ok (JObj [("state", state); ("created_at", submitted_at); ("author", login)]))))).

Definition generate_pr_stats (g : generator) (pr : json) (owner repo : string)
    : M PullRequestStats :=
  pr_number ← lift (py_getitem pr "number");
  title ← lift (py_getitem pr "title");
  title50 ← lift (py_prefix 50 title);
  logger INFO [Lit "Processing PR #"; Fmt pr_number; Lit ": "; Fmt title50; Lit "..."];;
  raw_reviews ← get_pr_reviews (client_of g) owner repo pr_number;
  reviews ← lift (comprehension get_review_stat raw_reviews);
  raw_timeline ← get_pr_timeline (client_of g) owner repo pr_number;
  events ← lift (py_iter raw_timeline);
  timeline ← lift (comprehension get_timeline_stat events);
  request_to_review ← lift (_get_request_to_review_timestamp pr raw_timeline);
  approval_timestamp ← lift (_get_approval_timestamp raw_reviews);
  review_given_timestamp ← lift (_get_review_given_timestamp raw_reviews);
  created_at ← lift (py_getitem pr "created_at");
  updated_at ← lift (py_getitem pr "updated_at");
  closed_at ← lift (py_getitem pr "closed_at");
  merged_at ← lift (py_getitem pr "merged_at");
  user ← lift (py_getitem pr "user");
  login ← lift (py_getitem user "login");
  number ← lift (py_getitem pr "number");
  title ← lift (py_getitem pr "title");
  mret {| pr_meta := {| created_at := created_at; updated_at := updated_at;
                        closed_at := closed_at; merged_at := merged_at;
                        author := login; number := number; title := title |};
          request_to_review_timestamp := request_to_review;
          pr_approved_timestamp := approval_timestamp;
          review_given_timestamp := review_given_timestamp;
          reviews := reviews;
          timeline := timeline |}.

(** [open(output_file, ...)]: the default [None] is not a path. *)
Definition open_path (output_file : option string) : M string :=
  match output_file with
  | Some path => mret path
  | None => raise TypeError
  end.

Definition _init_json_output (output_file : option string) (repo_info : dict) : M unit :=
  now ← now_isoformat;
  let initial_data :=
    JObj [("repository", JObj repo_info);
          ("generated_at", JStr now);
          ("pull_requests", JArr [])] in
  path ← open_path output_file;
  json_dump path initial_data.

(** [data['pull_requests'].append(item)], on the value read from the
    file; the list is changed in place, inside [data]. *)
Definition append_pull_request (data item : json) : result json :=
  rbind (py_getitem data "pull_requests") (fun prs =>
  match data, prs with
  | JObj d, JArr items => Ok (JObj (dict_set d "pull_requests" (JArr (items ++ [item]))))
  | _, _ => Raise AttributeError
  end).

Definition _append_pr_to_json (output_file : option string) (pr_stats : PullRequestStats)
    : M unit :=
  path ← open_path output_file;
  data ← json_load path;
  data ← lift (append_pull_request data (asdict pr_stats));
  path ← open_path output_file;
  json_dump path data.

Fixpoint split_on (sep : ascii) (s : string) : list string :=
  match s with
  | EmptyString => [EmptyString]
  | String c s' =>
      if Ascii.eqb c sep then EmptyString :: split_on sep s'
      else
        match split_on sep s' with
        | part :: parts => String c part :: parts
        | [] => [String c EmptyString]
        end
  end.

(** The [try] block of the loop of [generate_stats]. *)
Definition try_body (g : generator) (owner repo : string) (output_file : option string)
    (pr_stats : list PullRequestStats) (pr : json) : M (list PullRequestStats) :=
  stats ← generate_pr_stats g pr owner repo;
  _append_pr_to_json output_file stats;;
  mret (pr_stats ++ [stats]).

(** Its [except Exception as e] block, with the [continue]. *)
Definition except_body (pr_stats : list PullRequestStats) (pr : json) (e : exn)
    : M (list PullRequestStats) :=
  number ← lift (py_getitem pr "number");
  logger ERROR [Lit "Error processing PR #"; Fmt number; Lit ": "; FmtExn e];;
  mret pr_stats.

(** One round of the loop. *)
Definition process_pr (g : generator) (owner repo : string) (output_file : option string)
    (pr_stats : list PullRequestStats) (pr : json) : M (list PullRequestStats) :=
  try_except (try_body g owner repo output_file pr_stats pr) (except_body pr_stats pr).

Definition process_prs (g : generator) (owner repo : string) (output_file : option string)
    : list PullRequestStats -> list json -> M (list PullRequestStats) :=
  foldM (process_pr g owner repo output_file).

Definition generate_stats (g : generator) (repo_spec : string)
    (date_from date_to author : option string) (output_file : option string)
    : M RepositoryStats :=
  match split_on "/" repo_spec with
  | [owner; repo] =>
      logger INFO [Lit "Generating stats for "; Fmt (JStr owner); Lit "/"; Fmt (JStr repo)];;
      prs ← get_pull_requests (client_of g) owner repo "all";
      logger INFO [Lit "Found "; Fmt (JInt (Z.of_nat (length prs))); Lit " pull requests"];;
      logger INFO [Lit "Processing "; Fmt (JInt (Z.of_nat (length prs)));
                   Lit " pull requests after filtering"];;
      _init_json_output output_file [];;
      pr_stats ← process_prs g owner repo output_file [] prs;
      now ← now_isoformat;
      mret {| repository :=
                [("name", repo); ("owner", owner);
                 ("url", String.append "https://github.com/"
                           (String.append owner (String.append "/" repo)))];
              generated_at := now;
              pull_requests := pr_stats |}
  | _ => raise ValueError
  end.

(** [dataclasses.asdict] on the result of a run. *)
Definition asdict_stats (stats : RepositoryStats) : json :=
  JObj [("repository", JObj (map (fun kv => (fst kv, JStr (snd kv))) (repository stats)));
        ("generated_at", JStr (generated_at stats));
        ("pull_requests", JArr (map asdict (pull_requests stats)))].

Definition export_json (stats : RepositoryStats) (output_file : string) : M unit :=
  json_dump output_file (asdict_stats stats);;
  logger INFO [Lit "Exported JSON to "; Fmt (JStr output_file)].

(** [len(v)]. *)
Definition py_len (v : json) : result Z :=
  match v with
  | JStr s => Ok (Z.of_nat (String.length s))
  | JArr l => Ok (Z.of_nat (length l))
  | JObj d => Ok (Z.of_nat (length d))
  | _ => Raise TypeError
  end.

(** [pr.name] on a [PullRequestStats]: the dataclass has the six fields
    it declares, [pr_meta] being given by its own fields; any other name
    is an [AttributeError]. *)
Definition getattr (pr : PullRequestStats) (name : string) : result json :=
  if String.eqb name "pr_meta" then Ok (asdict_pr (pr_meta pr))
  else if String.eqb name "request_to_review_timestamp" then Ok (request_to_review_timestamp pr)
  else if String.eqb name "pr_approved_timestamp" then Ok (pr_approved_timestamp pr)
  else if String.eqb name "review_given_timestamp" then Ok (review_given_timestamp pr)
  else if String.eqb name "reviews" then Ok (JArr (reviews pr))
  else if String.eqb name "timeline" then Ok (JArr (timeline pr))
  else Raise AttributeError.

(** The row [export_csv] builds for a record, its items evaluated left
    to right. *)
Definition csv_row (pr : PullRequestStats) : result (list json) :=
  rbind (getattr pr "pr_number") (fun pr_number =>
  rbind (getattr pr "title") (fun title =>
  rbind (getattr pr "author") (fun author =>
  rbind (getattr pr "created_at") (fun created_at =>
  rbind (getattr pr "request_to_review_timestamp") (fun request_to_review =>
  rbind (getattr pr "pr_approved_timestamp") (fun pr_approved =>
  rbind (getattr pr "review_given_timestamp") (fun review_given =>
  rbind (getattr pr "pr_merge_timestamp") (fun pr_merge =>
  rbind (getattr pr "is_closed") (fun is_closed =>
  rbind (getattr pr "comments_timestamps") (fun comments_timestamps =>
  rbind (py_getitem comments_timestamps "total_comments") (fun total_comments =>
  rbind (getattr pr "update_timestamps") (fun update_timestamps =>
  rbind (py_len update_timestamps) (fun total_updates =>
  Ok [pr_number; title; author; created_at; request_to_review; pr_approved;
      review_given; pr_merge; is_closed; total_comments; JInt total_updates]))))))))))))).

(** [export_csv]: the file is opened for writing and the header row is
    written, then one row for each record; the text of the file, closed
    when the [with] block is left, starts with the header and is not
    JSON. *)
Definition export_csv (stats : RepositoryStats) (output_file : string) : M unit :=
  write_text output_file;;
  foldM (fun (_ : unit) (pr : PullRequestStats) =>
           row ← lift (csv_row pr);
           write_text output_file) tt (pull_requests stats);;
  logger INFO [Lit "Exported CSV to "; Fmt (JStr output_file)].

End PRStatsGenerator.

(** ** The vocabulary of the statements *)

Module Terms.
Import Py World GitHubAPIClient PRStatsGenerator.

(** The value of a field of a raw object, [None] when it is missing:
    [r.get(k)]. *)
Definition field (r : dict) (k : string) : json := default JNull (dict_get r k).

Definition is_draft (pr : dict) : bool := truthy (default (JBool false) (dict_get pr "draft")).

Definition marks_ready (event : dict) : Prop :=
  field event "event" = JStr "ready_for_review" \/
  field event "event" = JStr "review_requested".

Definition has_state (s : string) (r : dict) : bool :=
  match dict_get r "state" with
  | Some (JStr s') => String.eqb s' s
  | _ => false
  end.

(** A body counts when Python takes it as true: a non-empty string does;
    no body, [null] and the empty string do not. *)
Definition has_body (r : dict) : bool := truthy (field r "body").

(** The reviews [_get_review_given_timestamp] selects: the test of the
    code, with the literals the code compares [state] to. *)
Definition substantive (r : dict) : bool :=
  has_state "REQUEST_CHANGES" r || has_state "COMMENT" r ||
  (has_state "APPROVED" r && has_body r).

(** The values the service gives to the [state] of a review.
    [REQUEST_CHANGES] and [COMMENT] are not among them: they are the
    names of the actions that submit a review, the states that result
    being [CHANGES_REQUESTED] and [COMMENTED]. *)
Definition service_states : list string :=
  ["APPROVED"; "CHANGES_REQUESTED"; "COMMENTED"; "DISMISSED"; "PENDING"].

Definition reported_by_service (r : dict) : Prop :=
  exists s, dict_get r "state" = Some (JStr s) /\ In s service_states.

(** The reviews the specification counts: those whose state is changes
    requested or commented, or approved with a non-empty body, the states
    being the ones the service reports. *)
Definition substantive_as_specified (r : dict) : bool :=
  has_state "CHANGES_REQUESTED" r || has_state "COMMENTED" r ||
  (has_state "APPROVED" r && has_body r).

Definition approved_with_body (r : dict) : bool :=
  has_state "APPROVED" r && has_body r.

(** [m] is the least [submitted_at] among [rs], as strings. *)
Definition least_submitted (m : string) (rs : list dict) : Prop :=
  (exists r, In r rs /\ dict_get r "submitted_at" = Some (JStr m)) /\
  (forall r t, In r rs -> dict_get r "submitted_at" = Some (JStr t) ->
               String.leb m t = true).

Definition all_stamped (rs : list dict) : Prop :=
  Forall (fun r => exists t, dict_get r "submitted_at" = Some (JStr t)) rs.

(** The request [_make_request] and [_paginate] send. *)
Definition api_request (c : client) (url : fstring) (params : option dict) : request :=
  {| req_url := url; req_params := params;
     req_headers := merge_headers (session_headers c) [] |}.

(** The request [get_pr_timeline] sends. *)
Definition timeline_request (c : client) (owner repo : string) (issue_number : json)
    : request :=
  {| req_url := repo_url c owner repo ++ [Lit "/issues/"; Fmt issue_number; Lit "/timeline"];
     req_params := None;
     req_headers := merge_headers (session_headers c) [("Accept", timeline_accept)] |}.

(** The world of the 403 round once the warning is logged, before the
    sleep. *)
Definition warned (c : client) (url : fstring) (params : option dict)
    (rest : list arrival) (T : Z) (w : world) : world :=
  log_event (Log WARNING [Lit "Rate limited. Sleeping for ";
                          Fmt (JInt (Z.max (T - clock w + 60) 60)); Lit " seconds"])
    (answered rest
       (log_event (Get {| req_url := url; req_params := params;
                          req_headers := merge_headers (session_headers c) [] |}) w)).

(** The world after the 403 round: the request is out, the warning is
    logged, the client has slept. *)
Definition backed_off (c : client) (url : fstring) (params : option dict)
    (rest : list arrival) (T : Z) (w : world) : world :=
  let sleep_time := Z.max (T - clock w + 60) 60 in
  slept sleep_time
    (log_event (Sleep sleep_time)
       (log_event (Log WARNING [Lit "Rate limited. Sleeping for "; Fmt (JInt sleep_time);
                                Lit " seconds"])
          (answered rest (log_event (Get (api_request c url params)) w)))).

(** The query of page [page]: [page] and [per_page] set on [params]. *)
Definition page_params (params : dict) (page : Z) : dict :=
  dict_set (dict_set params "page" (JInt page)) "per_page" (JInt 100).

(** The page source: successive requests for the pages [page],
    [page + 1], ... of [url], each through [_make_request], return the
    bodies [pages] and lead from [w] to [w']. *)
Fixpoint serves_pages (c : client) (url : fstring) (params : dict) (page : Z)
    (pages : list json) (w w' : world) : Prop :=
  match pages with
  | [] => w' = w
  | data :: more =>
      exists w1,
        _make_request c url (Some (page_params params page)) w = Some (Ok data, w1) /\
        serves_pages c url params (page + 1) more w1 w'
  end.

(** A page after which [_paginate] goes on: a list of 100 items or more. *)
Definition full_page (data : json) : Prop :=
  exists items, data = JArr items /\ (100 <= length items)%nat.

(** A page after which it stops: not a list, or fewer than 100 items. *)
Definition last_page (data : json) : Prop :=
  is_list data = false \/ (length (list_items data) < 100)%nat.

(** A 200 answer with a JSON body. *)
Definition ok_answer (data : json) : arrival :=
  Answer {| status_code := 200; body := Some data; reset := ResetAbsent |}.

(** The sleeps of a client that meets 403 answers with the reset times
    [Ts], starting at time [now]. *)
Fixpoint backoffs (now : Z) (Ts : list Z) : list Z :=
  match Ts with
  | [] => []
  | T :: Ts' =>
      let sleep_time := Z.max (T - now + 60) 60 in
      sleep_time :: backoffs (now + sleep_time) Ts'
  end.

(** The GET events of a trace. *)
Definition requests_of (t : list event) : list request :=
  omap (fun e => match e with Get r => Some r | _ => None end) t.

Definition sleeps_of (t : list event) : list Z :=
  omap (fun e => match e with Sleep s => Some s | _ => None end) t.

(** The document [_init_json_output] writes in [generate_stats], and
    what it has become once the records [stats] are appended. *)
Definition document (now : string) (stats : list PullRequestStats) : json :=
  JObj [("repository", JObj []);
        ("generated_at", JStr now);
        ("pull_requests", JArr (map asdict stats))].

(** The file holds valid JSON, and this is its [pull_requests] array. *)
Definition persisted_pull_requests (path : string) (w : world) : option (list json) :=
  match disk w !! path with
  | Some (Json doc) =>
      match py_getitem doc "pull_requests" with
      | Ok (JArr items) => Some items
      | _ => None
      end
  | _ => None
  end.

(** The errors the loop of [generate_stats] logs for the PRs it skips. *)
Definition is_pr_error (e : event) : bool :=
  match e with
  | Log ERROR (Lit s :: _) => String.eqb s "Error processing PR #"
  | _ => false
  end.

Definition pr_errors (t : list event) : nat := length (List.filter is_pr_error t).

(** A computation that leaves the files alone and logs no such error. *)
Definition steady {A} (c : M A) : Prop :=
  forall w r w',
    c w = Some (r, w') ->
    disk w' = disk w /\ pr_errors (trace w') = pr_errors (trace w).

(** The loop of [generate_stats] over [prs], started in [w0]: whenever it
    has done [i] rounds, the output file has exactly [i] entries. *)
Definition one_entry_per_round (g : generator) (owner repo path : string)
    (prs : list json) (w0 : world) : Prop :=
  forall i stats_i w_i,
    (i <= length prs)%nat ->
    process_prs g owner repo (Some path) [] (take i prs) w0 = Some (Ok stats_i, w_i) ->
    exists items, persisted_pull_requests path w_i = Some items /\ length items = i.

(** A sample run: the repository has three pull requests; the service
    answers the list of pull requests, then the reviews and the timeline
    of the first, then fails with a 500 on the reviews of the second,
    then answers the reviews and the timeline of the third. *)
Definition sample_pr (n : Z) (created : string) : json :=
  JObj [("number", JInt n); ("title", JStr "Update"); ("draft", JBool false);
        ("created_at", JStr created); ("updated_at", JStr created);
        ("closed_at", JNull); ("merged_at", JNull);
        ("user", JObj [("login", JStr "octocat")])].

Definition sample_prs : list json :=
  [sample_pr 1 "2024-01-01T00:00:00Z";
   sample_pr 2 "2024-01-02T00:00:00Z";
   sample_pr 3 "2024-01-03T00:00:00Z"].

Definition server_error : arrival :=
  Answer {| status_code := 500; body := None; reset := ResetAbsent |}.

Definition rate_limited (T : Z) : arrival :=
  Answer {| status_code := 403; body := None; reset := ResetAt T |}.

Definition sample_world : world :=
  {| incoming := [ok_answer (JArr sample_prs);
                  ok_answer (JArr []); ok_answer (JArr []);
                  server_error;
                  ok_answer (JArr []); ok_answer (JArr [])];
     clock := 1704067200;
     utc_now := "2024-01-01T00:00:00+00:00";
     trace := [];
     disk := ∅ |}.

(** The same answers, from the first round of the loop on: the output
    file has just been initialised. *)
Definition sample_loop_start : world :=
  {| incoming := [ok_answer (JArr []); ok_answer (JArr []);
                  server_error;
                  ok_answer (JArr []); ok_answer (JArr [])];
     clock := 1704067200;
     utc_now := "2024-01-01T00:00:00+00:00";
     trace := [];
     disk := {["pr_stats.json" := Json (document "2024-01-01T00:00:00+00:00" [])]} |}.

Definition sample_stats (n : Z) (created : string) : PullRequestStats :=
  {| pr_meta := {| created_at := JStr created; updated_at := JStr created;
                   closed_at := JNull; merged_at := JNull;
                   author := JStr "octocat"; number := JInt n;
                   title := JStr "Update" |};
     request_to_review_timestamp := JStr created;
     pr_approved_timestamp := JNull;
     review_given_timestamp := JNull;
     reviews := [];
     timeline := [] |}.

(** The world once [_make_request] has sent its request and taken the
    answer that came, [rest] being the answers still to come. *)
Definition sent (c : client) (url : fstring) (params : option dict)
    (rest : list arrival) (w : world) : world :=
  answered rest (log_event (Get (api_request c url params)) w).

(** A status [_make_request] has no branch for and [raise_for_status]
    lets through: neither 200, 403, 404 nor an error status. *)
Definition let_through (status : Z) : Prop :=
  status <> 200 /\ status <> 403 /\ status <> 404 /\ (status < 400 \/ 600 <= status).

(** An error status other than 403 and 404. *)
Definition fatal_status (status : Z) : Prop :=
  status <> 403 /\ status <> 404 /\ 400 <= status < 600.

(** An answer after which [_make_request] asks again. *)
Definition asks_again (a : arrival) : Prop :=
  match a with
  | Answer r => (status_code r = 403 /\ reset r <> ResetMalformed) \/ let_through (status_code r)
  | Unreachable => False
  end.

Definition total (naps : list Z) : Z := foldr Z.add 0 naps.

(** What [generate_pr_stats] makes of the raw reviews, their projections
    and the raw timeline once they are fetched. *)
Definition assemble (pr : json) (raw_reviews reviews : list json) (raw_timeline : json)
    : result PullRequestStats :=
  rbind (py_iter raw_timeline) (fun events =>
  rbind (comprehension get_timeline_stat events) (fun timeline =>
  rbind (_get_request_to_review_timestamp pr raw_timeline) (fun request_to_review =>
  rbind (_get_approval_timestamp raw_reviews) (fun approval_timestamp =>
  rbind (_get_review_given_timestamp raw_reviews) (fun review_given_timestamp =>
  rbind (py_getitem pr "created_at") (fun created_at =>
  rbind (py_getitem pr "updated_at") (fun updated_at =>
  rbind (py_getitem pr "closed_at") (fun closed_at =>
  rbind (py_getitem pr "merged_at") (fun merged_at =>
  rbind (py_getitem pr "user") (fun user =>
  rbind (py_getitem user "login") (fun login =>
  rbind (py_getitem pr "number") (fun number =>
  rbind (py_getitem pr "title") (fun title =>
  Ok {| pr_meta := {| created_at := created_at; updated_at := updated_at;
                      closed_at := closed_at; merged_at := merged_at;
                      author := login; number := number; title := title |};
        request_to_review_timestamp := request_to_review;
        pr_approved_timestamp := approval_timestamp;
        review_given_timestamp := review_given_timestamp;
        reviews := reviews;
        timeline := timeline |}))))))))))))).

(** The line [generate_pr_stats] logs first. *)
Definition processing_line (pr_number title50 : json) : event :=
  Log INFO [Lit "Processing PR #"; Fmt pr_number; Lit ": "; Fmt title50; Lit "..."].

(** A raw object [get_review_stat] cannot project: not a dict, or with a
    [user] that is not one. *)
Definition unprojectable_review (r : json) : Prop :=
  match r with
  | JObj d => match dict_get d "user" with
              | Some (JObj _) | None => False
              | Some _ => True
              end
  | _ => True
  end.

(** A raw object [get_timeline_stat] cannot project: not a dict, or with
    an [actor] or an [author] that is not one. *)
Definition unprojectable_event (e : json) : Prop :=
  match e with
  | JObj d =>
      match dict_get d "actor", dict_get d "author" with
      | (Some (JObj _) | None), (Some (JObj _) | None) => False
      | _, _ => True
      end
  | _ => True
  end.

(** How many times a character occurs in a string. *)
Fixpoint occurrences (c : ascii) (s : string) : nat :=
  match s with
  | EmptyString => 0
  | String c' s' => (if Ascii.eqb c' c then 1 else 0) + occurrences c s'
  end.

(** The [number] of a raw pull request, when it has one. *)
Definition number_of (pr : json) : option json :=
  match py_getitem pr "number" with
  | Ok n => Some n
  | Raise _ => None
  end.

(** [_paginate] from the top of its loop, with the parameters, the
    results and the page number it has there. *)
Definition paginate_from (c : client) (url : fstring) (params : dict)
    (results : list json) (page : Z) : M (list json) :=
  fun w => paginate_loop (length (incoming w)) c url params results page w.

(** The requests for the pages [page], [page + 1], ..., the first sent
    [S k1] times, the next [S k2] times, and so on. *)
Fixpoint page_requests (c : client) (url : fstring) (params : dict) (page : Z)
    (tries : list nat) : list request :=
  match tries with
  | [] => []
  | k :: more =>
      repeat (api_request c url (Some (page_params params page))) (S k) ++
      page_requests c url params (page + 1) more
  end.

(** The world a computation leaves, for the samples. *)
Definition end_of {A} (c : M A) (w : world) : world :=
  match c w with
  | Some (_, w') => w'
  | None => w
  end.

(** A client that meets a 403 with a reset time 60 seconds ahead, and then
    the answer [a]. *)
Definition limited_once (a : arrival) : world :=
  {| incoming := [rate_limited 1704067260; a];
     clock := 1704067200;
     utc_now := "2024-01-01T00:00:00+00:00";
     trace := [];
     disk := ∅ |}.

(** The line the loop of [generate_stats] logs for a pull request it
    skips. *)
Definition error_line (n : json) (e : exn) : event :=
  Log ERROR [Lit "Error processing PR #"; Fmt n; Lit ": "; FmtExn e].

(** A world in which the service has the answers [answers] to give and
    nothing has happened yet. *)
Definition serving (answers : list arrival) : world :=
  {| incoming := answers;
     clock := 1704067200;
     utc_now := "2024-01-01T00:00:00+00:00";
     trace := [];
     disk := ∅ |}.

(** A review and a timeline event left by an account that no longer
    exists: the service gives [null] for the user. *)
Definition ghost_review : json :=
  JObj [("state", JStr "APPROVED"); ("submitted_at", JStr "2024-01-02T00:00:00Z");
        ("user", JNull)].

Definition ghost_event : json :=
  JObj [("event", JStr "labeled"); ("created_at", JStr "2024-01-02T00:00:00Z");
        ("actor", JNull)].



(** The first line [generate_stats] logs, and the world once it has
    listed the pull requests [prs]: two more lines are logged. *)
Definition starting_line (owner repo : string) : event :=
  Log INFO [Lit "Generating stats for "; Fmt (JStr owner); Lit "/"; Fmt (JStr repo)].

Definition listed (prs : list json) (w : world) : world :=
  log_event (Log INFO [Lit "Processing "; Fmt (JInt (Z.of_nat (length prs)));
                       Lit " pull requests after filtering"])
    (log_event (Log INFO [Lit "Found "; Fmt (JInt (Z.of_nat (length prs)));
                          Lit " pull requests"]) w).

(** What [generate_stats] returns for the records [pr_stats]. *)
Definition repository_stats (owner repo now : string) (pr_stats : list PullRequestStats)
    : RepositoryStats :=
  {| repository :=
       [("name", repo); ("owner", owner);
        ("url", String.append "https://github.com/"
                  (String.append owner (String.append "/" repo)))];
     generated_at := now;
     pull_requests := pr_stats |}.

(** The numbers of the records of a run. *)
Definition record_numbers (stats : list PullRequestStats) : list json :=
  map (fun s => number (pr_meta s)) stats.

(** The world once the text of a CSV file is at [path]. *)
Definition csv_written (path : string) (w : world) : world :=
  {| incoming := incoming w; clock := clock w; utc_now := utc_now w;
     trace := trace w; disk := <[path := Garbage]> (disk w) |}.

(** Reviews for the samples: two approvals, and a pending review, which
    has no [submitted_at] yet. *)
Definition early_approval : dict :=
  [("state", JStr "APPROVED"); ("body", JStr "LGTM");
   ("submitted_at", JStr "2024-01-03T08:00:00Z")].

Definition late_approval : dict :=
  [("state", JStr "APPROVED"); ("body", JStr "");
   ("submitted_at", JStr "2024-01-05T08:00:00Z")].

Definition pending_review : dict := [("state", JStr "PENDING")].

(** A request of the client made for [token], built for the repository
    [owner]/[repo]: it carries the token and the user agent, one of the
    two [Accept] headers, and the URL given to [session.get] is the text
    [https://api.github.com/repos/], the owner, a slash, the name, and
    the path of one of the three resources a run reads, the owner and the
    name put in as they are. *)
Definition addressed (token owner repo : string) (q : request) : Prop :=
  header_get (req_headers q) "Authorization" = Some (String.append "token " token) /\
  header_get (req_headers q) "User-Agent" = Some "GitHub-PR-Stats-Generator" /\
  (header_get (req_headers q) "Accept" = Some default_accept \/
   header_get (req_headers q) "Accept" = Some timeline_accept) /\
  exists rest,
    req_url q = [Fmt (JStr "https://api.github.com"); Lit "/repos/"; Fmt (JStr owner);
                 Lit "/"; Fmt (JStr repo)] ++ rest /\
    (rest = [Lit "/pulls"] \/
     (exists n, rest = [Lit "/pulls/"; Fmt n; Lit "/reviews"]) \/
     (exists n, rest = [Lit "/issues/"; Fmt n; Lit "/timeline"])).

(** A computation all of whose requests satisfy [P]. *)
Definition sends_only (P : request -> Prop) {A} (c : M A) : Prop :=
  forall w r w',
    c w = Some (r, w') ->
    exists reqs, requests_of (trace w') = requests_of (trace w) ++ reqs /\ Forall P reqs.

(** A pull request opened as a draft. *)
Definition draft_pr : json :=
  JObj [("number", JInt 1); ("title", JStr "Update"); ("draft", JBool true);
        ("created_at", JStr "2024-01-01T00:00:00Z");
        ("updated_at", JStr "2024-01-01T00:00:00Z");
        ("closed_at", JNull); ("merged_at", JNull);
        ("user", JObj [("login", JStr "octocat")])].

End Terms.

(** ** The derived timestamps *)

Module Timestamps.
Import Py PRStatsGenerator Terms.

Lemma py_eq_str (v : json) (c : string) : py_eq v (JStr c) = true <-> v = JStr c.
Proof.
  destruct v as [|b|n|s|l|d]; simpl; try (split; discriminate).
  rewrite String.eqb_eq. split; congruence.
Qed.

Lemma has_state_spec (s : string) (r : dict) :
  has_state s r = true <-> dict_get r "state" = Some (JStr s).
Proof.
  unfold has_state. destruct (dict_get r "state") as [[]|]; try (split; congruence).
  rewrite String.eqb_eq. split; congruence.
Qed.

Lemma has_state_py_eq (s : string) (r : dict) :
  py_eq (field r "state") (JStr s) = has_state s r.
Proof.
  unfold field, has_state. destruct (dict_get r "state") as [v|]; [|reflexivity].
  destruct v as [|b|n|s'|l|d]; reflexivity.
Qed.

Lemma is_approved_dict (r : dict) : is_approved (JObj r) = Ok (has_state "APPROVED" r).
Proof. unfold is_approved. cbn [py_get rbind]. f_equal. apply (has_state_py_eq "APPROVED"). Qed.

Lemma is_substantive_dict (r : dict) : is_substantive (JObj r) = Ok (substantive r).
Proof.
  unfold is_substantive, substantive, py_in, has_body.
  cbn [py_get rbind existsb].
  change (match dict_get r "state" with Some v => v | None => JNull end)
    with (field r "state").
  change (match dict_get r "body" with Some v => v | None => JNull end)
    with (field r "body").
  rewrite !has_state_py_eq.
  destruct (has_state "REQUEST_CHANGES" r), (has_state "COMMENT" r),
    (has_state "APPROVED" r); reflexivity.
Qed.

Lemma select_dicts (keep : json -> result bool) (p : dict -> bool) (rs : list dict) :
  (forall r, keep (JObj r) = Ok (p r)) ->
  select keep (map JObj rs) = Ok (map JObj (List.filter p rs)).
Proof.
  intros Hkeep. induction rs as [|r rs IH]; simpl; [reflexivity|].
  rewrite Hkeep, IH. simpl. destruct (p r); reflexivity.
Qed.

(** The order on strings. *)
Lemma ltb_leb (s t : string) : String.ltb s t = true -> String.leb s t = true.
Proof. unfold String.ltb, String.leb. destruct (String.compare s t); congruence. Qed.

Lemma not_ltb_leb (s t : string) : String.ltb s t = false -> String.leb t s = true.
Proof.
  unfold String.ltb, String.leb. rewrite (String.compare_antisym t s).
  destruct (String.compare s t); simpl; congruence.
Qed.

Lemma leb_refl (s : string) : String.leb s s = true.
Proof. apply Is_true_true. exact (reflexivity (R := String.le) s). Qed.

Lemma leb_trans (s t u : string) :
  String.leb s t = true -> String.leb t u = true -> String.leb s u = true.
Proof.
  intros H1%Is_true_true H2%Is_true_true. apply Is_true_true.
  exact (transitivity (R := String.le) H1 H2).
Qed.

(** The scan of [min] keeps the first item with the least key. *)
Lemma min_scan_least (rest : list dict) : forall (best : dict) (tb : string),
  dict_get best "submitted_at" = Some (JStr tb) ->
  all_stamped rest ->
  exists m tm,
    min_scan "submitted_at" (JObj best) (JStr tb) (map JObj rest) = Ok (JObj m) /\
    dict_get m "submitted_at" = Some (JStr tm) /\
    In m (best :: rest) /\
    String.leb tm tb = true /\
    (forall r t, In r rest -> dict_get r "submitted_at" = Some (JStr t) ->
                 String.leb tm t = true).
Proof.
  induction rest as [|x rest IH]; intros best tb Hbest Hall.
  - exists best, tb. simpl. repeat split; auto using leb_refl; intros r t [].
  - inversion Hall as [|? ? [tx Hx] Hrest]; subst. simpl. rewrite Hx. simpl.
    destruct (String.ltb tx tb) eqn:Hlt.
    + destruct (IH x tx Hx Hrest) as (m & tm & Hrun & Hm & Hin & Hle & Hlow).
      exists m, tm.
      split; [exact Hrun|]. split; [exact Hm|]. split; [|split].
      * right. exact Hin.
      * eauto using leb_trans, ltb_leb.
      * intros r t [<-|Hr] Ht; [|eauto]. rewrite Hx in Ht. congruence.
    + destruct (IH best tb Hbest Hrest) as (m & tm & Hrun & Hm & Hin & Hle & Hlow).
      exists m, tm.
      split; [exact Hrun|]. split; [exact Hm|]. split; [|split].
      * destruct Hin as [<-|Hin]; [left; reflexivity | right; right; exact Hin].
      * exact Hle.
      * intros r t [<-|Hr] Ht; [|eauto]. rewrite Hx in Ht. injection Ht as <-.
        eauto using leb_trans, not_ltb_leb.
Qed.

Lemma earliest_submitted_none : earliest_submitted [] = Ok JNull.
Proof. reflexivity. Qed.

Lemma earliest_submitted_least (rs : list dict) :
  rs <> [] -> all_stamped rs ->
  exists m, earliest_submitted (map JObj rs) = Ok (JStr m) /\ least_submitted m rs.
Proof.
  intros Hne Hall. destruct rs as [|x rest]; [congruence|].
  inversion Hall as [|? ? [tx Hx] Hrest]; subst.
  destruct (min_scan_least rest x tx Hx Hrest) as (m & tm & Hrun & Hm & Hin & Hle & Hlow).
  exists tm. unfold earliest_submitted. simpl. rewrite Hx. simpl. rewrite Hrun. simpl.
  rewrite Hm. split; [reflexivity|]. split; [eauto|].
  intros r t [<-|Hr] Ht; [|eauto]. rewrite Hx in Ht. congruence.
Qed.

Lemma py_get_field (r : dict) (k : string) : py_get (JObj r) k JNull = Ok (field r k).
Proof. reflexivity. Qed.

Lemma marks_ready_py_in (e : dict) :
  py_in (field e "event") ["ready_for_review"; "review_requested"] = true <-> marks_ready e.
Proof.
  unfold py_in, marks_ready. cbn [existsb].
  rewrite orb_false_r, orb_true_iff, !py_eq_str. reflexivity.
Qed.

Lemma scan_timeline_none (pr : json) (events : list dict) :
  Forall (fun e => ~ marks_ready e) events ->
  scan_timeline pr (map JObj events) = py_getitem pr "created_at".
Proof.
  induction 1 as [|e events Hno _ IH]; [reflexivity|].
  cbn [map scan_timeline]. rewrite py_get_field. cbn [rbind].
  destruct (py_in (field e "event") _) eqn:Hin; [|exact IH].
  apply marks_ready_py_in in Hin. contradiction.
Qed.

Lemma scan_timeline_first (pr : json) (before : list dict) (event : dict) (after : list dict) :
  Forall (fun e => ~ marks_ready e) before ->
  marks_ready event ->
  scan_timeline pr (map JObj (before ++ event :: after)) = Ok (field event "created_at").
Proof.
  intros Hbefore Hevent. induction Hbefore as [|e before Hno _ IH].
  - cbn [app map scan_timeline]. rewrite !py_get_field. cbn [rbind].
    apply marks_ready_py_in in Hevent. rewrite Hevent. reflexivity.
  - cbn [app map scan_timeline]. rewrite py_get_field. cbn [rbind].
    destruct (py_in (field e "event") _) eqn:Hin; [|exact IH].
    apply marks_ready_py_in in Hin. contradiction.
Qed.

(** C3.  For a PR object and a list of timeline events: when the PR is
    not a draft, the ready-for-review timestamp is the PR's [created_at];
    when it is a draft, it is the [created_at] of the first event, in the
    order of the timeline, whose kind is [ready_for_review] or
    [review_requested]; when the timeline of a draft has no such event,
    it is the PR's [created_at] again. *)
Theorem ready_for_review_timestamp (pr : dict) (events : list dict) :
  let derived := _get_request_to_review_timestamp (JObj pr) (JArr (map JObj events)) in
  let created := py_getitem (JObj pr) "created_at" in
  (is_draft pr = false -> derived = created) /\
  (is_draft pr = true ->
     forall before event after,
       events = before ++ event :: after ->
       Forall (fun e => ~ marks_ready e) before ->
       marks_ready event ->
       derived = Ok (field event "created_at")) /\
  (is_draft pr = true ->
     Forall (fun e => ~ marks_ready e) events ->
     derived = created).
Proof.
  cbv zeta. unfold _get_request_to_review_timestamp, is_draft.
  cbn [py_get rbind py_iter].
  change (match dict_get pr "draft" with Some v => v | None => JBool false end)
    with (default (JBool false) (dict_get pr "draft")).
  split; [|split].
  - intros ->. reflexivity.
  - intros -> before event after -> Hbefore Hevent. cbn [negb].
    apply scan_timeline_first; assumption.
  - intros -> Hnone. cbn [negb]. apply scan_timeline_none. exact Hnone.
Qed.

Lemma ready_for_review_timestamp_witness :
  _get_request_to_review_timestamp
    (JObj [("draft", JBool true); ("created_at", JStr "2024-03-01T09:00:00Z")])
    (JArr (map JObj
       [[("event", JStr "labeled"); ("created_at", JStr "2024-03-01T09:05:00Z")];
        [("event", JStr "review_requested"); ("created_at", JStr "2024-03-02T10:00:00Z")];
        [("event", JStr "ready_for_review"); ("created_at", JStr "2024-03-03T11:00:00Z")]]))
  = Ok (JStr "2024-03-02T10:00:00Z").
Proof.
  apply (proj1 (proj2 (ready_for_review_timestamp
           [("draft", JBool true); ("created_at", JStr "2024-03-01T09:00:00Z")] _))
           eq_refl
           [[("event", JStr "labeled"); ("created_at", JStr "2024-03-01T09:05:00Z")]]
           [("event", JStr "review_requested"); ("created_at", JStr "2024-03-02T10:00:00Z")]
           [[("event", JStr "ready_for_review"); ("created_at", JStr "2024-03-03T11:00:00Z")]]).
  - reflexivity.
  - repeat constructor. intros [H|H]; discriminate H.
  - right. reflexivity.
Defined.

Lemma filter_nil_iff (p : dict -> bool) (rs : list dict) :
  List.filter p rs = [] <-> (forall r, In r rs -> p r = false).
Proof.
  induction rs as [|x rs IH]; simpl.
  - split; [intros _ r [] | reflexivity].
  - destruct (p x) eqn:Hx.
    + split; [discriminate|]. intros H. specialize (H x (or_introl eq_refl)). congruence.
    + rewrite IH. split.
      * intros H r [<-|Hr]; auto.
      * intros H r Hr. apply H. right. exact Hr.
Qed.

(** C4.  When some review is approved, and the approved reviews carry
    their [submitted_at] as strings, the first-approval timestamp is the
    least [submitted_at] among exactly the approved reviews, in the
    order of strings; when no review is approved it is [None]. *)
Theorem first_approval_timestamp (reviews : list dict) :
  let approved := List.filter (has_state "APPROVED") reviews in
  let derived := _get_approval_timestamp (map JObj reviews) in
  ((exists r, In r reviews /\ dict_get r "state" = Some (JStr "APPROVED")) ->
   all_stamped approved ->
   exists m, derived = Ok (JStr m) /\ least_submitted m approved) /\
  ((forall r, In r reviews -> dict_get r "state" <> Some (JStr "APPROVED")) ->
   derived = Ok JNull).
Proof.
  cbv zeta. unfold _get_approval_timestamp.
  rewrite (select_dicts is_approved (has_state "APPROVED") reviews is_approved_dict).
  cbn [rbind]. split.
  - intros (r & Hr & Hstate) Hall. apply earliest_submitted_least; [|exact Hall].
    intros Hnil. rewrite filter_nil_iff in Hnil.
    apply has_state_spec in Hstate. rewrite (Hnil r Hr) in Hstate. discriminate.
  - intros Hnone.
    assert (List.filter (has_state "APPROVED") reviews = []) as ->; [|reflexivity].
    apply filter_nil_iff. intros r Hr.
    destruct (has_state "APPROVED" r) eqn:Hs; [|reflexivity].
    apply has_state_spec in Hs. destruct (Hnone r Hr Hs).
Qed.

Lemma first_approval_timestamp_witness :
  exists m,
    _get_approval_timestamp
      (map JObj
         [[("state", JStr "APPROVED"); ("submitted_at", JStr "2024-01-05T08:00:00Z")];
          [("state", JStr "COMMENT"); ("submitted_at", JStr "2024-01-01T08:00:00Z")];
          [("state", JStr "APPROVED"); ("submitted_at", JStr "2024-01-03T08:00:00Z")]])
    = Ok (JStr m) /\
    least_submitted m
      [[("state", JStr "APPROVED"); ("submitted_at", JStr "2024-01-05T08:00:00Z")];
       [("state", JStr "APPROVED"); ("submitted_at", JStr "2024-01-03T08:00:00Z")]].
Proof.
  apply (proj1 (first_approval_timestamp
    [[("state", JStr "APPROVED"); ("submitted_at", JStr "2024-01-05T08:00:00Z")];
     [("state", JStr "COMMENT"); ("submitted_at", JStr "2024-01-01T08:00:00Z")];
     [("state", JStr "APPROVED"); ("submitted_at", JStr "2024-01-03T08:00:00Z")]])).
  - eexists. split; [left; reflexivity | reflexivity].
  - repeat constructor; eexists; reflexivity.
Defined.

(** What the code computes, in its own terms: the least [submitted_at]
    among the reviews its test selects, [None] when it selects none. *)
Lemma review_given_is_least_selected (reviews : list dict) :
  let qualifying := List.filter substantive reviews in
  let derived := _get_review_given_timestamp (map JObj reviews) in
  ((exists r, In r reviews /\ substantive r = true) ->
   all_stamped qualifying ->
   exists m, derived = Ok (JStr m) /\ least_submitted m qualifying) /\
  ((forall r, In r reviews -> substantive r = false) -> derived = Ok JNull).
Proof.
  cbv zeta. unfold _get_review_given_timestamp.
  rewrite (select_dicts is_substantive substantive reviews is_substantive_dict).
  cbn [rbind]. split.
  - intros (r & Hr & Hsub) Hall. apply earliest_submitted_least; [|exact Hall].
    intros Hnil. rewrite filter_nil_iff in Hnil. rewrite (Hnil r Hr) in Hsub. discriminate.
  - intros Hnone.
    assert (List.filter substantive reviews = []) as ->; [|reflexivity].
    apply filter_nil_iff. exact Hnone.
Qed.

(** On a review in a state the service reports, the test of the code
    comes down to: approved, with a body. *)
Lemma substantive_of_reported (r : dict) :
  reported_by_service r -> substantive r = approved_with_body r.
Proof.
  intros (s & Hs & Hin). unfold substantive, approved_with_body, has_state. rewrite Hs.
  cbn [In service_states] in Hin.
  destruct Hin as [<-|[<-|[<-|[<-|[<-|[]]]]]]; reflexivity.
Qed.

Lemma filter_reported (reviews : list dict) :
  Forall reported_by_service reviews ->
  List.filter substantive reviews = List.filter approved_with_body reviews.
Proof.
  induction 1 as [|r rs Hr _ IH]; [reflexivity|].
  cbn [List.filter]. rewrite (substantive_of_reported r Hr), IH. reflexivity.
Qed.

(** C5, on the states the service reports.  The code compares the state
    of a review to [REQUEST_CHANGES] and [COMMENT], which the service never
    reports, and to [APPROVED], which it does.  So on reviews as the
    service gives them the reviews selected are the approvals with a
    body and no others, and the timestamp is the least [submitted_at]
    among those.  When there is no approval with a body it is [None],
    whereas the specification gives [t], the least [submitted_at] of the
    changes-requested and commented reviews.  On the example of the
    specification, a pull request created at 2024-01-01T00:00:00Z, not a
    draft, with an approval without body at 2024-01-02T00:00:00Z and a
    commented review at 2024-01-01T12:00:00Z, the first two derived
    values are as specified and the first-substantive-review timestamp is
    [None], not 2024-01-01T12:00:00Z. *)
Theorem commented_reviews_are_not_counted (reviews : list dict) :
  Forall reported_by_service reviews ->
  List.filter substantive reviews = List.filter approved_with_body reviews /\
  _get_review_given_timestamp (map JObj reviews)
  = earliest_submitted (map JObj (List.filter approved_with_body reviews)) /\
  (forall t,
     (forall r, In r reviews -> approved_with_body r = false) ->
     least_submitted t (List.filter substantive_as_specified reviews) ->
     _get_review_given_timestamp (map JObj reviews) = Ok JNull /\
     _get_review_given_timestamp (map JObj reviews) <> Ok (JStr t)) /\
  (forall (timeline : json) (rest : dict),
     let pr := JObj (("created_at", JStr "2024-01-01T00:00:00Z") ::
                     ("draft", JBool false) :: rest) in
     let approval := [("state", JStr "APPROVED");
                      ("submitted_at", JStr "2024-01-02T00:00:00Z")] in
     let commented := [("state", JStr "COMMENTED");
                       ("submitted_at", JStr "2024-01-01T12:00:00Z")] in
     Forall reported_by_service [approval; commented] /\
     least_submitted "2024-01-01T12:00:00Z"
       (List.filter substantive_as_specified [approval; commented]) /\
     _get_request_to_review_timestamp pr timeline = Ok (JStr "2024-01-01T00:00:00Z") /\
     _get_approval_timestamp (map JObj [approval; commented])
       = Ok (JStr "2024-01-02T00:00:00Z") /\
     _get_review_given_timestamp (map JObj [approval; commented]) = Ok JNull /\
     _get_review_given_timestamp (map JObj [commented; approval]) = Ok JNull).
Proof.
  intros Hreported.
  pose proof (filter_reported reviews Hreported) as Hfilter.
  assert (_get_review_given_timestamp (map JObj reviews)
          = earliest_submitted (map JObj (List.filter approved_with_body reviews))) as Hcode.
  { unfold _get_review_given_timestamp.
    rewrite (select_dicts is_substantive substantive reviews is_substantive_dict).
    cbn [rbind]. rewrite Hfilter. reflexivity. }
  split; [exact Hfilter|]. split; [exact Hcode|]. split.
  - intros t Hnone _.
    assert (List.filter approved_with_body reviews = []) as Hnil
      by (apply filter_nil_iff; exact Hnone).
    rewrite Hcode, Hnil. split; [reflexivity | discriminate].
  - intros timeline rest. cbv zeta. split; [|split].
    + repeat constructor; eexists; (split; [reflexivity|]); cbn [In service_states]; auto.
    + split.
      * eexists. split; [left; reflexivity | reflexivity].
      * intros r t [<-|[]] [= <-]. reflexivity.
    + repeat split; reflexivity.
Qed.

Lemma commented_reviews_are_not_counted_witness :
  _get_review_given_timestamp
    (map JObj [[("state", JStr "APPROVED"); ("submitted_at", JStr "2024-01-02T00:00:00Z")];
               [("state", JStr "COMMENTED"); ("submitted_at", JStr "2024-01-01T12:00:00Z")]])
  = Ok JNull /\
  _get_review_given_timestamp
    (map JObj [[("state", JStr "APPROVED"); ("submitted_at", JStr "2024-01-02T00:00:00Z")];
               [("state", JStr "COMMENTED"); ("submitted_at", JStr "2024-01-01T12:00:00Z")]])
  <> Ok (JStr "2024-01-01T12:00:00Z").
Proof.
  apply (proj1 (proj2 (proj2 (commented_reviews_are_not_counted
           [[("state", JStr "APPROVED"); ("submitted_at", JStr "2024-01-02T00:00:00Z")];
            [("state", JStr "COMMENTED"); ("submitted_at", JStr "2024-01-01T12:00:00Z")]]
           ltac:(repeat constructor; eexists; (split; [reflexivity|]);
                 cbn [In service_states]; auto))))
           "2024-01-01T12:00:00Z").
  - intros r [<-|[<-|[]]]; reflexivity.
  - split.
    + eexists. split; [left; reflexivity | reflexivity].
    + intros r t [<-|[]] [= <-]. reflexivity.
Defined.

End Timestamps.

(** ** The API client *)

Module ClientFacts.
Import Py World GitHubAPIClient Terms.

Lemma bind_run {A B} (c : M A) (k : A -> M B) (w : world) :
  (c ≫= k) w =
  match c w with
  | None => None
  | Some (Raise e, w') => Some (Raise e, w')
  | Some (Ok a, w') => k a w'
  end.
Proof. reflexivity. Qed.

Lemma lift_run {A} (r : result A) (w : world) : lift r w = Some (r, w).
Proof. destruct r; reflexivity. Qed.

Lemma ret_run {A} (a : A) (w : world) : (mret a : M A) w = Some (Ok a, w).
Proof. reflexivity. Qed.

(** One round of [_make_request], by the answer that comes in. *)
Lemma make_request_blocked c url params w :
  incoming w = [] -> _make_request c url params w = None.
Proof. intros H. unfold _make_request. rewrite H. reflexivity. Qed.

Lemma make_request_unreachable c url params w rest :
  incoming w = Unreachable :: rest ->
  _make_request c url params w =
  Some (Raise ConnectionError, answered rest (log_event (Get (api_request c url params)) w)).
Proof.
  intros H. unfold _make_request. rewrite H. cbn [length make_request_loop].
  rewrite bind_run. unfold session_get, http_get. rewrite H. reflexivity.
Qed.

Lemma make_request_200 c url params w r rest :
  incoming w = Answer r :: rest ->
  status_code r = 200 ->
  _make_request c url params w =
  Some (response_json r, answered rest (log_event (Get (api_request c url params)) w)).
Proof.
  intros H Hs. unfold _make_request. rewrite H. cbn [length make_request_loop].
  rewrite bind_run. unfold session_get, http_get. rewrite H. cbv zeta.
  rewrite Hs. cbn [Z.eqb Pos.eqb]. apply lift_run.
Qed.

Lemma make_request_403 c url params w r rest T :
  incoming w = Answer r :: rest ->
  status_code r = 403 ->
  reset_time r = Ok T ->
  Z.max (T - clock w + 60) 60 <= sleep_max ->
  _make_request c url params w = _make_request c url params (backed_off c url params rest T w).
Proof.
  intros H Hs HT Hfits. unfold _make_request at 1. rewrite H. cbn [length make_request_loop].
  rewrite bind_run. unfold session_get, http_get. rewrite H. cbv zeta.
  rewrite Hs. cbn [Z.eqb Pos.eqb]. rewrite HT.
  rewrite bind_run, lift_run, bind_run. cbn [time_time]. rewrite bind_run.
  cbn [logger emit]. rewrite bind_run. unfold time_sleep.
  cbn [clock log_event answered].
  assert ((sleep_max <? Z.max (T - clock w + 60) 60) ||
          (Z.max (T - clock w + 60) 60 <? - sleep_max) = false) as ->
    by (unfold sleep_max in *; lia).
  assert ((Z.max (T - clock w + 60) 60 <? 0) = false) as -> by lia.
  reflexivity.
Qed.

(** A sleep too long for [time.sleep]: the warning is logged and the call
    raises. *)
Lemma make_request_403_overflow c url params w r rest T :
  incoming w = Answer r :: rest ->
  status_code r = 403 ->
  reset_time r = Ok T ->
  sleep_max < Z.max (T - clock w + 60) 60 ->
  _make_request c url params w = Some (Raise OverflowError, warned c url params rest T w).
Proof.
  intros H Hs HT Hlong. unfold _make_request at 1. rewrite H. cbn [length make_request_loop].
  rewrite bind_run. unfold session_get, http_get. rewrite H. cbv zeta.
  rewrite Hs. cbn [Z.eqb Pos.eqb]. rewrite HT.
  rewrite bind_run, lift_run, bind_run. cbn [time_time]. rewrite bind_run.
  cbn [logger emit]. rewrite bind_run. unfold time_sleep.
  cbn [clock log_event answered].
  assert ((sleep_max <? Z.max (T - clock w + 60) 60) ||
          (Z.max (T - clock w + 60) 60 <? - sleep_max) = true) as ->
    by (unfold sleep_max in *; lia).
  reflexivity.
Qed.

Lemma make_request_403_malformed c url params w r rest :
  incoming w = Answer r :: rest ->
  status_code r = 403 ->
  reset_time r = Raise ValueError ->
  _make_request c url params w =
  Some (Raise ValueError, answered rest (log_event (Get (api_request c url params)) w)).
Proof.
  intros H Hs HT. unfold _make_request. rewrite H. cbn [length make_request_loop].
  rewrite bind_run. unfold session_get, http_get. rewrite H. cbv zeta.
  rewrite Hs. cbn [Z.eqb Pos.eqb]. rewrite HT. reflexivity.
Qed.

Lemma make_request_404 c url params w r rest :
  incoming w = Answer r :: rest ->
  status_code r = 404 ->
  _make_request c url params w =
  Some (Ok (JObj []),
        log_event (Log ERROR (Lit "Resource not found: " :: url))
          (answered rest (log_event (Get (api_request c url params)) w))).
Proof.
  intros H Hs. unfold _make_request. rewrite H. cbn [length make_request_loop].
  rewrite bind_run. unfold session_get, http_get. rewrite H. cbv zeta.
  rewrite Hs. reflexivity.
Qed.

(** The three ways [time.sleep] ends. *)
Lemma time_sleep_run (s : Z) (w : world) :
  time_sleep s w = Some (Raise OverflowError, w) \/
  time_sleep s w = Some (Raise ValueError, w) \/
  time_sleep s w = Some (Ok tt, slept s (log_event (Sleep s) w)).
Proof.
  unfold time_sleep. destruct ((sleep_max <? s) || (s <? - sleep_max)); [auto|].
  destruct (s <? 0); auto.
Qed.

(** The 403 branch, once the reset time is read. *)
Lemma back_off_run {A} (T : Z) (k : M A) (w : world) :
  let sleep_time := Z.max (T - clock w + 60) 60 in
  (current_time ← time_time;
   let sleep_time := Z.max (T - current_time + 60) 60 in
   logger WARNING [Lit "Rate limited. Sleeping for "; Fmt (JInt sleep_time);
                   Lit " seconds"];;
   time_sleep sleep_time;;
   k) w =
  match time_sleep sleep_time
          (log_event (Log WARNING [Lit "Rate limited. Sleeping for "; Fmt (JInt sleep_time);
                                   Lit " seconds"]) w) with
  | Some (Ok _, w') => k w'
  | Some (Raise e, w') => Some (Raise e, w')
  | None => None
  end.
Proof. reflexivity. Qed.

(** Every call of [_make_request] that returns has taken an answer. *)
Lemma make_request_loop_consumes c url params : forall fuel w r w',
  make_request_loop fuel c url params w = Some (r, w') ->
  (length (incoming w') < length (incoming w))%nat.
Proof.
  induction fuel as [|fuel IH]; intros w r w' H; [discriminate|].
  cbn [make_request_loop] in H. rewrite bind_run in H.
  unfold session_get, http_get in H.
  destruct (incoming w) as [|a rest] eqn:Hin; [discriminate|]. cbv zeta in H.
  destruct a as [resp|]; [|injection H as _ <-; simpl; lia].
  destruct (status_code resp =? 200).
  { rewrite lift_run in H. injection H as _ <-. simpl. lia. }
  destruct (status_code resp =? 403).
  { rewrite bind_run, lift_run in H. destruct (reset_time resp) as [T|e].
    - rewrite back_off_run in H. cbv zeta in H.
      match type of H with
      | context [time_sleep ?s ?w0] =>
          destruct (time_sleep_run s w0) as [E|[E|E]]; rewrite E in H
      end.
      + injection H as _ <-. simpl. lia.
      + injection H as _ <-. simpl. lia.
      + apply IH in H. simpl in H. simpl. lia.
    - injection H as _ <-. simpl. lia. }
  destruct (status_code resp =? 404).
  { injection H as _ <-. simpl. lia. }
  rewrite bind_run, lift_run in H. destruct (raise_for_status resp) as [[]|e].
  - apply IH in H. simpl in H. simpl. lia.
  - injection H as _ <-. simpl. lia.
Qed.

(** More fuel than answers changes nothing: the bound is not felt. *)
Lemma make_request_loop_fuel c url params : forall fuel fuel' w,
  (length (incoming w) <= fuel)%nat ->
  (length (incoming w) <= fuel')%nat ->
  make_request_loop fuel c url params w = make_request_loop fuel' c url params w.
Proof.
  assert (forall fuel w, incoming w = [] -> make_request_loop fuel c url params w = None)
    as Hblocked.
  { intros [|fuel] w Hin; [reflexivity|]. cbn [make_request_loop].
    rewrite bind_run. unfold session_get, http_get. rewrite Hin. reflexivity. }
  induction fuel as [|fuel IH]; intros fuel' w Hf Hf'.
  - rewrite !Hblocked; [reflexivity | |]; destruct (incoming w); simpl in *; auto; lia.
  - destruct fuel' as [|fuel'].
    { rewrite !Hblocked; [reflexivity | |]; destruct (incoming w); simpl in *; auto; lia. }
    cbn [make_request_loop]. rewrite !bind_run. unfold session_get, http_get.
    destruct (incoming w) as [|a rest] eqn:Hin; [reflexivity|]. cbv zeta.
    destruct a as [resp|]; [|reflexivity]. simpl in Hf, Hf'.
    destruct (status_code resp =? 200); [reflexivity|].
    destruct (status_code resp =? 403).
    { rewrite !bind_run, lift_run. destruct (reset_time resp); [|reflexivity].
      rewrite !back_off_run. cbv zeta.
      match goal with
      | |- context [time_sleep ?s ?w0] =>
          destruct (time_sleep_run s w0) as [E|[E|E]]; rewrite E
      end; try reflexivity.
      apply IH; simpl; lia. }
    destruct (status_code resp =? 404); [reflexivity|].
    rewrite !bind_run, lift_run. destruct (raise_for_status resp) as [[]|]; [|reflexivity].
    apply IH; simpl; lia.
Qed.

Lemma make_request_consumes c url params w r w' :
  _make_request c url params w = Some (r, w') ->
  (length (incoming w') < length (incoming w))%nat.
Proof. apply make_request_loop_consumes. Qed.

(** So the fuel of [_paginate] never runs out before the answers do. *)
Lemma paginate_loop_fuel c url : forall fuel fuel' params results page w,
  (length (incoming w) <= fuel)%nat ->
  (length (incoming w) <= fuel')%nat ->
  paginate_loop fuel c url params results page w =
  paginate_loop fuel' c url params results page w.
Proof.
  induction fuel as [|fuel IH]; intros fuel' params results page w Hf Hf'.
  - destruct fuel' as [|fuel']; [reflexivity|].
    cbn [paginate_loop]. rewrite bind_run.
    rewrite make_request_blocked; [reflexivity|].
    destruct (incoming w); [reflexivity | simpl in Hf; lia].
  - destruct fuel' as [|fuel'].
    + cbn [paginate_loop]. rewrite bind_run.
      rewrite make_request_blocked; [reflexivity|].
      destruct (incoming w); [reflexivity | simpl in Hf'; lia].
    + cbn [paginate_loop]. rewrite !bind_run.
      destruct (_make_request c url _ w) as [[[data|e] w1]|] eqn:Hreq; try reflexivity.
      apply make_request_consumes in Hreq.
      destruct (negb (truthy data) || negb (is_list data)); [reflexivity|].
      destruct (length (list_items data) <? 100)%nat; [reflexivity|].
      apply IH; lia.
Qed.

Lemma paginate_unfold c url params w :
  _paginate c url params w =
  paginate_loop (S (length (incoming w))) c url (or_empty params) [] 1 w.
Proof. apply paginate_loop_fuel; lia. Qed.

(** Dictionaries: writing a key twice, and writing two keys. *)
Lemma dict_set_same (d : dict) (k : string) (v v' : json) :
  dict_set (dict_set d k v) k v' = dict_set d k v'.
Proof.
  induction d as [|[k0 v0] d IH]; simpl.
  - rewrite String.eqb_refl. reflexivity.
  - destruct (String.eqb k0 k) eqn:Hk; simpl; rewrite Hk; [reflexivity|].
    rewrite IH. reflexivity.
Qed.

Lemma dict_get_set (d : dict) (k : string) (v : json) :
  dict_get (dict_set d k v) k = Some v.
Proof.
  induction d as [|[k0 v0] d IH]; simpl.
  - rewrite String.eqb_refl. reflexivity.
  - destruct (String.eqb k0 k) eqn:Hk; simpl; rewrite Hk; [reflexivity | exact IH].
Qed.

Lemma dict_get_set_other (d : dict) (k k' : string) (v : json) :
  k <> k' -> dict_get (dict_set d k v) k' = dict_get d k'.
Proof.
  intros Hne. induction d as [|[k0 v0] d IH]; simpl.
  - apply String.eqb_neq in Hne. rewrite Hne. reflexivity.
  - destruct (String.eqb k0 k) eqn:Hk; simpl.
    + apply String.eqb_eq in Hk. subst k0.
      apply String.eqb_neq in Hne. rewrite Hne. reflexivity.
    + destruct (String.eqb k0 k'); [reflexivity | exact IH].
Qed.

Lemma dict_set_keys (d : dict) (k : string) (v : json) :
  is_Some (dict_get d k) -> map fst (dict_set d k v) = map fst d.
Proof.
  induction d as [|[k0 v0] d IH]; simpl; intros Hk.
  - destruct Hk as [? Hk]. discriminate.
  - destruct (String.eqb k0 k); simpl; [reflexivity|]. rewrite IH; auto.
Qed.

Lemma dict_set_swap (d : dict) (k k' : string) (v v' : json) :
  k <> k' -> is_Some (dict_get d k) ->
  dict_set (dict_set d k' v') k v = dict_set (dict_set d k v) k' v'.
Proof.
  intros Hne. induction d as [|[k0 v0] d IH]; simpl; intros Hk.
  - destruct Hk as [? Hk]. discriminate.
  - destruct (String.eqb k0 k) eqn:Hk0; destruct (String.eqb k0 k') eqn:Hk0'; simpl;
      rewrite ?Hk0, ?Hk0'; try reflexivity.
    + apply String.eqb_eq in Hk0, Hk0'. congruence.
    + rewrite IH; auto.
Qed.

Lemma page_params_again (params : dict) (i j : Z) :
  page_params (page_params params i) j = page_params params j.
Proof.
  unfold page_params.
  rewrite (dict_set_swap (dict_set params "page" (JInt i)) "page" "per_page");
    [|discriminate|rewrite dict_get_set; eauto].
  rewrite !dict_set_same. reflexivity.
Qed.

Lemma list_items_not_list (data : json) : is_list data = false -> list_items data = [].
Proof. destruct data; simpl; congruence. Qed.

Lemma paginate_loop_collects c url (p : dict) : forall full last q results page fuel w w',
  (forall j, page_params q j = page_params p j) ->
  Forall full_page full ->
  last_page last ->
  serves_pages c url p page (full ++ [last]) w w' ->
  (length (incoming w) <= fuel)%nat ->
  paginate_loop fuel c url q results page w =
  Some (Ok (results ++ concat (map list_items full) ++ list_items last), w').
Proof.
  induction full as [|data full IH];
    intros last q results page fuel w w' Hq Hfull Hlast Hpages Hfuel.
  - destruct Hpages as (w1 & Hreq & ->).
    pose proof (make_request_consumes _ _ _ _ _ _ Hreq) as Hlen.
    destruct fuel as [|fuel]; [lia|].
    cbn [paginate_loop]. rewrite bind_run.
    change (dict_set (dict_set q "page" (JInt page)) "per_page" (JInt 100))
      with (page_params q page).
    rewrite Hq, Hreq. cbn [app map concat].
    destruct (is_list last) eqn:Hlist.
    + destruct Hlast as [Hnot|Hshort]; [congruence|].
      destruct last as [|b|n|s|items|d]; try discriminate.
      destruct items as [|x items]; [rewrite app_nil_r; reflexivity|].
      cbn [truthy negb orb list_items] in *.
      apply Nat.ltb_lt in Hshort. rewrite Hshort. reflexivity.
    + rewrite (list_items_not_list _ Hlist), orb_true_r, app_nil_r. reflexivity.
  - destruct Hpages as (w1 & Hreq & Hmore).
    pose proof (make_request_consumes _ _ _ _ _ _ Hreq) as Hlen.
    destruct fuel as [|fuel]; [lia|].
    inversion Hfull as [|? ? (items & -> & Hitems) Hfull']; subst.
    cbn [paginate_loop]. rewrite bind_run.
    change (dict_set (dict_set q "page" (JInt page)) "per_page" (JInt 100))
      with (page_params q page).
    rewrite Hq, Hreq.
    destruct items as [|x items]; [simpl in Hitems; lia|].
    cbn [truthy is_list negb orb list_items].
    assert ((length (x :: items) <? 100)%nat = false) as -> by (apply Nat.ltb_ge; exact Hitems).
    rewrite <- Hq.
    rewrite (IH last (page_params q page) (results ++ x :: items) (page + 1) fuel w1 w');
      auto; [|intros j; rewrite page_params_again; apply Hq | lia].
    cbn [map concat list_items]. rewrite <- !app_assoc. reflexivity.
Qed.

(** A service that answers each page request at once with a 200. *)
Lemma serves_ok_answers c url (p : dict) : forall pages page rest w,
  incoming w = map ok_answer pages ++ rest ->
  exists w',
    serves_pages c url p page pages w w' /\
    incoming w' = rest /\
    trace w' = trace w ++
      map (fun i => Get (api_request c url (Some (page_params p i))))
          (seqZ page (Z.of_nat (length pages))).
Proof.
  induction pages as [|data pages IH]; intros page rest w Hin.
  - exists w. cbn [serves_pages length map seqZ]. rewrite app_nil_r. auto.
  - cbn [map app] in Hin.
    pose proof (make_request_200 c url (Some (page_params p page)) w _ _ Hin eq_refl) as Hreq.
    cbn [response_json body] in Hreq.
    destruct (IH (page + 1) rest
                (answered (map ok_answer pages ++ rest)
                   (log_event (Get (api_request c url (Some (page_params p page)))) w))
                eq_refl) as (w' & Hserves & Hrest & Htrace).
    exists w'. split; [|split].
    + cbn [serves_pages]. eauto.
    + exact Hrest.
    + rewrite Htrace. cbn [trace answered log_event length].
      rewrite Nat2Z.inj_succ. rewrite (seqZ_cons page) by lia.
      rewrite Z.pred_succ. cbn [map]. rewrite <- app_assoc. reflexivity.
Qed.

(** C6.  [_paginate] asks for the pages 1, 2, 3, ... of the URL, each
    with [per_page] 100; while the pages are lists of 100 items or more
    it goes on, and at the first page that is not a list or has fewer
    than 100 items it stops and returns the items of all the pages, in
    order.  Against a service that answers pages of 100, 100 and 37
    items it returns the 237 items and has sent three requests. *)
Theorem paginate_collects (c : client) (url : fstring) (params : option dict) :
  (forall (full : list json) (last : json) (w w' : world),
     Forall full_page full ->
     last_page last ->
     serves_pages c url (or_empty params) 1 (full ++ [last]) w w' ->
     _paginate c url params w =
     Some (Ok (concat (map list_items full) ++ list_items last), w')) /\
  (forall (p1 p2 p3 : list json) (rest : list arrival) (w : world),
     length p1 = 100%nat -> length p2 = 100%nat -> length p3 = 37%nat ->
     incoming w =
       ok_answer (JArr p1) :: ok_answer (JArr p2) :: ok_answer (JArr p3) :: rest ->
     exists w',
       _paginate c url params w = Some (Ok (p1 ++ p2 ++ p3), w') /\
       length (p1 ++ p2 ++ p3) = 237%nat /\
       incoming w' = rest /\
       trace w' = trace w ++
         [Get (api_request c url (Some (page_params (or_empty params) 1)));
          Get (api_request c url (Some (page_params (or_empty params) 2)));
          Get (api_request c url (Some (page_params (or_empty params) 3)))]).
Proof.
  assert (forall full last w w',
     Forall full_page full -> last_page last ->
     serves_pages c url (or_empty params) 1 (full ++ [last]) w w' ->
     _paginate c url params w =
     Some (Ok (concat (map list_items full) ++ list_items last), w')) as Hgeneral.
  { intros full last w w' Hfull Hlast Hpages. unfold _paginate.
    rewrite (paginate_loop_collects c url (or_empty params) full last (or_empty params)
               [] 1 _ w w'); auto. }
  split; [exact Hgeneral|].
  intros p1 p2 p3 rest w H1 H2 H3 Hin.
  destruct (serves_ok_answers c url (or_empty params) [JArr p1; JArr p2; JArr p3] 1 rest w Hin)
    as (w' & Hserves & Hrest & Htrace).
  exists w'. split; [|split; [|split]].
  - rewrite (Hgeneral [JArr p1; JArr p2] (JArr p3) w w'); cbn [app].
    + cbn [map concat list_items]. rewrite app_nil_r, <- app_assoc. reflexivity.
    + repeat constructor; eexists; (split; [reflexivity | lia]).
    + right. cbn [list_items]. lia.
    + exact Hserves.
  - rewrite !length_app. lia.
  - exact Hrest.
  - exact Htrace.
Qed.

Lemma paginate_collects_witness :
  exists w',
    _paginate (new_client "t") [Lit "/items"] None
      {| incoming := [ok_answer (JArr (repeat (JInt 1) 100));
                      ok_answer (JArr (repeat (JInt 2) 100));
                      ok_answer (JArr (repeat (JInt 3) 37));
                      ok_answer (JArr [JInt 4])];
         clock := 0; utc_now := "2024-01-01T00:00:00+00:00"; trace := []; disk := ∅ |}
    = Some (Ok (repeat (JInt 1) 100 ++ repeat (JInt 2) 100 ++ repeat (JInt 3) 37), w') /\
    length (repeat (JInt 1) 100 ++ repeat (JInt 2) 100 ++ repeat (JInt 3) 37) = 237%nat /\
    incoming w' = [ok_answer (JArr [JInt 4])] /\
    trace w' = [] ++
      [Get (api_request (new_client "t") [Lit "/items"] (Some (page_params (or_empty None) 1)));
       Get (api_request (new_client "t") [Lit "/items"] (Some (page_params (or_empty None) 2)));
       Get (api_request (new_client "t") [Lit "/items"] (Some (page_params (or_empty None) 3)))].
Proof.
  apply (proj2 (paginate_collects (new_client "t") [Lit "/items"] None)
           (repeat (JInt 1) 100) (repeat (JInt 2) 100) (repeat (JInt 3) 37)
           [ok_answer (JArr [JInt 4])]
           {| incoming := [ok_answer (JArr (repeat (JInt 1) 100));
                           ok_answer (JArr (repeat (JInt 2) 100));
                           ok_answer (JArr (repeat (JInt 3) 37));
                           ok_answer (JArr [JInt 4])];
              clock := 0; utc_now := "2024-01-01T00:00:00+00:00"; trace := []; disk := ∅ |});
    reflexivity.
Defined.

(** X3.  Through [_make_request] a 403 is not given up on as long as
    [time.sleep] takes the sleeps: however many come in a row, each is
    slept on for [max(T - now + 60, 60)] seconds, [now] being the clock
    the sleeps before have moved, and the same request is sent again,
    until another answer comes.  The sleeps are those no longer than
    [sleep_max] seconds. *)
Lemma make_request_retries_every_403 c url params : forall (Ts : list Z) data rest w,
  incoming w = map rate_limited Ts ++ ok_answer data :: rest ->
  Forall (fun s => s <= sleep_max) (backoffs (clock w) Ts) ->
  exists w',
    _make_request c url params w = Some (Ok data, w') /\
    incoming w' = rest /\
    requests_of (trace w') =
      requests_of (trace w) ++ repeat (api_request c url params) (S (length Ts)) /\
    sleeps_of (trace w') = sleeps_of (trace w) ++ backoffs (clock w) Ts.
Proof.
  induction Ts as [|T Ts IH]; intros data rest w Hin Hfit.
  - cbn [map app] in Hin. rewrite (make_request_200 c url params w _ _ Hin eq_refl).
    eexists. split; [reflexivity|]. cbn [incoming answered trace log_event].
    unfold requests_of, sleeps_of. rewrite !omap_app. cbn [omap backoffs length repeat].
    rewrite !app_nil_r. auto.
  - cbn [map app] in Hin. cbn [backoffs] in Hfit. cbv zeta in Hfit.
    inversion Hfit as [|s ss Hfirst Hnext]; subst.
    rewrite (make_request_403 c url params w _ _ T Hin eq_refl eq_refl Hfirst).
    destruct (IH data rest (backed_off c url params (map rate_limited Ts ++ ok_answer data :: rest) T w)
                eq_refl Hnext) as (w' & Hrun & Hrest & Hreqs & Hsleeps).
    exists w'. split; [exact Hrun|]. split; [exact Hrest|].
    rewrite Hreqs, Hsleeps. unfold backed_off, requests_of, sleeps_of.
    cbn [trace clock slept log_event answered]. rewrite !omap_app.
    cbn [omap backoffs length repeat]. rewrite !app_nil_r, <- !app_assoc.
    split; reflexivity.
Qed.

(** C9.  [get_pr_timeline] sends one GET, whose [Accept] header is the
    timeline one and not the one the other requests of the client carry,
    without [page] or any other query parameter; what it returns is
    decided by the answer to that request alone: its body when the status
    is 200, the empty list otherwise.  The answers the service has after
    it stay where they are: no further page is asked for. *)
Theorem timeline_single_request (token owner repo : string) (issue_number : json)
    (w : world) :
  let c := new_client token in
  let request := timeline_request c owner repo issue_number in
  header_get (req_headers request) "Accept" = Some timeline_accept /\
  (forall url params,
     header_get (req_headers (api_request c url params)) "Accept" = Some default_accept) /\
  timeline_accept <> default_accept /\
  req_params request = None /\
  get_pr_timeline c owner repo issue_number w =
    match incoming w with
    | [] => None
    | first :: rest =>
        let w' := answered rest (log_event (Get request) w) in
        match first with
        | Unreachable => Some (Raise ConnectionError, w')
        | Answer r =>
            if status_code r =? 200 then Some (response_json r, w')
            else Some (Ok (JArr []), w')
        end
    end.
Proof.
  cbv zeta. split; [reflexivity|]. split; [reflexivity|]. split; [discriminate|].
  split; [reflexivity|].
  unfold get_pr_timeline. rewrite bind_run. unfold session_get, http_get.
  fold (timeline_request (new_client token) owner repo issue_number).
  destruct (incoming w) as [|[r|] rest]; try reflexivity.
  cbv zeta. destruct (status_code r =? 200); [apply lift_run | reflexivity].
Qed.

(** C7, on the timeline.  The service answers 403 with a reset time 60
    seconds ahead, and then the data.  Through [_make_request] (here
    [get_pr_reviews]) the client sleeps 120 seconds, sends the same
    request again and returns the data; [get_pr_timeline] sends one
    request, does not sleep, and returns the empty list. *)
Theorem timeline_not_retried_on_403 :
  let c := new_client "secret" in
  let data := JArr [JObj [("event", JStr "ready_for_review")]] in
  let w := {| incoming := [rate_limited 1704067260; ok_answer data];
              clock := 1704067200; utc_now := "2024-01-01T00:00:00+00:00";
              trace := []; disk := ∅ |} in
  (exists w',
     get_pr_timeline c "octo" "demo" (JInt 7) w = Some (Ok (JArr []), w') /\
     sleeps_of (trace w') = [] /\
     requests_of (trace w') = [timeline_request c "octo" "demo" (JInt 7)] /\
     incoming w' = [ok_answer data]) /\
  (exists w' request,
     get_pr_reviews c "octo" "demo" (JInt 7) w = Some (Ok (list_items data), w') /\
     sleeps_of (trace w') = [Z.max (1704067260 - 1704067200 + 60) 60] /\
     requests_of (trace w') = [request; request] /\
     incoming w' = []).
Proof.
  cbv zeta. split.
  - eexists. split; [vm_compute; reflexivity|]. repeat split.
  - eexists. eexists. split; [vm_compute; reflexivity|]. repeat split.
Qed.

End ClientFacts.

(** ** The generator *)

Module GeneratorFacts.
Import Py World GitHubAPIClient PRStatsGenerator Terms ClientFacts.

(** *** What leaves the files and the error count alone *)

Lemma steady_ret {A} (a : A) : steady (mret a : M A).
Proof. intros w r w' H. injection H as _ <-. auto. Qed.

Lemma steady_raise {A} (e : exn) : steady (raise e : M A).
Proof. intros w r w' H. injection H as _ <-. auto. Qed.

Lemma steady_lift {A} (r : result A) : steady (lift r).
Proof. intros w r' w' H. rewrite lift_run in H. injection H as _ <-. auto. Qed.

Lemma steady_bind {A B} (c : M A) (k : A -> M B) :
  steady c -> (forall a, steady (k a)) -> steady (c ≫= k).
Proof.
  intros Hc Hk w r w' H. rewrite bind_run in H.
  destruct (c w) as [[[a|e] w1]|] eqn:Hcw; [| |discriminate].
  - destruct (Hc _ _ _ Hcw) as [Hd Ht]. destruct (Hk a _ _ _ H) as [Hd' Ht'].
    split; congruence.
  - injection H as _ <-. exact (Hc _ _ _ Hcw).
Qed.

Lemma pr_errors_snoc (t : list event) (e : event) :
  is_pr_error e = false -> pr_errors (t ++ [e]) = pr_errors t.
Proof.
  intros He. unfold pr_errors. rewrite List.filter_app. cbn [List.filter].
  rewrite He, app_nil_r. reflexivity.
Qed.

Lemma steady_emit (e : event) : is_pr_error e = false -> steady (emit e).
Proof.
  intros He w r w' H. injection H as _ <-. split; [reflexivity|].
  apply pr_errors_snoc, He.
Qed.

Lemma steady_logger (l : level) (msg : fstring) :
  is_pr_error (Log l msg) = false -> steady (logger l msg).
Proof. apply steady_emit. Qed.

Lemma steady_http_get (r : request) : steady (http_get r).
Proof.
  intros w res w' H. unfold http_get in H.
  destruct (incoming w) as [|a rest]; [discriminate|].
  assert (w' = answered rest (log_event (Get r) w)) as ->.
  { destruct a; injection H as _ <-; reflexivity. }
  split; [reflexivity|]. apply pr_errors_snoc. reflexivity.
Qed.

Lemma steady_time_time : steady time_time.
Proof. intros w r w' H. injection H as _ <-. auto. Qed.

Lemma steady_time_sleep (s : Z) : steady (time_sleep s).
Proof.
  intros w r w' H.
  destruct (time_sleep_run s w) as [E|[E|E]]; rewrite E in H; injection H as _ <-; auto.
  split; [reflexivity|]. apply pr_errors_snoc. reflexivity.
Qed.

Lemma steady_now_isoformat : steady now_isoformat.
Proof. intros w r w' H. injection H as _ <-. auto. Qed.

Create HintDb steady.
#[local] Hint Resolve steady_ret steady_raise steady_lift steady_logger steady_http_get
  steady_time_time steady_time_sleep steady_now_isoformat : steady.

Ltac steady_step :=
  first [ solve [eauto with steady]
        | apply steady_logger; reflexivity
        | apply steady_bind; [|intros ?] ].

Lemma steady_make_request_loop c url params : forall fuel,
  steady (make_request_loop fuel c url params).
Proof.
  induction fuel as [|fuel IH]; [intros w r w' H; discriminate|].
  cbn [make_request_loop]. apply steady_bind; [apply steady_http_get|]. intros response.
  destruct (status_code response =? 200); [apply steady_lift|].
  destruct (status_code response =? 403); [repeat steady_step|].
  destruct (status_code response =? 404); repeat steady_step.
Qed.

Lemma steady_make_request c url params : steady (_make_request c url params).
Proof. intros w r w' H. exact (steady_make_request_loop c url params _ w r w' H). Qed.

Lemma steady_paginate_loop c url : forall fuel params results page,
  steady (paginate_loop fuel c url params results page).
Proof.
  induction fuel as [|fuel IH]; intros params results page;
    [intros w r w' H; discriminate|].
  cbn [paginate_loop]. apply steady_bind; [apply steady_make_request|]. intros data.
  destruct (negb (truthy data) || negb (is_list data)); [apply steady_ret|].
  destruct (length (list_items data) <? 100)%nat; [apply steady_ret | apply IH].
Qed.

Lemma steady_paginate c url params : steady (_paginate c url params).
Proof. intros w r w' H. exact (steady_paginate_loop c url _ _ _ _ w r w' H). Qed.

Lemma steady_get_pr_reviews c owner repo n : steady (get_pr_reviews c owner repo n).
Proof. apply steady_paginate. Qed.

Lemma steady_get_pull_requests c owner repo state :
  steady (get_pull_requests c owner repo state).
Proof. apply steady_paginate. Qed.

Lemma steady_get_pr_timeline c owner repo n : steady (get_pr_timeline c owner repo n).
Proof.
  unfold get_pr_timeline. apply steady_bind; [apply steady_http_get|]. intros response.
  destruct (status_code response =? 200); [apply steady_lift | apply steady_ret].
Qed.

#[local] Hint Resolve steady_get_pr_reviews steady_get_pr_timeline
  steady_get_pull_requests : steady.

Lemma steady_generate_pr_stats g pr owner repo : steady (generate_pr_stats g pr owner repo).
Proof. unfold generate_pr_stats. repeat steady_step. Qed.

(** *** The append *)

Lemma append_pull_request_ok (d : dict) (items : list json) (item : json) :
  dict_get d "pull_requests" = Some (JArr items) ->
  append_pull_request (JObj d) item =
  Ok (JObj (dict_set d "pull_requests" (JArr (items ++ [item])))).
Proof. intros H. unfold append_pull_request. cbn [py_getitem]. rewrite H. reflexivity. Qed.

Lemma append_run (path : string) (stats : PullRequestStats) (w : world) :
  _append_pr_to_json (Some path) stats w =
  match disk w !! path with
  | None => Some (Raise (FileNotFoundError path), w)
  | Some Garbage => Some (Raise JSONDecodeError, w)
  | Some (Json data) =>
      match append_pull_request data (asdict stats) with
      | Ok data' => Some (Ok tt, written path data' w)
      | Raise e => Some (Raise e, w)
      end
  end.
Proof.
  unfold _append_pr_to_json. cbn [open_path]. rewrite bind_run, ret_run, bind_run.
  unfold json_load. destruct (disk w !! path) as [[data|]|]; try reflexivity.
  rewrite bind_run, lift_run.
  destruct (append_pull_request data (asdict stats)); reflexivity.
Qed.

(** C10.  On a file that holds a JSON object whose [pull_requests] is an
    array, the append writes back an object with the same keys in the
    same order, in which [repository], [generated_at] and every other
    field but [pull_requests] have the value they had, and
    [pull_requests] is the former array followed by the new record;
    nothing else in the world changes. *)
Theorem append_changes_only_pull_requests (path : string) (stats : PullRequestStats)
    (w : world) (d : dict) (items : list json) :
  disk w !! path = Some (Json (JObj d)) ->
  dict_get d "pull_requests" = Some (JArr items) ->
  exists d',
    _append_pr_to_json (Some path) stats w = Some (Ok tt, written path (JObj d') w) /\
    dict_get d' "pull_requests" = Some (JArr (items ++ [asdict stats])) /\
    dict_get d' "repository" = dict_get d "repository" /\
    dict_get d' "generated_at" = dict_get d "generated_at" /\
    (forall k, k <> "pull_requests" -> dict_get d' k = dict_get d k) /\
    map fst d' = map fst d.
Proof.
  intros Hfile Hprs.
  exists (dict_set d "pull_requests" (JArr (items ++ [asdict stats]))).
  split; [|split; [|split; [|split; [|split]]]].
  - rewrite append_run, Hfile, (append_pull_request_ok d items _ Hprs). reflexivity.
  - apply dict_get_set.
  - apply dict_get_set_other. discriminate.
  - apply dict_get_set_other. discriminate.
  - intros k Hk. apply dict_get_set_other. congruence.
  - apply dict_set_keys. rewrite Hprs. eauto.
Qed.

Lemma append_changes_only_pull_requests_witness :
  exists d',
    _append_pr_to_json (Some "pr_stats.json") (sample_stats 3 "2024-01-03T00:00:00Z")
      sample_loop_start
    = Some (Ok tt, written "pr_stats.json" (JObj d') sample_loop_start) /\
    dict_get d' "pull_requests" = Some (JArr ([] ++ [asdict (sample_stats 3 "2024-01-03T00:00:00Z")])) /\
    dict_get d' "repository" = Some (JObj []) /\
    dict_get d' "generated_at" = Some (JStr "2024-01-01T00:00:00+00:00") /\
    (forall k, k <> "pull_requests" ->
       dict_get d' k =
       dict_get [("repository", JObj []); ("generated_at", JStr "2024-01-01T00:00:00+00:00");
                 ("pull_requests", JArr [])] k) /\
    map fst d' = ["repository"; "generated_at"; "pull_requests"].
Proof.
  apply (append_changes_only_pull_requests "pr_stats.json"
           (sample_stats 3 "2024-01-03T00:00:00Z") sample_loop_start
           [("repository", JObj []); ("generated_at", JStr "2024-01-01T00:00:00+00:00");
            ("pull_requests", JArr [])] []).
  - reflexivity.
  - reflexivity.
Defined.

(** *** One round of the loop *)

Lemma document_snoc (now : string) (stats : list PullRequestStats) (s : PullRequestStats) :
  append_pull_request (document now stats) (asdict s) = Ok (document now (stats ++ [s])).
Proof. unfold document. rewrite map_app. reflexivity. Qed.

Lemma try_body_returns g owner repo path now pr_stats pr w stats' w' :
  disk w !! path = Some (Json (document now pr_stats)) ->
  try_body g owner repo (Some path) pr_stats pr w = Some (Ok stats', w') ->
  exists s w1,
    generate_pr_stats g pr owner repo w = Some (Ok s, w1) /\
    stats' = pr_stats ++ [s] /\
    w' = written path (document now (pr_stats ++ [s])) w1 /\
    disk w1 = disk w /\
    pr_errors (trace w') = pr_errors (trace w).
Proof.
  intros Hfile H. unfold try_body in H. rewrite bind_run in H.
  destruct (generate_pr_stats g pr owner repo w) as [[[s|e] w1]|] eqn:Hgen; try discriminate.
  destruct (steady_generate_pr_stats _ _ _ _ _ _ _ Hgen) as [Hdisk Herr].
  rewrite bind_run, append_run, Hdisk, Hfile, document_snoc, ret_run in H.
  injection H as <- <-. exists s, w1. auto.
Qed.

Lemma try_body_raises g owner repo path pr_stats pr w e w' :
  try_body g owner repo path pr_stats pr w = Some (Raise e, w') ->
  disk w' = disk w /\ pr_errors (trace w') = pr_errors (trace w).
Proof.
  intros H. unfold try_body in H. rewrite bind_run in H.
  destruct (generate_pr_stats g pr owner repo w) as [[[s|e'] w1]|] eqn:Hgen; try discriminate.
  - destruct (steady_generate_pr_stats _ _ _ _ _ _ _ Hgen) as [Hdisk Herr].
    rewrite bind_run in H. destruct path as [path|].
    + rewrite append_run in H.
      destruct (disk w1 !! path) as [[data|]|]; try (injection H as _ <-; auto).
      destruct (append_pull_request data (asdict s)); [discriminate|].
      injection H as _ <-. auto.
    + injection H as _ <-. auto.
  - injection H as _ <-. exact (steady_generate_pr_stats _ _ _ _ _ _ _ Hgen).
Qed.

Lemma pr_errors_logged (t : list event) (n : json) (e : exn) :
  pr_errors (t ++ [Log ERROR [Lit "Error processing PR #"; Fmt n; Lit ": "; FmtExn e]])
  = S (pr_errors t).
Proof.
  unfold pr_errors. rewrite List.filter_app, length_app. cbn. lia.
Qed.

(** What a round does, by the outcome of its [try] block. *)
Lemma process_pr_run g owner repo path pr_stats pr w :
  process_pr g owner repo path pr_stats pr w =
  match try_body g owner repo path pr_stats pr w with
  | None => None
  | Some (Ok stats', w') => Some (Ok stats', w')
  | Some (Raise e, w') =>
      match py_getitem pr "number" with
      | Ok n =>
          Some (Ok pr_stats,
                log_event (Log ERROR [Lit "Error processing PR #"; Fmt n; Lit ": "; FmtExn e]) w')
      | Raise e' => Some (Raise e', w')
      end
  end.
Proof.
  unfold process_pr, try_except.
  destruct (try_body g owner repo path pr_stats pr w) as [[[stats'|e] w']|]; try reflexivity.
  unfold except_body. rewrite bind_run, lift_run.
  destruct (py_getitem pr "number"); reflexivity.
Qed.

Lemma process_prs_cons g owner repo path pr_stats pr rest :
  process_prs g owner repo path pr_stats (pr :: rest) =
  process_pr g owner repo path pr_stats pr ≫= fun s => process_prs g owner repo path s rest.
Proof. reflexivity. Qed.

Lemma process_prs_app g owner repo path : forall done rest pr_stats w,
  process_prs g owner repo path pr_stats (done ++ rest) w =
  match process_prs g owner repo path pr_stats done w with
  | Some (Ok s, w1) => process_prs g owner repo path s rest w1
  | other => other
  end.
Proof.
  induction done as [|pr done IH]; intros rest pr_stats w; [reflexivity|].
  cbn [app]. rewrite !process_prs_cons, !bind_run.
  destruct (process_pr g owner repo path pr_stats pr w) as [[[s|e] w1]|]; try reflexivity.
  apply IH.
Qed.

(** The invariant of the loop: the file holds the document of the
    records made so far; records are only added; every round adds a
    record or logs an error, not both. *)
Lemma process_prs_invariant g owner repo path now : forall prs pr_stats w stats' w',
  disk w !! path = Some (Json (document now pr_stats)) ->
  process_prs g owner repo (Some path) pr_stats prs w = Some (Ok stats', w') ->
  disk w' !! path = Some (Json (document now stats')) /\
  pr_stats `prefix_of` stats' /\
  (length stats' + pr_errors (trace w') =
   length pr_stats + pr_errors (trace w) + length prs)%nat.
Proof.
  induction prs as [|pr prs IH]; intros pr_stats w stats' w' Hfile H.
  - injection H as <- <-. split; [exact Hfile|]. split; [reflexivity | cbn [length]; lia].
  - rewrite process_prs_cons, bind_run, process_pr_run in H.
    destruct (try_body g owner repo (Some path) pr_stats pr w) as [[[s1|e] w1]|] eqn:Htry;
      try discriminate.
    + destruct (try_body_returns _ _ _ _ _ _ _ _ _ _ Hfile Htry)
        as (s & w0 & _ & -> & -> & Hdisk & Herr).
      assert (disk (written path (document now (pr_stats ++ [s])) w0) !! path
              = Some (Json (document now (pr_stats ++ [s])))) as Hstart
        by (cbn [disk written]; apply lookup_insert_eq).
      destruct (IH _ _ _ _ Hstart H) as (Hfile' & Hpre & Hcount).
      split; [exact Hfile'|]. split.
      * etrans; [|exact Hpre]. apply prefix_app_r. reflexivity.
      * rewrite Hcount, Herr, length_app. cbn [length]. lia.
    + destruct (try_body_raises _ _ _ _ _ _ _ _ _ Htry) as [Hdisk Herr].
      destruct (py_getitem pr "number") as [n|e']; [|discriminate].
      assert (disk (log_event (Log ERROR [Lit "Error processing PR #"; Fmt n; Lit ": ";
                                          FmtExn e]) w1) !! path
              = Some (Json (document now pr_stats))) as Hstart
        by (cbn [disk log_event]; rewrite Hdisk; exact Hfile).
      destruct (IH _ _ _ _ Hstart H) as (Hfile' & Hpre & Hcount).
      split; [exact Hfile'|]. split; [exact Hpre|].
      rewrite Hcount. cbn [trace log_event]. rewrite pr_errors_logged, Herr.
      cbn [length]. lia.
Qed.

(** *** The run *)

(** A run of [generate_stats] that returns: the repository is split, the
    pull requests are fetched, the file is initialised, and the loop runs
    from there to the end. *)
Lemma generate_stats_run g repo_spec date_from date_to author path w rs w' :
  generate_stats g repo_spec date_from date_to author (Some path) w = Some (Ok rs, w') ->
  exists owner repo prs w0,
    split_on "/" repo_spec = [owner; repo] /\
    disk w0 !! path = Some (Json (document (utc_now w0) [])) /\
    process_prs g owner repo (Some path) [] prs w0 = Some (Ok (pull_requests rs), w') /\
    repository rs =
      [("name", repo); ("owner", owner);
       ("url", String.append "https://github.com/"
                 (String.append owner (String.append "/" repo)))].
Proof.
  unfold generate_stats. intros H.
  destruct (split_on "/" repo_spec) as [|owner [|repo [|? ?]]]; try discriminate.
  rewrite bind_run in H. cbn [logger emit] in H. rewrite bind_run in H.
  destruct (get_pull_requests (client_of g) owner repo "all" _) as [[[prs|e] w1]|];
    try discriminate.
  rewrite bind_run in H. cbn [logger emit] in H.
  rewrite bind_run in H. cbn [logger emit] in H.
  rewrite bind_run in H. unfold _init_json_output in H.
  rewrite bind_run in H. cbn [now_isoformat open_path] in H.
  rewrite bind_run, ret_run in H. cbn [json_dump] in H. rewrite bind_run in H.
  match type of H with
  | context [process_prs _ _ _ _ _ _ ?w0] => destruct (process_prs g owner repo (Some path) [] prs w0)
      as [[[stats|e] w2]|] eqn:Hloop; try discriminate; exists owner, repo, prs, w0
  end.
  rewrite bind_run in H. cbn [now_isoformat] in H. rewrite ret_run in H.
  injection H as <- <-. cbn [repository pull_requests].
  split; [reflexivity|]. split; [apply lookup_insert_eq|]. split; [exact Hloop | reflexivity].
Qed.

Lemma persisted_document (path now : string) (stats : list PullRequestStats) (w : world) :
  disk w !! path = Some (Json (document now stats)) ->
  persisted_pull_requests path w = Some (map asdict stats).
Proof. intros H. unfold persisted_pull_requests. rewrite H. reflexivity. Qed.

(** C1, as stated, fails: in the sample loop the second of three pull
    requests is skipped, and after two rounds the file has one entry. *)
Lemma entries_lag_behind_skipped_prs :
  ~ one_entry_per_round (new_generator "secret") "octo" "demo" "pr_stats.json"
      sample_prs sample_loop_start.
Proof.
  intros H.
  edestruct (H 2%nat) as (items & Hitems & Hlen);
    [vm_compute; lia | vm_compute; reflexivity |].
  vm_compute in Hitems. injection Hitems as <-. discriminate Hlen.
Qed.

(** C1, amended.  In every run of [generate_stats] that returns, the loop
    starts on a file holding the document with no record.  In every such
    loop that returns, for every [i] up to the number of pull requests, the
    first [i] rounds return too, and after them: the file holds valid
    JSON, the document of the records made so far, which are those of the
    pull requests among the first [i] whose round did not log an error
    (records and errors together are [i], so there are [i] entries when
    none was skipped and fewer otherwise); these records are a prefix of
    the final ones; and the rest of the loop runs from that state. *)
Theorem persisted_records_are_a_prefix (g : generator) (path : string) :
  (forall repo_spec date_from date_to author w rs w',
     generate_stats g repo_spec date_from date_to author (Some path) w = Some (Ok rs, w') ->
     exists owner repo prs now w0,
       disk w0 !! path = Some (Json (document now [])) /\
       process_prs g owner repo (Some path) [] prs w0 = Some (Ok (pull_requests rs), w')) /\
  (forall owner repo now prs w0 stats_n w_n,
     disk w0 !! path = Some (Json (document now [])) ->
     process_prs g owner repo (Some path) [] prs w0 = Some (Ok stats_n, w_n) ->
     forall i, (i <= length prs)%nat ->
     exists stats_i w_i,
       process_prs g owner repo (Some path) [] (take i prs) w0 = Some (Ok stats_i, w_i) /\
       disk w_i !! path = Some (Json (document now stats_i)) /\
       persisted_pull_requests path w_i = Some (map asdict stats_i) /\
       (length stats_i + pr_errors (trace w_i) = pr_errors (trace w0) + i)%nat /\
       stats_i `prefix_of` stats_n /\
       process_prs g owner repo (Some path) stats_i (drop i prs) w_i = Some (Ok stats_n, w_n)).
Proof.
  split.
  - intros repo_spec date_from date_to author w rs w' Hrun.
    destruct (generate_stats_run _ _ _ _ _ _ _ _ _ Hrun)
      as (owner & repo & prs & w0 & _ & Hfile & Hloop & _).
    exists owner, repo, prs, (utc_now w0), w0. auto.
  - intros owner repo now prs w0 stats_n w_n Hfile Hloop i Hi.
    rewrite <- (take_drop i prs) in Hloop at 1. rewrite process_prs_app in Hloop.
    destruct (process_prs g owner repo (Some path) [] (take i prs) w0)
      as [[[stats_i|e] w_i]|] eqn:Hpart; try discriminate.
    exists stats_i, w_i.
    destruct (process_prs_invariant _ _ _ _ _ _ _ _ _ _ Hfile Hpart) as (Hfile_i & _ & Hcount).
    destruct (process_prs_invariant _ _ _ _ _ _ _ _ _ _ Hfile_i Hloop) as (_ & Hprefix & _).
    split; [reflexivity|]. split; [exact Hfile_i|].
    split; [exact (persisted_document _ _ _ _ Hfile_i)|].
    split; [|split; [exact Hprefix | exact Hloop]].
    rewrite Hcount, length_take. cbn [length]. lia.
Qed.

Lemma persisted_records_are_a_prefix_witness :
  exists stats_i w_i,
    process_prs (new_generator "secret") "octo" "demo" (Some "pr_stats.json") []
      (take 2 sample_prs) sample_loop_start = Some (Ok stats_i, w_i) /\
    disk w_i !! "pr_stats.json" = Some (Json (document "2024-01-01T00:00:00+00:00" stats_i)) /\
    persisted_pull_requests "pr_stats.json" w_i = Some (map asdict stats_i) /\
    (length stats_i + pr_errors (trace w_i) = pr_errors (trace sample_loop_start) + 2)%nat /\
    stats_i `prefix_of` [sample_stats 1 "2024-01-01T00:00:00Z"; sample_stats 3 "2024-01-03T00:00:00Z"] /\
    process_prs (new_generator "secret") "octo" "demo" (Some "pr_stats.json") stats_i
      (drop 2 sample_prs) w_i
    = Some (Ok [sample_stats 1 "2024-01-01T00:00:00Z"; sample_stats 3 "2024-01-03T00:00:00Z"],
            match process_prs (new_generator "secret") "octo" "demo" (Some "pr_stats.json") []
                    sample_prs sample_loop_start with
            | Some (_, w_n) => w_n
            | None => sample_loop_start
            end).
Proof.
  apply (proj2 (persisted_records_are_a_prefix (new_generator "secret") "pr_stats.json")
           "octo" "demo" "2024-01-01T00:00:00+00:00" sample_prs sample_loop_start).
  - reflexivity.
  - vm_compute. reflexivity.
  - vm_compute. lia.
Defined.

(** C2, on the [repository] field.  In every run that returns, the value
    returned names the repository ([name], [owner], [url]), and the file
    holds a document with the three top-level fields, [generated_at] a
    string and [pull_requests] the array of the records; but its
    [repository] is the empty object that [generate_stats] passes to
    [_init_json_output]: it has no [name], [owner] or [url]. *)
Theorem persisted_repository_is_empty (g : generator)
    (repo_spec : string) (date_from date_to author : option string) (path : string)
    (w : world) (rs : RepositoryStats) (w' : world) :
  generate_stats g repo_spec date_from date_to author (Some path) w = Some (Ok rs, w') ->
  exists owner repo now,
    split_on "/" repo_spec = [owner; repo] /\
    repository rs =
      [("name", repo); ("owner", owner);
       ("url", String.append "https://github.com/"
                 (String.append owner (String.append "/" repo)))] /\
    disk w' !! path =
      Some (Json (JObj [("repository", JObj []);
                        ("generated_at", JStr now);
                        ("pull_requests", JArr (map asdict (pull_requests rs)))])) /\
    py_getitem (JObj []) "name" = Raise (KeyError "name") /\
    py_getitem (JObj []) "owner" = Raise (KeyError "owner") /\
    py_getitem (JObj []) "url" = Raise (KeyError "url").
Proof.
  intros Hrun.
  destruct (generate_stats_run _ _ _ _ _ _ _ _ _ Hrun)
    as (owner & repo & prs & w0 & Hsplit & Hfile & Hloop & Hrepo).
  destruct (process_prs_invariant _ _ _ _ _ _ _ _ _ _ Hfile Hloop) as (Hfile' & _ & _).
  exists owner, repo, (utc_now w0). repeat split; assumption.
Qed.

Lemma persisted_repository_is_empty_witness :
  exists owner repo now,
    split_on "/" "octo/demo" = [owner; repo] /\
    [("name", "demo"); ("owner", "octo"); ("url", "https://github.com/octo/demo")] =
      [("name", repo); ("owner", owner);
       ("url", String.append "https://github.com/"
                 (String.append owner (String.append "/" repo)))] /\
    disk (match generate_stats (new_generator "secret") "octo/demo" None None None
                  (Some "pr_stats.json") sample_world with
          | Some (_, w') => w'
          | None => sample_world
          end) !! "pr_stats.json" =
      Some (Json (JObj [("repository", JObj []);
                        ("generated_at", JStr now);
                        ("pull_requests",
                         JArr (map asdict [sample_stats 1 "2024-01-01T00:00:00Z";
                                           sample_stats 3 "2024-01-03T00:00:00Z"]))])) /\
    py_getitem (JObj []) "name" = Raise (KeyError "name") /\
    py_getitem (JObj []) "owner" = Raise (KeyError "owner") /\
    py_getitem (JObj []) "url" = Raise (KeyError "url").
Proof.
  apply (persisted_repository_is_empty (new_generator "secret") "octo/demo" None None None
           "pr_stats.json" sample_world
           {| repository := [("name", "demo"); ("owner", "octo");
                             ("url", "https://github.com/octo/demo")];
              generated_at := "2024-01-01T00:00:00+00:00";
              pull_requests := [sample_stats 1 "2024-01-01T00:00:00Z";
                                sample_stats 3 "2024-01-03T00:00:00Z"] |}).
  vm_compute. reflexivity.
Defined.

(** C8.  When the [try] block of a round raises, for a pull request that
    has a [number], the round logs one error naming that number and the
    exception, leaves the file and the records as they were, and the loop
    goes on with the remaining pull requests.  With three pull requests
    of which the second raises, the loop ends with the records of the
    first and the third, in that order, in the file, and one error logged. *)
Theorem failed_pr_is_skipped (g : generator) (owner repo path : string) :
  (forall pr_stats pr rest w e w1 n,
     try_body g owner repo (Some path) pr_stats pr w = Some (Raise e, w1) ->
     py_getitem pr "number" = Ok n ->
     disk w1 = disk w /\
     process_prs g owner repo (Some path) pr_stats (pr :: rest) w =
     process_prs g owner repo (Some path) pr_stats rest
       (log_event (Log ERROR [Lit "Error processing PR #"; Fmt n; Lit ": "; FmtExn e]) w1)) /\
  (forall now pr1 pr2 pr3 s1 s3 e n w0 w1 w2 w3,
     disk w0 !! path = Some (Json (document now [])) ->
     try_body g owner repo (Some path) [] pr1 w0 = Some (Ok [s1], w1) ->
     try_body g owner repo (Some path) [s1] pr2 w1 = Some (Raise e, w2) ->
     py_getitem pr2 "number" = Ok n ->
     try_body g owner repo (Some path) [s1] pr3
       (log_event (Log ERROR [Lit "Error processing PR #"; Fmt n; Lit ": "; FmtExn e]) w2)
       = Some (Ok [s1; s3], w3) ->
     process_prs g owner repo (Some path) [] [pr1; pr2; pr3] w0 = Some (Ok [s1; s3], w3) /\
     persisted_pull_requests path w3 = Some [asdict s1; asdict s3] /\
     pr_errors (trace w3) = S (pr_errors (trace w0))).
Proof.
  split.
  - intros pr_stats pr rest w e w1 n Htry Hn.
    split; [exact (proj1 (try_body_raises _ _ _ _ _ _ _ _ _ Htry))|].
    rewrite process_prs_cons, bind_run, process_pr_run, Htry, Hn. reflexivity.
  - intros now pr1 pr2 pr3 s1 s3 e n w0 w1 w2 w3 Hfile H1 H2 Hn H3.
    assert (process_prs g owner repo (Some path) [] [pr1; pr2; pr3] w0 = Some (Ok [s1; s3], w3))
      as Hloop.
    { rewrite process_prs_cons, bind_run, process_pr_run, H1.
      rewrite process_prs_cons, bind_run, process_pr_run, H2, Hn.
      rewrite process_prs_cons, bind_run, process_pr_run, H3. reflexivity. }
    destruct (process_prs_invariant _ _ _ _ _ _ _ _ _ _ Hfile Hloop) as (Hfile' & _ & Hcount).
    split; [exact Hloop|]. split; [exact (persisted_document _ _ _ _ Hfile')|].
    cbn [length] in Hcount. lia.
Qed.

Lemma failed_pr_is_skipped_witness :
  exists w3,
    process_prs (new_generator "secret") "octo" "demo" (Some "pr_stats.json") []
      sample_prs sample_loop_start
    = Some (Ok [sample_stats 1 "2024-01-01T00:00:00Z"; sample_stats 3 "2024-01-03T00:00:00Z"],
            w3) /\
    persisted_pull_requests "pr_stats.json" w3 =
      Some [asdict (sample_stats 1 "2024-01-01T00:00:00Z");
            asdict (sample_stats 3 "2024-01-03T00:00:00Z")] /\
    pr_errors (trace w3) = S (pr_errors (trace sample_loop_start)).
Proof.
  eexists.
  eapply (proj2 (failed_pr_is_skipped (new_generator "secret") "octo" "demo" "pr_stats.json")
            "2024-01-01T00:00:00+00:00"
            (sample_pr 1 "2024-01-01T00:00:00Z") (sample_pr 2 "2024-01-02T00:00:00Z")
            (sample_pr 3 "2024-01-03T00:00:00Z")
            (sample_stats 1 "2024-01-01T00:00:00Z") (sample_stats 3 "2024-01-03T00:00:00Z")
            (HTTPError 500) (JInt 2) sample_loop_start).
  - reflexivity.
  - vm_compute. reflexivity.
  - vm_compute. reflexivity.
  - reflexivity.
  - vm_compute. reflexivity.
Defined.

End GeneratorFacts.

(** ** The API client: errors and edges *)

Module ClientEdges.
Import Py World GitHubAPIClient Terms ClientFacts.

(** The statuses [_make_request] has no branch of its own for. *)
Lemma make_request_fatal c url params w r rest :
  incoming w = Answer r :: rest ->
  fatal_status (status_code r) ->
  _make_request c url params w =
  Some (Raise (HTTPError (status_code r)), sent c url params rest w).
Proof.
  intros H (H403 & H404 & Hlo & Hhi). unfold _make_request. rewrite H.
  cbn [length make_request_loop]. rewrite bind_run. unfold session_get, http_get.
  rewrite H. cbv zeta.
  assert ((status_code r =? 200) = false) as -> by lia.
  assert ((status_code r =? 403) = false) as -> by lia.
  assert ((status_code r =? 404) = false) as -> by lia.
  rewrite bind_run, lift_run. unfold raise_for_status.
  assert ((400 <=? status_code r) && (status_code r <? 600) = true) as -> by lia.
  reflexivity.
Qed.

Lemma make_request_let_through c url params w r rest :
  incoming w = Answer r :: rest ->
  let_through (status_code r) ->
  _make_request c url params w = _make_request c url params (sent c url params rest w).
Proof.
  intros H (H200 & H403 & H404 & Hrange). unfold _make_request at 1. rewrite H.
  cbn [length make_request_loop]. rewrite bind_run. unfold session_get, http_get.
  rewrite H. cbv zeta.
  assert ((status_code r =? 200) = false) as -> by lia.
  assert ((status_code r =? 403) = false) as -> by lia.
  assert ((status_code r =? 404) = false) as -> by lia.
  rewrite bind_run, lift_run. unfold raise_for_status.
  assert ((400 <=? status_code r) && (status_code r <? 600) = false) as -> by lia.
  reflexivity.
Qed.

Lemma status_cases (status : Z) :
  status = 200 \/ status = 403 \/ status = 404 \/ fatal_status status \/ let_through status.
Proof. unfold fatal_status, let_through. lia. Qed.

Lemma reset_time_cases (r : response) :
  (reset r <> ResetMalformed /\ exists T, reset_time r = Ok T) \/
  (reset r = ResetMalformed /\ reset_time r = Raise ValueError).
Proof.
  unfold reset_time. destruct (reset r); [left | left | right]; split; eauto; discriminate.
Qed.

(** Reasoning on a call of [_make_request] that returns: one case for
    each way a round ends, the rounds that ask again carrying the
    property from the rest of the call. *)
Lemma make_request_cases c url params (P : world -> result json -> world -> Prop) :
  (forall w rest, incoming w = Unreachable :: rest ->
     P w (Raise ConnectionError) (sent c url params rest w)) ->
  (forall w r rest, incoming w = Answer r :: rest -> status_code r = 200 ->
     P w (response_json r) (sent c url params rest w)) ->
  (forall w r rest, incoming w = Answer r :: rest -> status_code r = 403 ->
     reset r = ResetMalformed ->
     P w (Raise ValueError) (sent c url params rest w)) ->
  (forall w r rest, incoming w = Answer r :: rest -> status_code r = 404 ->
     P w (Ok (JObj []))
       (log_event (Log ERROR (Lit "Resource not found: " :: url)) (sent c url params rest w))) ->
  (forall w r rest, incoming w = Answer r :: rest -> fatal_status (status_code r) ->
     P w (Raise (HTTPError (status_code r))) (sent c url params rest w)) ->
  (forall w r rest T, incoming w = Answer r :: rest -> status_code r = 403 ->
     reset_time r = Ok T -> sleep_max < Z.max (T - clock w + 60) 60 ->
     P w (Raise OverflowError) (warned c url params rest T w)) ->
  (forall w r rest T res w', incoming w = Answer r :: rest -> status_code r = 403 ->
     reset r <> ResetMalformed -> reset_time r = Ok T ->
     Z.max (T - clock w + 60) 60 <= sleep_max ->
     P (backed_off c url params rest T w) res w' -> P w res w') ->
  (forall w r rest res w', incoming w = Answer r :: rest -> let_through (status_code r) ->
     P (sent c url params rest w) res w' -> P w res w') ->
  forall w res w', _make_request c url params w = Some (res, w') -> P w res w'.
Proof.
  intros Hdown H200 Hbad H404 Hfatal Hlong H403 Hthrough w.
  remember (incoming w) as tape eqn:Htape. revert w Htape.
  induction tape as [|a rest IH]; intros w Htape res w' Hrun; symmetry in Htape.
  - rewrite (make_request_blocked _ _ _ _ Htape) in Hrun. discriminate.
  - destruct a as [r|].
    + destruct (status_cases (status_code r)) as [Hs|[Hs|[Hs|[Hs|Hs]]]].
      * rewrite (make_request_200 _ _ _ _ _ _ Htape Hs) in Hrun.
        injection Hrun as <- <-. eauto.
      * destruct (reset_time_cases r) as [[Hok [T HT]]|[Hmal HT]].
        -- destruct (Z_le_gt_dec (Z.max (T - clock w + 60) 60) sleep_max) as [Hfit|Hover].
           ++ rewrite (make_request_403 _ _ _ _ _ _ _ Htape Hs HT Hfit) in Hrun.
              eapply H403; [exact Htape | exact Hs | exact Hok | exact HT | exact Hfit |].
              apply IH; [reflexivity | exact Hrun].
           ++ rewrite (make_request_403_overflow _ _ _ _ _ _ _ Htape Hs HT) in Hrun by lia.
              injection Hrun as <- <-. eapply Hlong; eauto. lia.
        -- rewrite (make_request_403_malformed _ _ _ _ _ _ Htape Hs HT) in Hrun.
           injection Hrun as <- <-. eauto.
      * rewrite (make_request_404 _ _ _ _ _ _ Htape Hs) in Hrun.
        injection Hrun as <- <-. eauto.
      * rewrite (make_request_fatal _ _ _ _ _ _ Htape Hs) in Hrun.
        injection Hrun as <- <-. eauto.
      * rewrite (make_request_let_through _ _ _ _ _ _ Htape Hs) in Hrun.
        eapply Hthrough; [exact Htape | exact Hs |].
        apply IH; [reflexivity | exact Hrun].
    + rewrite (make_request_unreachable _ _ _ _ _ Htape) in Hrun.
      injection Hrun as <- <-. eauto.
Qed.

(** The requests and the sleeps of a trace, event by event. *)
Lemma requests_of_get (t : list event) (r : request) :
  requests_of (t ++ [Get r]) = requests_of t ++ [r].
Proof. unfold requests_of. rewrite omap_app. reflexivity. Qed.

Lemma requests_of_log (t : list event) (l : level) (msg : fstring) :
  requests_of (t ++ [Log l msg]) = requests_of t.
Proof. unfold requests_of. rewrite omap_app. apply app_nil_r. Qed.

Lemma requests_of_sleep (t : list event) (s : Z) :
  requests_of (t ++ [Sleep s]) = requests_of t.
Proof. unfold requests_of. rewrite omap_app. apply app_nil_r. Qed.

Lemma sleeps_of_get (t : list event) (r : request) :
  sleeps_of (t ++ [Get r]) = sleeps_of t.
Proof. unfold sleeps_of. rewrite omap_app. apply app_nil_r. Qed.

Lemma sleeps_of_log (t : list event) (l : level) (msg : fstring) :
  sleeps_of (t ++ [Log l msg]) = sleeps_of t.
Proof. unfold sleeps_of. rewrite omap_app. apply app_nil_r. Qed.

Lemma sleeps_of_sleep (t : list event) (s : Z) :
  sleeps_of (t ++ [Sleep s]) = sleeps_of t ++ [s].
Proof. unfold sleeps_of. rewrite omap_app. reflexivity. Qed.

(** X1.  [_make_request] returns a value only on a 200, whose decoded
    body it is, or on a 404, for which it is the empty dict; every answer
    it took before that one was a 403 (with a reset time [int] accepts) or
    a status it has no branch for and that is not an error status. *)
Theorem make_request_returns_on_200_or_404 c url params w data w' :
  _make_request c url params w = Some (Ok data, w') ->
  exists skipped r,
    incoming w = skipped ++ Answer r :: incoming w' /\
    Forall asks_again skipped /\
    ((status_code r = 200 /\ body r = Some data) \/
     (status_code r = 404 /\ data = JObj [])).
Proof.
  intros Hrun.
  refine (make_request_cases c url params
            (fun w res w' => forall data, res = Ok data ->
               exists skipped r,
                 incoming w = skipped ++ Answer r :: incoming w' /\
                 Forall asks_again skipped /\
                 ((status_code r = 200 /\ body r = Some data) \/
                  (status_code r = 404 /\ data = JObj [])))
            _ _ _ _ _ _ _ _ w (Ok data) w' Hrun data eq_refl); clear.
  - intros w rest _ data H. discriminate.
  - intros w r rest Hin Hs data Hjson. exists [], r.
    split; [exact Hin|]. split; [constructor|]. left. split; [exact Hs|].
    unfold response_json in Hjson. destruct (body r); congruence.
  - intros w r rest _ _ _ data H. discriminate.
  - intros w r rest Hin Hs data [= <-]. exists [], r.
    split; [exact Hin|]. split; [constructor|]. right. auto.
  - intros w r rest _ _ data H. discriminate.
  - intros w r rest T _ _ _ _ data H. discriminate.
  - intros w r rest T res w' Hin Hs Hok _ _ IH data ->.
    destruct (IH data eq_refl) as (skipped & r' & Hrest & Hall & Hlast).
    exists (Answer r :: skipped), r'. cbn [incoming backed_off slept log_event answered] in Hrest.
    split; [rewrite Hin, Hrest; reflexivity|]. split; [|exact Hlast].
    constructor; [left; auto | exact Hall].
  - intros w r rest res w' Hin Hs IH data ->.
    destruct (IH data eq_refl) as (skipped & r' & Hrest & Hall & Hlast).
    exists (Answer r :: skipped), r'. cbn [incoming sent log_event answered] in Hrest.
    split; [rewrite Hin, Hrest; reflexivity|]. split; [|exact Hlast].
    constructor; [right; exact Hs | exact Hall].
Qed.

Lemma make_request_returns_on_200_or_404_witness :
  exists skipped r,
    incoming (limited_once (ok_answer (JArr [JInt 1]))) =
      skipped ++ Answer r ::
        incoming (end_of (_make_request (new_client "secret") [Lit "/x"] None)
                    (limited_once (ok_answer (JArr [JInt 1])))) /\
    Forall asks_again skipped /\
    ((status_code r = 200 /\ body r = Some (JArr [JInt 1])) \/
     (status_code r = 404 /\ JArr [JInt 1] = JObj [])).
Proof.
  apply (make_request_returns_on_200_or_404 (new_client "secret") [Lit "/x"] None
           (limited_once (ok_answer (JArr [JInt 1])))).
  vm_compute. reflexivity.
Defined.

Lemma make_request_footprint c url params w res w' :
  _make_request c url params w = Some (res, w') ->
  disk w' = disk w /\
  exists (n : nat) (naps : list Z),
    requests_of (trace w') =
      requests_of (trace w) ++ repeat (api_request c url params) (S n) /\
    incoming w = take (S n) (incoming w) ++ incoming w' /\
    length (incoming w) = (S n + length (incoming w'))%nat /\
    sleeps_of (trace w') = sleeps_of (trace w) ++ naps /\
    Forall (fun s => 60 <= s) naps /\
    (length naps <= n)%nat /\
    clock w' = clock w + total naps.
Proof.
  revert w res w'. apply make_request_cases.
  1-6: intros w; intros; (split; [reflexivity|]); exists 0%nat, [];
       cbn [trace clock incoming sent warned log_event answered repeat total foldr length];
       rewrite ?requests_of_log, ?sleeps_of_log, requests_of_get, sleeps_of_get, app_nil_r;
       match goal with H : incoming w = _ |- _ => rewrite H end;
       cbn [take length]; repeat split; auto; try lia.
  - intros w r rest T res w' Hin _ _ _ _
      (Hdisk & n & naps & Hreq & Htake & Hlen & Hsl & Hall & Hn & Hclock).
    split; [exact Hdisk|].
    exists (S n), (Z.max (T - clock w + 60) 60 :: naps).
    cbn [trace clock incoming backed_off slept log_event answered] in *.
    rewrite requests_of_sleep, requests_of_log, requests_of_get in Hreq.
    rewrite sleeps_of_sleep, sleeps_of_log, sleeps_of_get in Hsl.
    rewrite Hreq, Hsl, Hin, Hclock, <- !app_assoc. cbn [take length total foldr repeat app].
    rewrite <- Htake. repeat split; auto; try (unfold total in *; lia).
    constructor; [lia | exact Hall].
  - intros w r rest res w' Hin _ (Hdisk & n & naps & Hreq & Htake & Hlen & Hsl & Hall & Hn & Hclock).
    split; [exact Hdisk|].
    exists (S n), naps.
    cbn [trace clock incoming sent log_event answered] in *.
    rewrite requests_of_get in Hreq. rewrite sleeps_of_get in Hsl.
    rewrite Hreq, Hsl, Hin, Hclock, <- !app_assoc. cbn [take length repeat app].
    rewrite <- Htake. repeat split; auto; lia.
Qed.

(** X2.  Whatever the outcome of [_make_request], all the requests it
    has sent are the same one (URL, parameters, session headers), one for
    each answer it has taken; every sleep lasted 60 seconds or more, there
    were no more sleeps than repeated requests, the clock has moved on by
    the sum of the sleeps, and no file has changed. *)
Theorem make_request_effects c url params w res w' :
  _make_request c url params w = Some (res, w') ->
  disk w' = disk w /\
  exists (n : nat) (naps : list Z),
    requests_of (trace w') =
      requests_of (trace w) ++ repeat (api_request c url params) (S n) /\
    incoming w = take (S n) (incoming w) ++ incoming w' /\
    length (incoming w) = (S n + length (incoming w'))%nat /\
    sleeps_of (trace w') = sleeps_of (trace w) ++ naps /\
    Forall (fun s => 60 <= s) naps /\
    (length naps <= n)%nat /\
    clock w' = clock w + total naps.
Proof. apply make_request_footprint. Qed.

Lemma make_request_effects_witness :
  disk (end_of (_make_request (new_client "secret") [Lit "/x"] None)
          (limited_once server_error)) = disk (limited_once server_error) /\
  exists (n : nat) (naps : list Z),
    requests_of (trace (end_of (_make_request (new_client "secret") [Lit "/x"] None)
                          (limited_once server_error))) =
      requests_of (trace (limited_once server_error)) ++
      repeat (api_request (new_client "secret") [Lit "/x"] None) (S n) /\
    incoming (limited_once server_error) =
      take (S n) (incoming (limited_once server_error)) ++
      incoming (end_of (_make_request (new_client "secret") [Lit "/x"] None)
                  (limited_once server_error)) /\
    length (incoming (limited_once server_error)) =
      (S n + length (incoming (end_of (_make_request (new_client "secret") [Lit "/x"] None)
                                 (limited_once server_error))))%nat /\
    sleeps_of (trace (end_of (_make_request (new_client "secret") [Lit "/x"] None)
                        (limited_once server_error))) =
      sleeps_of (trace (limited_once server_error)) ++ naps /\
    Forall (fun s => 60 <= s) naps /\
    (length naps <= n)%nat /\
    clock (end_of (_make_request (new_client "secret") [Lit "/x"] None)
             (limited_once server_error)) =
      clock (limited_once server_error) + total naps.
Proof.
  apply (make_request_effects (new_client "secret") [Lit "/x"] None
           (limited_once server_error) (Raise (HTTPError 500))).
  vm_compute. reflexivity.
Defined.

Lemma make_request_retries_every_403_witness :
  exists w',
    _make_request (new_client "secret") [Lit "/x"] None
      {| incoming := map rate_limited [1704067260; 10] ++
                     ok_answer (JArr [JInt 1]) :: [server_error];
         clock := 1704067200; utc_now := "2024-01-01T00:00:00+00:00";
         trace := []; disk := ∅ |}
    = Some (Ok (JArr [JInt 1]), w') /\
    incoming w' = [server_error] /\
    requests_of (trace w') =
      requests_of [] ++ repeat (api_request (new_client "secret") [Lit "/x"] None) 3 /\
    sleeps_of (trace w') = sleeps_of [] ++ backoffs 1704067200 [1704067260; 10].
Proof.
  apply (make_request_retries_every_403 (new_client "secret") [Lit "/x"] None
           [1704067260; 10] (JArr [JInt 1]) [server_error]
           {| incoming := map rate_limited [1704067260; 10] ++
                          ok_answer (JArr [JInt 1]) :: [server_error];
              clock := 1704067200; utc_now := "2024-01-01T00:00:00+00:00";
              trace := []; disk := ∅ |}).
  - reflexivity.
  - repeat constructor; vm_compute; discriminate.
Defined.

(** X4.  A status that is neither 200, 403 nor 404 and is not an error
    status (a 204, a 304) has no branch in [_make_request] and passes
    [raise_for_status]: the same request is sent again at once, without a
    sleep or a log line, as many times as such answers come; if nothing
    else comes, the call does not return. *)
Theorem make_request_spins_on_other_statuses c url params :
  forall (lets : list response) (rest : list arrival) (w : world),
    incoming w = map Answer lets ++ rest ->
    Forall (fun r => let_through (status_code r)) lets ->
    exists w1,
      _make_request c url params w = _make_request c url params w1 /\
      incoming w1 = rest /\
      trace w1 = trace w ++ repeat (Get (api_request c url params)) (length lets) /\
      clock w1 = clock w /\
      disk w1 = disk w /\
      (rest = [] -> _make_request c url params w = None).
Proof.
  induction lets as [|r lets IH]; intros rest w Hin Hall.
  - exists w. cbn [map app length repeat] in *. rewrite app_nil_r.
    repeat split; auto. intros ->. apply make_request_blocked. exact Hin.
  - inversion Hall as [|? ? Hr Hlets]; subst. cbn [map app] in Hin.
    destruct (IH rest (sent c url params (map Answer lets ++ rest) w) eq_refl Hlets)
      as (w1 & Hrun & Hrest & Htrace & Hclock & Hdisk & Hnone).
    exists w1. rewrite (make_request_let_through _ _ _ _ _ _ Hin Hr).
    split; [exact Hrun|]. split; [exact Hrest|].
    rewrite Htrace, Hclock, Hdisk. cbn [trace clock disk sent answered log_event length repeat].
    rewrite <- app_assoc. repeat split; auto.
Qed.

Lemma make_request_spins_on_other_statuses_witness :
  exists w1,
    _make_request (new_client "secret") [Lit "/x"] None
      {| incoming := map Answer [ {| status_code := 204; body := None; reset := ResetAbsent |};
                                  {| status_code := 304; body := None; reset := ResetAbsent |} ]
                     ++ [];
         clock := 0; utc_now := "2024-01-01T00:00:00+00:00"; trace := []; disk := ∅ |}
    = _make_request (new_client "secret") [Lit "/x"] None w1 /\
    incoming w1 = [] /\
    trace w1 = [] ++ repeat (Get (api_request (new_client "secret") [Lit "/x"] None)) 2 /\
    clock w1 = 0 /\
    disk w1 = ∅ /\
    (@nil arrival = [] ->
     _make_request (new_client "secret") [Lit "/x"] None
       {| incoming := map Answer [ {| status_code := 204; body := None; reset := ResetAbsent |};
                                   {| status_code := 304; body := None; reset := ResetAbsent |} ]
                      ++ [];
          clock := 0; utc_now := "2024-01-01T00:00:00+00:00"; trace := []; disk := ∅ |}
     = None).
Proof.
  apply (make_request_spins_on_other_statuses (new_client "secret") [Lit "/x"] None
           [ {| status_code := 204; body := None; reset := ResetAbsent |};
             {| status_code := 304; body := None; reset := ResetAbsent |} ] []
           {| incoming := map Answer [ {| status_code := 204; body := None; reset := ResetAbsent |};
                                       {| status_code := 304; body := None; reset := ResetAbsent |} ]
                          ++ [];
              clock := 0; utc_now := "2024-01-01T00:00:00+00:00"; trace := []; disk := ∅ |}).
  - reflexivity.
  - repeat constructor; unfold let_through; simpl; lia.
Defined.

(** *** Pagination *)

Lemma paginate_from_step c url q results page w :
  paginate_from c url q results page w =
  match _make_request c url (Some (page_params q page)) w with
  | None => None
  | Some (Raise e, w1) => Some (Raise e, w1)
  | Some (Ok data, w1) =>
      if negb (truthy data) || negb (is_list data) then Some (Ok results, w1)
      else if (length (list_items data) <? 100)%nat
           then Some (Ok (results ++ list_items data), w1)
           else paginate_from c url (page_params q page) (results ++ list_items data)
                  (page + 1) w1
  end.
Proof.
  unfold paginate_from. destruct (incoming w) as [|a rest] eqn:Hin.
  - rewrite (make_request_blocked _ _ _ _ Hin). reflexivity.
  - cbn [length paginate_loop]. rewrite bind_run.
    change (dict_set (dict_set q "page" (JInt page)) "per_page" (JInt 100))
      with (page_params q page).
    destruct (_make_request c url (Some (page_params q page)) w) as [[[data|e] w1]|] eqn:Hreq;
      try reflexivity.
    apply make_request_consumes in Hreq. rewrite Hin in Hreq. cbn [length] in Hreq.
    destruct (negb (truthy data) || negb (is_list data)); [reflexivity|].
    destruct (length (list_items data) <? 100)%nat; [reflexivity|].
    apply paginate_loop_fuel; lia.
Qed.

Lemma page_params_page (p : dict) (i : Z) : dict_get (page_params p i) "page" = Some (JInt i).
Proof.
  unfold page_params. rewrite dict_get_set_other by discriminate. apply dict_get_set.
Qed.

Lemma page_params_per_page (p : dict) (i : Z) :
  dict_get (page_params p i) "per_page" = Some (JInt 100).
Proof. unfold page_params. apply dict_get_set. Qed.

Lemma page_params_other (p : dict) (i : Z) (k : string) :
  k <> "page" -> k <> "per_page" -> dict_get (page_params p i) k = dict_get p k.
Proof.
  intros H1 H2. unfold page_params. rewrite !dict_get_set_other by congruence. reflexivity.
Qed.

Lemma paginate_from_footprint c url (p : dict) : forall (n : nat) w q results page res w',
  (length (incoming w) <= n)%nat ->
  (forall j, page_params q j = page_params p j) ->
  paginate_from c url q results page w = Some (res, w') ->
  disk w' = disk w /\
  exists tries,
    tries <> [] /\
    requests_of (trace w') = requests_of (trace w) ++ page_requests c url p page tries.
Proof.
  induction n as [|n IH]; intros w q results page res w' Hlen Hq Hrun;
    rewrite paginate_from_step, Hq in Hrun.
  - rewrite make_request_blocked in Hrun; [discriminate|].
    destruct (incoming w); [reflexivity | simpl in Hlen; lia].
  - destruct (_make_request c url (Some (page_params p page)) w) as [[[data|e] w1]|] eqn:Hreq;
      try discriminate.
    + destruct (make_request_footprint _ _ _ _ _ _ Hreq)
        as (Hdisk & k & naps & Hreqs & _ & Hk & _).
      assert (disk w1 = disk w /\
              requests_of (trace w1) =
                requests_of (trace w) ++ page_requests c url p page [k]) as [Hd1 Hone].
      { split; [exact Hdisk|]. cbn [page_requests]. rewrite app_nil_r. exact Hreqs. }
      destruct (negb (truthy data) || negb (is_list data));
        [injection Hrun as _ <-; split; [exact Hd1|]; exists [k]; split; [discriminate | exact Hone]|].
      destruct (length (list_items data) <? 100)%nat;
        [injection Hrun as _ <-; split; [exact Hd1|]; exists [k]; split; [discriminate | exact Hone]|].
      rewrite <- Hq in Hrun.
      assert (length (incoming w1) <= n)%nat as Hlen1 by lia.
      assert (forall j, page_params (page_params q page) j = page_params p j) as Hq1
        by (intros j; rewrite page_params_again; apply Hq).
      destruct (IH _ _ _ _ _ _ Hlen1 Hq1 Hrun) as (Hd2 & tries & _ & Hmore).
      split; [congruence|]. exists (k :: tries). split; [discriminate|].
      rewrite Hmore, Hreqs. cbn [page_requests]. rewrite <- app_assoc. reflexivity.
    + injection Hrun as _ <-.
      destruct (make_request_footprint _ _ _ _ _ _ Hreq)
        as (Hdisk & k & naps & Hreqs & _).
      split; [exact Hdisk|]. exists [k]. split; [discriminate|].
      cbn [page_requests]. rewrite app_nil_r. exact Hreqs.
Qed.

(** [params or {}] is the caller's dictionary, or an empty one when none
    is given. *)
Lemma or_empty_given (params : option dict) :
  or_empty params = match params with Some d => d | None => [] end.
Proof. destruct params as [[|kv d]|]; reflexivity. Qed.

(** X5.  Whatever the outcome of [_paginate], the requests it has sent
    are those for the pages 1, 2, 3, ... of the one URL, in that order,
    each one or more times and none skipped.  The parameters of the
    request for page [i] are the caller's dictionary [d] (an empty one
    when the caller gave none) with [page] set to [i] and [per_page] to
    100: every other key of [d] is there with the caller's value, and no
    key is there that is not [page], [per_page] or a key of [d].  No file
    has changed. *)
Theorem paginate_requests c url params w res w' :
  _paginate c url params w = Some (res, w') ->
  let d := match params with Some d => d | None => [] end in
  disk w' = disk w /\
  (exists tries,
     tries <> [] /\
     requests_of (trace w') = requests_of (trace w) ++ page_requests c url d 1 tries) /\
  (forall i, page_params d i = dict_set (dict_set d "page" (JInt i)) "per_page" (JInt 100)) /\
  (forall i, dict_get (page_params d i) "page" = Some (JInt i)) /\
  (forall i, dict_get (page_params d i) "per_page" = Some (JInt 100)) /\
  (forall i k, k <> "page" -> k <> "per_page" ->
     dict_get (page_params d i) k = dict_get d k).
Proof.
  intros Hrun. cbv zeta. rewrite <- or_empty_given.
  destruct (paginate_from_footprint c url (or_empty params) (length (incoming w)) w
              (or_empty params) [] 1 res w') as [Hdisk Htries]; auto.
  split; [exact Hdisk|]. split; [exact Htries|]. split; [reflexivity|].
  split; [apply page_params_page|]. split; [apply page_params_per_page|].
  apply page_params_other.
Qed.

Lemma paginate_requests_witness :
  disk (end_of (get_pull_requests (new_client "secret") "octo" "demo" "all")
          (limited_once server_error)) = disk (limited_once server_error) /\
  (exists tries,
     tries <> [] /\
     requests_of (trace (end_of (get_pull_requests (new_client "secret") "octo" "demo" "all")
                           (limited_once server_error))) =
       requests_of (trace (limited_once server_error)) ++
       page_requests (new_client "secret")
         (repo_url (new_client "secret") "octo" "demo" ++ [Lit "/pulls"])
         [("state", JStr "all")] 1 tries) /\
  (forall i, page_params [("state", JStr "all")] i
             = [("state", JStr "all"); ("page", JInt i); ("per_page", JInt 100)]) /\
  (forall i, dict_get (page_params [("state", JStr "all")] i) "page" = Some (JInt i)) /\
  (forall i, dict_get (page_params [("state", JStr "all")] i) "per_page" = Some (JInt 100)) /\
  (forall i k, k <> "page" -> k <> "per_page" ->
     dict_get (page_params [("state", JStr "all")] i) k =
     dict_get [("state", JStr "all")] k).
Proof.
  apply (paginate_requests (new_client "secret")
           (repo_url (new_client "secret") "octo" "demo" ++ [Lit "/pulls"])
           (Some [("state", JStr "all")]) (limited_once server_error)
           (Raise (HTTPError 500))).
  vm_compute. reflexivity.
Defined.

(** After full pages the loop is at its top again, with their items. *)
Lemma paginate_from_full c url (p : dict) : forall full q results page w w1,
  (forall j, page_params q j = page_params p j) ->
  Forall full_page full ->
  serves_pages c url p page full w w1 ->
  exists q',
    (forall j, page_params q' j = page_params p j) /\
    paginate_from c url q results page w =
    paginate_from c url q' (results ++ concat (map list_items full))
      (page + Z.of_nat (length full)) w1.
Proof.
  induction full as [|data full IH]; intros q results page w w1 Hq Hfull Hpages.
  - cbn [serves_pages] in Hpages. subst w1. exists q.
    cbn [map concat length]. rewrite app_nil_r, Z.add_0_r. auto.
  - destruct Hpages as (w0 & Hreq & Hmore).
    inversion Hfull as [|? ? (items & -> & Hitems) Hfull']; subst.
    assert (forall j, page_params (page_params p page) j = page_params p j) as Hq1
      by (intros j; apply page_params_again).
    destruct (IH (page_params p page) (results ++ items) (page + 1) w0 w1 Hq1 Hfull' Hmore)
      as (q' & Hq' & Hrun).
    exists q'. split; [exact Hq'|].
    rewrite paginate_from_step, Hq, Hreq.
    destruct items as [|x items]; [simpl in Hitems; lia|].
    cbn [truthy is_list negb orb list_items].
    assert ((length (x :: items) <? 100)%nat = false) as -> by (apply Nat.ltb_ge; exact Hitems).
    rewrite Hrun. cbn [map concat list_items length].
    rewrite <- app_assoc. f_equal. lia.
Qed.

(** X6.  A 404 ends [_paginate] like a last page: after any number of
    full pages it returns the items of those pages (the empty list when
    the first answer is the 404), with an error logged that the resource
    was not found; nothing is raised. *)
Theorem paginate_stops_at_404 c url params (fulls : list json) (r : response)
    (rest : list arrival) (w : world) :
  incoming w = map ok_answer fulls ++ Answer r :: rest ->
  Forall full_page fulls ->
  status_code r = 404 ->
  exists w',
    _paginate c url params w = Some (Ok (concat (map list_items fulls)), w') /\
    incoming w' = rest /\
    exists t, trace w' = t ++ [Log ERROR (Lit "Resource not found: " :: url)].
Proof.
  intros Hin Hfull Hs.
  destruct (serves_ok_answers c url (or_empty params) fulls 1 (Answer r :: rest) w Hin)
    as (w1 & Hserves & Hrest & _).
  destruct (paginate_from_full c url (or_empty params) fulls (or_empty params) [] 1 w w1)
    as (q' & Hq' & Hrun); auto.
  eexists. split; [|split].
  - change (_paginate c url params w) with (paginate_from c url (or_empty params) [] 1 w).
    rewrite Hrun, paginate_from_step, Hq'.
    rewrite (make_request_404 _ _ _ _ _ _ Hrest Hs). reflexivity.
  - reflexivity.
  - eexists. reflexivity.
Qed.

Lemma paginate_stops_at_404_witness :
  exists w',
    _paginate (new_client "secret") [Lit "/x"] None
      {| incoming := map ok_answer [JArr (repeat (JInt 1) 100)] ++
                     Answer {| status_code := 404; body := None; reset := ResetAbsent |} ::
                     [server_error];
         clock := 0; utc_now := "2024-01-01T00:00:00+00:00"; trace := []; disk := ∅ |}
    = Some (Ok (concat (map list_items [JArr (repeat (JInt 1) 100)])), w') /\
    incoming w' = [server_error] /\
    exists t, trace w' = t ++ [Log ERROR (Lit "Resource not found: " :: [Lit "/x"])].
Proof.
  apply (paginate_stops_at_404 (new_client "secret") [Lit "/x"] None
           [JArr (repeat (JInt 1) 100)]
           {| status_code := 404; body := None; reset := ResetAbsent |} [server_error]).
  - reflexivity.
  - repeat constructor. eexists. split; [reflexivity | vm_compute; lia].
  - reflexivity.
Defined.

(** X7.  When the request for a page raises (an HTTP error, a lost
    connection, a body that is not JSON), [_paginate] raises the same
    exception: the items of the full pages it had fetched are not
    returned. *)
Theorem paginate_error_discards_pages c url params (full : list json) (e : exn)
    (w w1 w' : world) :
  Forall full_page full ->
  serves_pages c url (or_empty params) 1 full w w1 ->
  _make_request c url (Some (page_params (or_empty params) (1 + Z.of_nat (length full)))) w1
    = Some (Raise e, w') ->
  _paginate c url params w = Some (Raise e, w').
Proof.
  intros Hfull Hpages Hreq.
  destruct (paginate_from_full c url (or_empty params) full (or_empty params) [] 1 w w1)
    as (q' & Hq' & Hrun); auto.
  change (_paginate c url params w) with (paginate_from c url (or_empty params) [] 1 w).
  rewrite Hrun, paginate_from_step, Hq', Hreq. reflexivity.
Qed.

Lemma paginate_error_discards_pages_witness :
  _paginate (new_client "secret") [Lit "/x"] None
    {| incoming := [ok_answer (JArr (repeat (JInt 1) 100)); server_error];
       clock := 0; utc_now := "2024-01-01T00:00:00+00:00"; trace := []; disk := ∅ |}
  = Some (Raise (HTTPError 500),
          end_of (_paginate (new_client "secret") [Lit "/x"] None)
            {| incoming := [ok_answer (JArr (repeat (JInt 1) 100)); server_error];
               clock := 0; utc_now := "2024-01-01T00:00:00+00:00"; trace := []; disk := ∅ |}).
Proof.
  apply (paginate_error_discards_pages (new_client "secret") [Lit "/x"] None
           [JArr (repeat (JInt 1) 100)] (HTTPError 500) _
           (end_of (_make_request (new_client "secret") [Lit "/x"]
                      (Some (page_params (or_empty None) 1)))
              {| incoming := [ok_answer (JArr (repeat (JInt 1) 100)); server_error];
                 clock := 0; utc_now := "2024-01-01T00:00:00+00:00"; trace := [];
                 disk := ∅ |})).
  - repeat constructor. eexists. split; [reflexivity | vm_compute; lia].
  - eexists. split; [vm_compute; reflexivity | reflexivity].
  - vm_compute. reflexivity.
Defined.

(** X24.  What a 403 does by its [X-RateLimit-Reset] header.  With a
    value [int] rejects the call raises [ValueError], with no sleep and no
    retry.  Without the header, or with a reset time that is not in the
    future, the client sleeps 60 seconds and asks again.  With a reset
    time [T] ahead it asks again when the clock reads [T + 60], provided
    [time.sleep] takes a sleep of that length; when it does not, the
    reset being more than [sleep_max - 60] seconds ahead, the warning is
    logged and the call raises [OverflowError]: the request is not sent
    again. *)
Theorem rate_limit_reset_edges c url params (w : world) (r : response)
    (rest : list arrival) :
  incoming w = Answer r :: rest ->
  status_code r = 403 ->
  (reset r = ResetMalformed ->
   _make_request c url params w = Some (Raise ValueError, sent c url params rest w)) /\
  (reset r = ResetAbsent -> 0 <= clock w ->
   _make_request c url params w
   = _make_request c url params (backed_off c url params rest 0 w) /\
   clock (backed_off c url params rest 0 w) = clock w + 60) /\
  (forall T, reset r = ResetAt T ->
   (T <= clock w ->
    _make_request c url params w
    = _make_request c url params (backed_off c url params rest T w) /\
    clock (backed_off c url params rest T w) = clock w + 60) /\
   (clock w <= T -> T - clock w + 60 <= sleep_max ->
    _make_request c url params w
    = _make_request c url params (backed_off c url params rest T w) /\
    clock (backed_off c url params rest T w) = T + 60) /\
   (sleep_max < T - clock w + 60 ->
    _make_request c url params w
    = Some (Raise OverflowError, warned c url params rest T w))).
Proof.
  intros Hin Hs. split; [|split].
  - intros Hr. apply (make_request_403_malformed _ _ _ _ r); auto. unfold reset_time.
    rewrite Hr. reflexivity.
  - intros Hr Hnow. split.
    + apply (make_request_403 _ _ _ _ r); auto.
      * unfold reset_time. rewrite Hr. reflexivity.
      * unfold sleep_max. lia.
    + cbn [backed_off clock slept log_event answered]. lia.
  - intros T Hr.
    assert (reset_time r = Ok T) as HT by (unfold reset_time; rewrite Hr; reflexivity).
    split; [|split].
    + intros Hpast. split.
      * apply (make_request_403 _ _ _ _ r); auto. unfold sleep_max. lia.
      * cbn [backed_off clock slept log_event answered]. lia.
    + intros Hahead Hfit. split.
      * apply (make_request_403 _ _ _ _ r); auto. lia.
      * cbn [backed_off clock slept log_event answered]. lia.
    + intros Hlong. apply (make_request_403_overflow _ _ _ _ r); auto.
      unfold sleep_max in *. lia.
Qed.

Lemma rate_limit_reset_edges_witness :
  _make_request (new_client "secret") [Lit "/x"] None
    (serving [rate_limited 99999999999; ok_answer (JArr [])])
  = Some (Raise OverflowError,
          warned (new_client "secret") [Lit "/x"] None [ok_answer (JArr [])] 99999999999
            (serving [rate_limited 99999999999; ok_answer (JArr [])])).
Proof.
  apply (proj2 (proj2 (proj2 (proj2 (rate_limit_reset_edges (new_client "secret") [Lit "/x"] None
                  (serving [rate_limited 99999999999; ok_answer (JArr [])])
                  {| status_code := 403; body := None; reset := ResetAt 99999999999 |}
                  [ok_answer (JArr [])] eq_refl eq_refl)) 99999999999 eq_refl))).
  vm_compute. reflexivity.
Defined.

End ClientEdges.

(** ** The generator: errors and edges *)

Module GeneratorEdges.
Import Py World GitHubAPIClient PRStatsGenerator Terms ClientFacts GeneratorFacts ClientEdges.

Lemma bind_lift {A B} (r : result A) (k : A -> M B) (w : world) :
  (lift r ≫= k) w =
  match r with
  | Ok a => k a w
  | Raise e => Some (Raise e, w)
  end.
Proof. rewrite bind_run, lift_run. destruct r; reflexivity. Qed.

Ltac lift_step :=
  rewrite bind_lift;
  match goal with
  | |- match Ok _ with Ok _ => _ | Raise _ => _ end = _ => cbn beta iota
  | |- match ?r with Ok _ => _ | Raise _ => _ end = _ =>
      destruct r; cbn [rbind]; [|reflexivity]
  end.

(** [generate_pr_stats], stage by stage. *)
Lemma generate_pr_stats_run g pr owner repo w :
  generate_pr_stats g pr owner repo w =
  match py_getitem pr "number" with
  | Raise e => Some (Raise e, w)
  | Ok n =>
      match rbind (py_getitem pr "title") (py_prefix 50) with
      | Raise e => Some (Raise e, w)
      | Ok title50 =>
          match get_pr_reviews (client_of g) owner repo n
                  (log_event (processing_line n title50) w) with
          | None => None
          | Some (Raise e, w1) => Some (Raise e, w1)
          | Some (Ok raw_reviews, w1) =>
              match comprehension get_review_stat raw_reviews with
              | Raise e => Some (Raise e, w1)
              | Ok reviews =>
                  match get_pr_timeline (client_of g) owner repo n w1 with
                  | None => None
                  | Some (Raise e, w2) => Some (Raise e, w2)
                  | Some (Ok raw_timeline, w2) =>
                      Some (assemble pr raw_reviews reviews raw_timeline, w2)
                  end
              end
          end
      end
  end.
Proof.
  unfold generate_pr_stats. rewrite bind_lift.
  destruct (py_getitem pr "number") as [n|e] eqn:Hn; [|reflexivity].
  rewrite bind_lift.
  destruct (py_getitem pr "title") as [t|e] eqn:Ht; cbn [rbind]; [|reflexivity].
  rewrite bind_lift. destruct (py_prefix 50 t) as [title50|e]; [|reflexivity].
  rewrite bind_run. cbn [logger emit]. fold (processing_line n title50). rewrite bind_run.
  destruct (get_pr_reviews (client_of g) owner repo n _) as [[[raw_reviews|e] w1]|];
    try reflexivity.
  rewrite bind_lift.
  destruct (comprehension get_review_stat raw_reviews) as [reviews|e]; [|reflexivity].
  rewrite bind_run.
  destruct (get_pr_timeline (client_of g) owner repo n w1) as [[[raw_timeline|e] w2]|];
    try reflexivity.
  unfold assemble. rewrite Hn, Ht. repeat lift_step. reflexivity.
Qed.

(** X8.  [generate_pr_stats] reads [number] and [title] before anything
    else: for an object that is not a dict, has no [number], has no
    [title], or has a [title] that cannot be sliced, it raises at once,
    and nothing has been sent, logged or written. *)
Theorem generate_pr_stats_checks_first g owner repo (pr : json) (w : world) :
  ((forall d, pr <> JObj d) ->
   generate_pr_stats g pr owner repo w = Some (Raise TypeError, w)) /\
  (forall d, pr = JObj d -> dict_get d "number" = None ->
   generate_pr_stats g pr owner repo w = Some (Raise (KeyError "number"), w)) /\
  (forall d n, pr = JObj d -> dict_get d "number" = Some n -> dict_get d "title" = None ->
   generate_pr_stats g pr owner repo w = Some (Raise (KeyError "title"), w)) /\
  (forall d n t, pr = JObj d -> dict_get d "number" = Some n -> dict_get d "title" = Some t ->
   (forall s, t <> JStr s) -> (forall l, t <> JArr l) ->
   generate_pr_stats g pr owner repo w = Some (Raise TypeError, w)).
Proof.
  rewrite generate_pr_stats_run. split; [|split; [|split]].
  - intros Hnot. destruct pr; try reflexivity. destruct (Hnot fields eq_refl).
  - intros d -> Hn. cbn [py_getitem]. rewrite Hn. reflexivity.
  - intros d n -> Hn Ht. cbn [py_getitem]. rewrite Hn, Ht. reflexivity.
  - intros d n t -> Hn Ht Hs Hl. cbn [py_getitem]. rewrite Hn, Ht. cbn [rbind].
    destruct t; try reflexivity; [destruct (Hs s eq_refl) | destruct (Hl items eq_refl)].
Qed.

Lemma generate_pr_stats_checks_first_witness :
  generate_pr_stats (new_generator "secret") (JObj [("title", JStr "Update")]) "octo" "demo"
    sample_loop_start
  = Some (Raise (KeyError "number"), sample_loop_start).
Proof.
  apply (proj1 (proj2 (generate_pr_stats_checks_first (new_generator "secret") "octo" "demo"
                         (JObj [("title", JStr "Update")]) sample_loop_start))
           [("title", JStr "Update")]);
    reflexivity.
Defined.

Lemma comprehension_length {A B} (f : A -> result B) : forall l l',
  comprehension f l = Ok l' -> length l' = length l.
Proof.
  induction l as [|x l IH]; intros l' H; cbn [comprehension] in H.
  - injection H as <-. reflexivity.
  - destruct (f x) as [y|]; cbn [rbind] in H; [|discriminate].
    destruct (comprehension f l) as [ys|]; cbn [rbind] in H; [|discriminate].
    injection H as <-. cbn [length]. f_equal. apply IH. reflexivity.
Qed.

Ltac open_stage H :=
  match type of H with
  | context [rbind ?r _] =>
      let x := fresh "x" in let E := fresh "E" in
      destruct r as [x|] eqn:E; cbn [rbind] in H; [|discriminate H]
  end.

(** X9.  A record [generate_pr_stats] returns is made as follows: the
    reviews are fetched first, all their pages, then the timeline, with
    one request; the record holds one projection for each raw review and
    each raw event, its three timestamps are what the three derivations
    give on the raw reviews and the raw timeline, and its [pr_meta] holds
    the fields of the pull request itself. *)
Theorem generate_pr_stats_record g owner repo (pr : json) (w : world)
    (s : PullRequestStats) (w' : world) :
  generate_pr_stats g pr owner repo w = Some (Ok s, w') ->
  exists n title50 raw_reviews w1 raw_timeline events user,
    py_getitem pr "number" = Ok n /\
    get_pr_reviews (client_of g) owner repo n (log_event (processing_line n title50) w)
      = Some (Ok raw_reviews, w1) /\
    get_pr_timeline (client_of g) owner repo n w1 = Some (Ok raw_timeline, w') /\
    py_iter raw_timeline = Ok events /\
    comprehension get_review_stat raw_reviews = Ok (reviews s) /\
    comprehension get_timeline_stat events = Ok (timeline s) /\
    length (reviews s) = length raw_reviews /\
    length (timeline s) = length events /\
    _get_request_to_review_timestamp pr raw_timeline = Ok (request_to_review_timestamp s) /\
    _get_approval_timestamp raw_reviews = Ok (pr_approved_timestamp s) /\
    _get_review_given_timestamp raw_reviews = Ok (review_given_timestamp s) /\
    py_getitem pr "created_at" = Ok (created_at (pr_meta s)) /\
    py_getitem pr "updated_at" = Ok (updated_at (pr_meta s)) /\
    py_getitem pr "closed_at" = Ok (closed_at (pr_meta s)) /\
    py_getitem pr "merged_at" = Ok (merged_at (pr_meta s)) /\
    py_getitem pr "user" = Ok user /\
    py_getitem user "login" = Ok (author (pr_meta s)) /\
    number (pr_meta s) = n /\
    py_getitem pr "title" = Ok (title (pr_meta s)).
Proof.
  rewrite generate_pr_stats_run. intros H.
  destruct (py_getitem pr "number") as [n|] eqn:Hn; [|discriminate].
  destruct (rbind (py_getitem pr "title") (py_prefix 50)) as [title50|]; [|discriminate].
  destruct (get_pr_reviews (client_of g) owner repo n _) as [[[raw_reviews|] w1]|] eqn:Hrev;
    try discriminate.
  destruct (comprehension get_review_stat raw_reviews) as [revs|] eqn:Hproj; [|discriminate].
  destruct (get_pr_timeline (client_of g) owner repo n w1) as [[[raw_timeline|] w2]|] eqn:Htl;
    try discriminate.
  injection H as H <-. unfold assemble in H. rewrite Hn in H.
  do 11 open_stage H. cbn [rbind] in H. open_stage H. injection H as <-.
  cbn [reviews timeline request_to_review_timestamp pr_approved_timestamp
         review_given_timestamp pr_meta created_at updated_at closed_at merged_at
         author number title].
  exists n, title50, raw_reviews, w1, raw_timeline, x, x8.
  repeat split; eauto using comprehension_length.
Qed.

Lemma generate_pr_stats_record_witness :
  exists n title50 raw_reviews w1 raw_timeline events user,
    py_getitem (sample_pr 1 "2024-01-01T00:00:00Z") "number" = Ok n /\
    get_pr_reviews (client_of (new_generator "secret")) "octo" "demo" n
      (log_event (processing_line n title50) sample_loop_start)
      = Some (Ok raw_reviews, w1) /\
    get_pr_timeline (client_of (new_generator "secret")) "octo" "demo" n w1
      = Some (Ok raw_timeline,
              end_of (generate_pr_stats (new_generator "secret")
                        (sample_pr 1 "2024-01-01T00:00:00Z") "octo" "demo")
                sample_loop_start) /\
    py_iter raw_timeline = Ok events /\
    comprehension get_review_stat raw_reviews
      = Ok (reviews (sample_stats 1 "2024-01-01T00:00:00Z")) /\
    comprehension get_timeline_stat events
      = Ok (timeline (sample_stats 1 "2024-01-01T00:00:00Z")) /\
    length (reviews (sample_stats 1 "2024-01-01T00:00:00Z")) = length raw_reviews /\
    length (timeline (sample_stats 1 "2024-01-01T00:00:00Z")) = length events /\
    _get_request_to_review_timestamp (sample_pr 1 "2024-01-01T00:00:00Z") raw_timeline
      = Ok (request_to_review_timestamp (sample_stats 1 "2024-01-01T00:00:00Z")) /\
    _get_approval_timestamp raw_reviews
      = Ok (pr_approved_timestamp (sample_stats 1 "2024-01-01T00:00:00Z")) /\
    _get_review_given_timestamp raw_reviews
      = Ok (review_given_timestamp (sample_stats 1 "2024-01-01T00:00:00Z")) /\
    py_getitem (sample_pr 1 "2024-01-01T00:00:00Z") "created_at"
      = Ok (created_at (pr_meta (sample_stats 1 "2024-01-01T00:00:00Z"))) /\
    py_getitem (sample_pr 1 "2024-01-01T00:00:00Z") "updated_at"
      = Ok (updated_at (pr_meta (sample_stats 1 "2024-01-01T00:00:00Z"))) /\
    py_getitem (sample_pr 1 "2024-01-01T00:00:00Z") "closed_at"
      = Ok (closed_at (pr_meta (sample_stats 1 "2024-01-01T00:00:00Z"))) /\
    py_getitem (sample_pr 1 "2024-01-01T00:00:00Z") "merged_at"
      = Ok (merged_at (pr_meta (sample_stats 1 "2024-01-01T00:00:00Z"))) /\
    py_getitem (sample_pr 1 "2024-01-01T00:00:00Z") "user" = Ok user /\
    py_getitem user "login" = Ok (author (pr_meta (sample_stats 1 "2024-01-01T00:00:00Z"))) /\
    number (pr_meta (sample_stats 1 "2024-01-01T00:00:00Z")) = n /\
    py_getitem (sample_pr 1 "2024-01-01T00:00:00Z") "title"
      = Ok (title (pr_meta (sample_stats 1 "2024-01-01T00:00:00Z"))).
Proof.
  apply (generate_pr_stats_record (new_generator "secret") "octo" "demo"
           (sample_pr 1 "2024-01-01T00:00:00Z") sample_loop_start).
  vm_compute. reflexivity.
Defined.

(** *** Raw objects that cannot be projected *)

Lemma review_stat_cases (r : json) :
  (unprojectable_review r /\ get_review_stat r = Raise AttributeError) \/
  (~ unprojectable_review r /\ exists v, get_review_stat r = Ok v).
Proof.
  destruct r as [|?|?|?|?|d]; try (left; split; [exact I | reflexivity]).
  unfold unprojectable_review, get_review_stat. cbn [py_get rbind].
  destruct (dict_get d "user") as [[|?|?|?|?|u]|]; cbn [py_get rbind];
    try (left; split; [exact I | reflexivity]);
    right; (split; [tauto | eexists; reflexivity]).
Qed.

Lemma timeline_stat_cases (e : json) :
  (unprojectable_event e /\ get_timeline_stat e = Raise AttributeError) \/
  (~ unprojectable_event e /\ exists v, get_timeline_stat e = Ok v).
Proof.
  destruct e as [|?|?|?|?|d]; try (left; split; [exact I | reflexivity]).
  unfold unprojectable_event, get_timeline_stat. cbn [py_get rbind].
  destruct (dict_get d "actor") as [[|?|?|?|?|a]|]; cbn [py_get rbind];
    destruct (dict_get d "author") as [[|?|?|?|?|u]|]; cbn [py_get rbind];
    try (left; split; [exact I | reflexivity]);
    right; (split; [tauto | eexists; reflexivity]).
Qed.

Lemma comprehension_raises {A B} (f : A -> result B) (bad : A -> Prop) (e : exn) :
  (forall x, (bad x /\ f x = Raise e) \/ (~ bad x /\ exists y, f x = Ok y)) ->
  forall l, Exists bad l -> comprehension f l = Raise e.
Proof.
  intros Hcases l Hex. induction Hex as [x l Hx|x l _ IH]; cbn [comprehension].
  - destruct (Hcases x) as [[_ ->]|[Hn _]]; [reflexivity | contradiction].
  - destruct (Hcases x) as [[_ ->]|[_ [y ->]]]; [reflexivity|].
    cbn [rbind]. rewrite IH. reflexivity.
Qed.

Lemma comprehension_returns {A B} (f : A -> result B) (bad : A -> Prop) (e : exn) :
  (forall x, (bad x /\ f x = Raise e) \/ (~ bad x /\ exists y, f x = Ok y)) ->
  forall l, ~ Exists bad l -> exists ys, comprehension f l = Ok ys.
Proof.
  intros Hcases. induction l as [|x l IH]; intros Hnone; cbn [comprehension].
  - eexists. reflexivity.
  - destruct (Hcases x) as [[Hx _]|[_ [y ->]]].
    + destruct Hnone. left. exact Hx.
    + destruct IH as [ys ->]; [intros H; apply Hnone; right; exact H|].
      eexists. reflexivity.
Qed.

(** A round whose [generate_pr_stats] raises, for a pull request with a
    [number]: the error is logged and the records stay as they were. *)
Lemma process_pr_skips g owner repo output_file pr_stats pr n e w w1 :
  generate_pr_stats g pr owner repo w = Some (Raise e, w1) ->
  py_getitem pr "number" = Ok n ->
  process_pr g owner repo output_file pr_stats pr w
  = Some (Ok pr_stats, log_event (error_line n e) w1).
Proof.
  intros Hgen Hn. rewrite process_pr_run. unfold try_body.
  rewrite bind_run, Hgen, Hn. reflexivity.
Qed.

(** X10.  A raw review that [get_review_stat] cannot project, one that is
    not a dict or whose [user] is present and not a dict (the service
    gives [null] for a deleted account), makes [generate_pr_stats] raise
    [AttributeError] right after the reviews are fetched: the timeline is
    not requested.  When there is no such review the projection of the
    reviews does not raise.  In the loop of [generate_stats] the pull
    request is skipped: an error is logged and no record is made. *)
Theorem unprojectable_review_fails_pr g owner repo output_file pr_stats
    (pr n title50 : json) (raw_reviews : list json) (w w1 : world) :
  py_getitem pr "number" = Ok n ->
  rbind (py_getitem pr "title") (py_prefix 50) = Ok title50 ->
  get_pr_reviews (client_of g) owner repo n (log_event (processing_line n title50) w)
    = Some (Ok raw_reviews, w1) ->
  (Exists unprojectable_review raw_reviews ->
   generate_pr_stats g pr owner repo w = Some (Raise AttributeError, w1) /\
   process_pr g owner repo output_file pr_stats pr w
   = Some (Ok pr_stats, log_event (error_line n AttributeError) w1)) /\
  (~ Exists unprojectable_review raw_reviews ->
   exists reviews, comprehension get_review_stat raw_reviews = Ok reviews).
Proof.
  intros Hn Ht Hrev. split.
  - intros Hbad.
    assert (generate_pr_stats g pr owner repo w = Some (Raise AttributeError, w1)) as Hgen.
    { rewrite generate_pr_stats_run, Hn, Ht, Hrev.
      rewrite (comprehension_raises _ _ _ review_stat_cases _ Hbad). reflexivity. }
    split; [exact Hgen|]. exact (process_pr_skips _ _ _ _ _ _ _ _ _ _ Hgen Hn).
  - apply (comprehension_returns _ _ _ review_stat_cases).
Qed.

Lemma unprojectable_review_fails_pr_witness :
  generate_pr_stats (new_generator "secret") (sample_pr 1 "2024-01-01T00:00:00Z") "octo" "demo"
    (serving [ok_answer (JArr [ghost_review]); ok_answer (JArr [])])
  = Some (Raise AttributeError,
          end_of (get_pr_reviews (client_of (new_generator "secret")) "octo" "demo" (JInt 1))
            (log_event (processing_line (JInt 1) (JStr "Update"))
               (serving [ok_answer (JArr [ghost_review]); ok_answer (JArr [])]))) /\
  incoming (end_of (generate_pr_stats (new_generator "secret")
                      (sample_pr 1 "2024-01-01T00:00:00Z") "octo" "demo")
              (serving [ok_answer (JArr [ghost_review]); ok_answer (JArr [])]))
  = [ok_answer (JArr [])].
Proof.
  split; [|vm_compute; reflexivity].
  apply (proj1 (unprojectable_review_fails_pr (new_generator "secret") "octo" "demo"
                  (Some "pr_stats.json") []
                  (sample_pr 1 "2024-01-01T00:00:00Z") (JInt 1) (JStr "Update") [ghost_review]
                  (serving [ok_answer (JArr [ghost_review]); ok_answer (JArr [])]) _
                  eq_refl eq_refl eq_refl)).
  left. exact I.
Defined.

(** X11.  A raw timeline event that [get_timeline_stat] cannot project,
    one that is not a dict or whose [actor] or [author] is present and not
    a dict, makes [generate_pr_stats] raise [AttributeError] once the
    timeline is fetched, whatever the reviews were; in the loop of
    [generate_stats] the pull request is skipped.  When there is no such
    event the projection of the timeline does not raise. *)
Theorem unprojectable_event_fails_pr g owner repo output_file pr_stats
    (pr n title50 : json) (raw_reviews reviews : list json) (raw_timeline : json)
    (events : list json) (w w1 w2 : world) :
  py_getitem pr "number" = Ok n ->
  rbind (py_getitem pr "title") (py_prefix 50) = Ok title50 ->
  get_pr_reviews (client_of g) owner repo n (log_event (processing_line n title50) w)
    = Some (Ok raw_reviews, w1) ->
  comprehension get_review_stat raw_reviews = Ok reviews ->
  get_pr_timeline (client_of g) owner repo n w1 = Some (Ok raw_timeline, w2) ->
  py_iter raw_timeline = Ok events ->
  (Exists unprojectable_event events ->
   generate_pr_stats g pr owner repo w = Some (Raise AttributeError, w2) /\
   process_pr g owner repo output_file pr_stats pr w
   = Some (Ok pr_stats, log_event (error_line n AttributeError) w2)) /\
  (~ Exists unprojectable_event events ->
   exists timeline, comprehension get_timeline_stat events = Ok timeline).
Proof.
  intros Hn Ht Hrev Hproj Htl Hiter. split.
  - intros Hbad.
    assert (generate_pr_stats g pr owner repo w = Some (Raise AttributeError, w2)) as Hgen.
    { rewrite generate_pr_stats_run, Hn, Ht, Hrev, Hproj, Htl. unfold assemble.
      rewrite Hiter. cbn [rbind].
      rewrite (comprehension_raises _ _ _ timeline_stat_cases _ Hbad). reflexivity. }
    split; [exact Hgen|]. exact (process_pr_skips _ _ _ _ _ _ _ _ _ _ Hgen Hn).
  - apply (comprehension_returns _ _ _ timeline_stat_cases).
Qed.

Lemma unprojectable_event_fails_pr_witness :
  generate_pr_stats (new_generator "secret") (sample_pr 1 "2024-01-01T00:00:00Z") "octo" "demo"
    (serving [ok_answer (JArr []); ok_answer (JArr [ghost_event])])
  = Some (Raise AttributeError,
          end_of (generate_pr_stats (new_generator "secret")
                    (sample_pr 1 "2024-01-01T00:00:00Z") "octo" "demo")
            (serving [ok_answer (JArr []); ok_answer (JArr [ghost_event])])).
Proof.
  apply (proj1 (unprojectable_event_fails_pr (new_generator "secret") "octo" "demo"
                  (Some "pr_stats.json") []
                  (sample_pr 1 "2024-01-01T00:00:00Z") (JInt 1) (JStr "Update") [] []
                  (JArr [ghost_event]) [ghost_event]
                  (serving [ok_answer (JArr []); ok_answer (JArr [ghost_event])]) _ _
                  eq_refl eq_refl eq_refl eq_refl
                  ltac:(vm_compute; reflexivity) eq_refl)).
  left. exact I.
Defined.

(** *** The output file *)

(** X12.  [_append_pr_to_json] changes the file or nothing at all.  It
    raises, and leaves the world as it was, when the file is missing
    ([FileNotFoundError]), is not JSON ([JSONDecodeError]), holds a value
    that is not an object ([TypeError]), an object without
    [pull_requests] ([KeyError]) or one whose [pull_requests] is not an
    array ([AttributeError]), and when no path is given ([TypeError]);
    it always returns or raises. *)
Theorem append_is_all_or_nothing (path : string) (stats : PullRequestStats) (w : world) :
  (disk w !! path = None ->
   _append_pr_to_json (Some path) stats w = Some (Raise (FileNotFoundError path), w)) /\
  (disk w !! path = Some Garbage ->
   _append_pr_to_json (Some path) stats w = Some (Raise JSONDecodeError, w)) /\
  (forall doc, disk w !! path = Some (Json doc) -> (forall d, doc <> JObj d) ->
   _append_pr_to_json (Some path) stats w = Some (Raise TypeError, w)) /\
  (forall d, disk w !! path = Some (Json (JObj d)) -> dict_get d "pull_requests" = None ->
   _append_pr_to_json (Some path) stats w = Some (Raise (KeyError "pull_requests"), w)) /\
  (forall d v, disk w !! path = Some (Json (JObj d)) -> dict_get d "pull_requests" = Some v ->
   (forall items, v <> JArr items) ->
   _append_pr_to_json (Some path) stats w = Some (Raise AttributeError, w)) /\
  _append_pr_to_json None stats w = Some (Raise TypeError, w) /\
  (forall output_file, exists r w',
     _append_pr_to_json output_file stats w = Some (r, w') /\
     forall e, r = Raise e -> w' = w).
Proof.
  rewrite append_run. repeat split.
  - intros ->. reflexivity.
  - intros ->. reflexivity.
  - intros doc -> Hdoc. destruct doc as [|?|?|?|?|d]; try reflexivity.
    destruct (Hdoc d eq_refl).
  - intros d -> Hd. unfold append_pull_request. cbn [py_getitem]. rewrite Hd. reflexivity.
  - intros d v -> Hd Hv. unfold append_pull_request. cbn [py_getitem]. rewrite Hd.
    cbn [rbind]. destruct v as [|?|?|?|items|?]; try reflexivity. destruct (Hv items eq_refl).
  - intros [p|]; [|exists (Raise TypeError), w; split; [reflexivity | auto]].
    rewrite append_run. destruct (disk w !! p) as [[doc|]|].
    + destruct (append_pull_request doc (asdict stats)) as [doc'|e].
      * eexists _, _. split; [reflexivity | discriminate].
      * eexists _, _. split; [reflexivity | auto].
    + eexists _, _. split; [reflexivity | auto].
    + eexists _, _. split; [reflexivity | auto].
Qed.

Lemma append_is_all_or_nothing_witness :
  _append_pr_to_json (Some "pr_stats.json") (sample_stats 1 "2024-01-01T00:00:00Z")
    sample_world
  = Some (Raise (FileNotFoundError "pr_stats.json"), sample_world).
Proof.
  apply (proj1 (append_is_all_or_nothing "pr_stats.json"
                  (sample_stats 1 "2024-01-01T00:00:00Z") sample_world)).
  reflexivity.
Defined.





(** *** The run as a whole *)

Lemma split_on_length (sep : ascii) (s : string) :
  length (split_on sep s) = S (occurrences sep s).
Proof.
  induction s as [|c s IH]; [reflexivity|].
  cbn [split_on occurrences]. destruct (Ascii.eqb c sep).
  - cbn [length]. rewrite IH. reflexivity.
  - destruct (split_on sep s) as [|part parts]; [discriminate IH|].
    cbn [length] in *. exact IH.
Qed.

Lemma split_on_single (sep : ascii) : forall (s b : string),
  split_on sep s = [b] -> s = b /\ occurrences sep s = 0%nat.
Proof.
  induction s as [|c s IH]; intros b H; cbn [split_on occurrences] in *.
  - injection H as <-. auto.
  - destruct (Ascii.eqb c sep).
    + injection H as <- H. pose proof (split_on_length sep s) as Hlen.
      rewrite H in Hlen. discriminate Hlen.
    + pose proof (split_on_length sep s) as Hlen.
      destruct (split_on sep s) as [|part parts] eqn:E; [discriminate Hlen|].
      injection H as <- ->. destruct (IH part eq_refl) as [-> ->]. auto.
Qed.

Lemma split_on_pair (sep : ascii) : forall (s a b : string),
  split_on sep s = [a; b] ->
  s = String.append a (String sep b) /\
  occurrences sep a = 0%nat /\ occurrences sep b = 0%nat.
Proof.
  induction s as [|c s IH]; intros a b H; cbn [split_on] in H; [discriminate|].
  destruct (Ascii.eqb c sep) eqn:Hc.
  - injection H as <- H. apply Ascii.eqb_eq in Hc. subst c.
    destruct (split_on_single _ _ _ H) as [-> Hocc]. auto.
  - destruct (split_on sep s) as [|part parts] eqn:E; [discriminate|].
    injection H as <- ->. destruct (IH part b eq_refl) as (-> & Ha & Hb).
    cbn [String.append occurrences]. rewrite Hc, Ha. auto.
Qed.

(** [generate_stats], stage by stage, once the repository is split. *)
Lemma generate_stats_unfold g repo_spec date_from date_to author output_file w owner repo :
  split_on "/" repo_spec = [owner; repo] ->
  generate_stats g repo_spec date_from date_to author output_file w =
  match get_pull_requests (client_of g) owner repo "all"
          (log_event (starting_line owner repo) w) with
  | None => None
  | Some (Raise e, w1) => Some (Raise e, w1)
  | Some (Ok prs, w1) =>
      match output_file with
      | None => Some (Raise TypeError, listed prs w1)
      | Some path =>
          match process_prs g owner repo (Some path) [] prs
                  (written path (document (utc_now w1) []) (listed prs w1)) with
          | None => None
          | Some (Raise e, w3) => Some (Raise e, w3)
          | Some (Ok pr_stats, w3) =>
              Some (Ok (repository_stats owner repo (utc_now w3) pr_stats), w3)
          end
      end
  end.
Proof.
  intros Hsplit. unfold generate_stats. rewrite Hsplit.
  rewrite bind_run. cbn [logger emit]. fold (starting_line owner repo). rewrite bind_run.
  destruct (get_pull_requests (client_of g) owner repo "all" _) as [[[prs|e] w1]|];
    try reflexivity.
  rewrite bind_run. cbn [logger emit]. rewrite bind_run. cbn [logger emit].
  fold (listed prs w1). rewrite bind_run. unfold _init_json_output.
  rewrite bind_run. cbn [now_isoformat]. rewrite bind_run.
  destruct output_file as [path|]; cbn [open_path]; [|reflexivity].
  rewrite ret_run. cbn [json_dump]. rewrite bind_run.
  change (utc_now (listed prs w1)) with (utc_now w1). fold (document (utc_now w1) []).
  destruct (process_prs g owner repo (Some path) [] prs _) as [[[pr_stats|e] w3]|];
    reflexivity.
Qed.

(** X14.  [generate_stats] takes a [repo_spec] with exactly one slash:
    with none, or with two or more, unpacking the split raises
    [ValueError] before anything is requested, logged or written.  With
    one, the owner is the text before the slash and the repository the
    text after it, either may be empty, and in the value returned [url] is
    [https://github.com/] followed by the [repo_spec] itself. *)
Theorem generate_stats_needs_one_slash g repo_spec date_from date_to author :
  (forall output_file w,
     occurrences "/" repo_spec <> 1%nat ->
     generate_stats g repo_spec date_from date_to author output_file w
     = Some (Raise ValueError, w)) /\
  (forall output_file w rs w',
     generate_stats g repo_spec date_from date_to author output_file w = Some (Ok rs, w') ->
     exists owner repo,
       repo_spec = String.append owner (String.append "/" repo) /\
       occurrences "/" owner = 0%nat /\ occurrences "/" repo = 0%nat /\
       repository rs = [("name", repo); ("owner", owner);
                        ("url", String.append "https://github.com/" repo_spec)]).
Proof.
  split.
  - intros output_file w Hocc. pose proof (split_on_length "/" repo_spec) as Hlen.
    unfold generate_stats.
    destruct (split_on "/" repo_spec) as [|owner [|repo [|? ?]]]; try reflexivity.
    cbn [length] in Hlen. congruence.
  - intros output_file w rs w' Hrun.
    pose proof (split_on_length "/" repo_spec) as Hlen.
    destruct (split_on "/" repo_spec) as [|owner [|repo [|? ?]]] eqn:Hsplit;
      try (unfold generate_stats in Hrun; rewrite Hsplit in Hrun; discriminate Hrun).
    rewrite (generate_stats_unfold _ _ _ _ _ _ _ _ _ Hsplit) in Hrun.
    destruct (get_pull_requests (client_of g) owner repo "all" _) as [[[prs|e] w1]|];
      try discriminate.
    destruct output_file as [path|]; [|discriminate].
    destruct (process_prs g owner repo (Some path) [] prs _) as [[[pr_stats|e] w3]|];
      try discriminate.
    injection Hrun as <- <-. destruct (split_on_pair _ _ _ _ Hsplit) as (Hspec & Ho & Hr).
    exists owner, repo. rewrite Hspec. auto.
Qed.

Lemma generate_stats_needs_one_slash_witness :
  generate_stats (new_generator "secret") "octo/demo/extra" None None None
    (Some "pr_stats.json") sample_world
  = Some (Raise ValueError, sample_world).
Proof.
  apply (proj1 (generate_stats_needs_one_slash (new_generator "secret") "octo/demo/extra"
                  None None None) (Some "pr_stats.json") sample_world).
  vm_compute. discriminate.
Defined.

(** X15.  Without an [output_file] (the default, [None]) [generate_stats]
    never returns a value: once the repository is listed, page after
    page, opening the file raises [TypeError], before any pull request is
    processed; whatever the outcome, no file is created or changed. *)
Theorem generate_stats_without_output_file g repo_spec date_from date_to author (w : world) :
  (forall r w',
     generate_stats g repo_spec date_from date_to author None w = Some (r, w') ->
     (exists e, r = Raise e) /\ disk w' = disk w) /\
  (forall owner repo prs w1,
     split_on "/" repo_spec = [owner; repo] ->
     get_pull_requests (client_of g) owner repo "all" (log_event (starting_line owner repo) w)
       = Some (Ok prs, w1) ->
     generate_stats g repo_spec date_from date_to author None w
     = Some (Raise TypeError, listed prs w1)).
Proof.
  split.
  - intros r w' Hrun.
    destruct (split_on "/" repo_spec) as [|owner [|repo [|? ?]]] eqn:Hsplit;
      try (unfold generate_stats in Hrun; rewrite Hsplit in Hrun;
           injection Hrun as <- <-; split; [eexists|]; reflexivity).
    rewrite (generate_stats_unfold _ _ _ _ _ _ _ _ _ Hsplit) in Hrun.
    destruct (get_pull_requests (client_of g) owner repo "all" _) as [[[prs|e] w1]|] eqn:Hlist;
      try discriminate;
      destruct (steady_get_pull_requests _ _ _ _ _ _ _ Hlist) as [Hdisk _];
      injection Hrun as <- <-; (split; [eexists; reflexivity | exact Hdisk]).
  - intros owner repo prs w1 Hsplit Hlist.
    rewrite (generate_stats_unfold _ _ _ _ _ _ _ _ _ Hsplit), Hlist. reflexivity.
Qed.

Lemma generate_stats_without_output_file_witness :
  generate_stats (new_generator "secret") "octo/demo" None None None None sample_world
  = Some (Raise TypeError,
          listed sample_prs
            (end_of (get_pull_requests (client_of (new_generator "secret")) "octo" "demo" "all")
               (log_event (starting_line "octo" "demo") sample_world))).
Proof.
  apply (proj2 (generate_stats_without_output_file (new_generator "secret") "octo/demo"
                  None None None sample_world) "octo" "demo" sample_prs).
  - reflexivity.
  - vm_compute. reflexivity.
Defined.

(** The loop, whatever its outcome: the file holds the document of the
    records made so far, and nothing else on the disk has changed. *)
Lemma process_prs_disk g owner repo path now (base : gmap string content) :
  forall prs pr_stats w r w',
    disk w = <[path := Json (document now pr_stats)]> base ->
    process_prs g owner repo (Some path) pr_stats prs w = Some (r, w') ->
    exists stats',
      disk w' = <[path := Json (document now stats')]> base /\
      pr_stats `prefix_of` stats' /\
      (forall s, r = Ok s -> s = stats').
Proof.
  induction prs as [|pr prs IH]; intros pr_stats w r w' Hdisk H.
  - injection H as <- <-. exists pr_stats. split; [exact Hdisk|].
    split; [reflexivity | congruence].
  - assert (disk w !! path = Some (Json (document now pr_stats))) as Hfile
      by (rewrite Hdisk; apply lookup_insert_eq).
    rewrite process_prs_cons, bind_run, process_pr_run in H.
    destruct (try_body g owner repo (Some path) pr_stats pr w) as [[[s1|e] w1]|] eqn:Htry;
      try discriminate.
    + destruct (try_body_returns _ _ _ _ _ _ _ _ _ _ Hfile Htry)
        as (s & w0 & _ & -> & -> & Hdisk0 & _).
      destruct (IH (pr_stats ++ [s]) (written path (document now (pr_stats ++ [s])) w0) r w')
        as (stats' & Hdisk' & Hpre & Hret); [|exact H|].
      { cbn [disk written]. rewrite Hdisk0, Hdisk. apply insert_insert_eq. }
      exists stats'. split; [exact Hdisk'|]. split; [|exact Hret].
      etrans; [|exact Hpre]. apply prefix_app_r. reflexivity.
    + destruct (try_body_raises _ _ _ _ _ _ _ _ _ Htry) as [Hdisk1 _].
      destruct (py_getitem pr "number") as [n|e'].
      * refine (IH pr_stats _ r w' _ H).
        cbn [disk log_event]. rewrite Hdisk1. exact Hdisk.
      * injection H as <- <-. exists pr_stats. rewrite Hdisk1.
        split; [exact Hdisk|]. split; [reflexivity | discriminate].
Qed.

(** X16.  Whatever the outcome of [generate_stats], a value, an exception
    raised while listing the pull requests or one that escapes the loop,
    either no file has changed at all, or the only change on the disk is
    that the output file holds a JSON document, the one written at the
    start with the records made until then; when the run returns, they
    are the records it returns.  No other path is written, and the output
    file never holds anything but valid JSON. *)
Theorem generate_stats_changes_only_output_file g repo_spec date_from date_to author
    (output_file : option string) (w : world) (r : result RepositoryStats) (w' : world) :
  generate_stats g repo_spec date_from date_to author output_file w = Some (r, w') ->
  disk w' = disk w \/
  exists path now stats,
    output_file = Some path /\
    disk w' = <[path := Json (document now stats)]> (disk w) /\
    (forall other, other <> path -> disk w' !! other = disk w !! other) /\
    persisted_pull_requests path w' = Some (map asdict stats) /\
    (forall rs, r = Ok rs -> pull_requests rs = stats).
Proof.
  intros Hrun.
  destruct (split_on "/" repo_spec) as [|owner [|repo [|? ?]]] eqn:Hsplit;
    try (unfold generate_stats in Hrun; rewrite Hsplit in Hrun;
         injection Hrun as <- <-; left; reflexivity).
  rewrite (generate_stats_unfold _ _ _ _ _ _ _ _ _ Hsplit) in Hrun.
  destruct (get_pull_requests (client_of g) owner repo "all" _) as [[[prs|e] w1]|] eqn:Hlist;
    try discriminate;
    destruct (steady_get_pull_requests _ _ _ _ _ _ _ Hlist) as [Hdisk _];
    cbn [disk log_event] in Hdisk.
  2: { injection Hrun as <- <-. left. exact Hdisk. }
  destruct output_file as [path|]; [|injection Hrun as <- <-; left; exact Hdisk].
  destruct (process_prs g owner repo (Some path) [] prs _) as [[res w3]|] eqn:Hloop;
    [|discriminate].
  assert (disk (written path (document (utc_now w1) []) (listed prs w1))
          = <[path := Json (document (utc_now w1) [])]> (disk w)) as Hstart
    by (cbn [disk written listed log_event]; rewrite Hdisk; reflexivity).
  destruct (process_prs_disk g owner repo path (utc_now w1) (disk w) _ _ _ _ _ Hstart Hloop)
    as (stats & Hdisk3 & _ & Hret).
  assert (w' = w3 /\ forall rs, r = Ok rs -> pull_requests rs = stats) as [-> Hrs].
  { destruct res as [pr_stats|e]; injection Hrun as <- <-; (split; [reflexivity|]).
    - intros rs [= <-]. cbn [pull_requests repository_stats]. apply Hret. reflexivity.
    - discriminate. }
  right. exists path, (utc_now w1), stats. split; [reflexivity|]. split; [exact Hdisk3|].
  split; [|split; [|exact Hrs]].
  - intros other Hother. rewrite Hdisk3. apply lookup_insert_ne. congruence.
  - eapply persisted_document. rewrite Hdisk3. apply lookup_insert_eq.
Qed.

Lemma generate_stats_changes_only_output_file_witness :
  disk (end_of (generate_stats (new_generator "secret") "octo/demo" None None None
                  (Some "pr_stats.json")) sample_world) = disk sample_world \/
  exists path now stats,
    Some "pr_stats.json" = Some path /\
    disk (end_of (generate_stats (new_generator "secret") "octo/demo" None None None
                    (Some "pr_stats.json")) sample_world)
      = <[path := Json (document now stats)]> (disk sample_world) /\
    (forall other, other <> path ->
       disk (end_of (generate_stats (new_generator "secret") "octo/demo" None None None
                       (Some "pr_stats.json")) sample_world) !! other
       = disk sample_world !! other) /\
    persisted_pull_requests path
      (end_of (generate_stats (new_generator "secret") "octo/demo" None None None
                 (Some "pr_stats.json")) sample_world) = Some (map asdict stats) /\
    (forall rs,
       Ok (repository_stats "octo" "demo" "2024-01-01T00:00:00+00:00"
             [sample_stats 1 "2024-01-01T00:00:00Z"; sample_stats 3 "2024-01-03T00:00:00Z"])
       = Ok rs -> pull_requests rs = stats).
Proof.
  apply (generate_stats_changes_only_output_file (new_generator "secret") "octo/demo"
           None None None (Some "pr_stats.json") sample_world).
  vm_compute. reflexivity.
Defined.

(** X17.  The handler of the loop of [generate_stats] reads
    [pr['number']] for its message.  For an item of the listing that has
    no [number], or is not a dict, [generate_pr_stats] raises on that very
    lookup and the handler raises again on it: the exception leaves the
    loop at that item, the items after it are not processed, and the
    records made before it are not returned. *)
Theorem pr_without_number_aborts_loop g owner repo output_file
    (done rest : list json) (pr : json) (e : exn)
    (pr_stats stats_i : list PullRequestStats) (w w_i : world) :
  py_getitem pr "number" = Raise e ->
  process_prs g owner repo output_file pr_stats done w = Some (Ok stats_i, w_i) ->
  process_prs g owner repo output_file pr_stats (done ++ pr :: rest) w
  = Some (Raise e, w_i).
Proof.
  intros Hn Hdone. rewrite process_prs_app, Hdone.
  rewrite process_prs_cons, bind_run, process_pr_run. unfold try_body.
  rewrite bind_run, generate_pr_stats_run, Hn. reflexivity.
Qed.

Lemma pr_without_number_aborts_loop_witness :
  process_prs (new_generator "secret") "octo" "demo" (Some "pr_stats.json") []
    ([sample_pr 1 "2024-01-01T00:00:00Z"] ++
     JObj [("title", JStr "Update")] :: [sample_pr 3 "2024-01-03T00:00:00Z"])
    sample_loop_start
  = Some (Raise (KeyError "number"),
          end_of (process_prs (new_generator "secret") "octo" "demo" (Some "pr_stats.json") []
                    [sample_pr 1 "2024-01-01T00:00:00Z"]) sample_loop_start).
Proof.
  apply (pr_without_number_aborts_loop (new_generator "secret") "octo" "demo"
           (Some "pr_stats.json") [sample_pr 1 "2024-01-01T00:00:00Z"]
           [sample_pr 3 "2024-01-03T00:00:00Z"] (JObj [("title", JStr "Update")])
           (KeyError "number") [] [sample_stats 1 "2024-01-01T00:00:00Z"] sample_loop_start).
  - reflexivity.
  - vm_compute. reflexivity.
Defined.

Lemma generate_pr_stats_number g pr owner repo w s w' :
  generate_pr_stats g pr owner repo w = Some (Ok s, w') ->
  py_getitem pr "number" = Ok (number (pr_meta s)).
Proof.
  rewrite generate_pr_stats_run. intros H.
  destruct (py_getitem pr "number") as [n|] eqn:Hn; [|discriminate].
  destruct (rbind (py_getitem pr "title") (py_prefix 50)) as [title50|]; [|discriminate].
  destruct (get_pr_reviews (client_of g) owner repo n _) as [[[raw_reviews|] w1]|];
    try discriminate.
  destruct (comprehension get_review_stat raw_reviews) as [revs|]; [|discriminate].
  destruct (get_pr_timeline (client_of g) owner repo n w1) as [[[raw_timeline|] w2]|];
    try discriminate.
  injection H as H <-. unfold assemble in H. rewrite Hn in H.
  do 11 open_stage H. cbn [rbind] in H. open_stage H. injection H as <-. reflexivity.
Qed.

Lemma listed_number (pr : json) (prs : list json) (n : json) :
  py_getitem pr "number" = Ok n ->
  omap number_of (pr :: prs) = n :: omap number_of prs.
Proof.
  intros H.
  change (omap number_of (pr :: prs))
    with (match number_of pr with
          | Some y => y :: omap number_of prs
          | None => omap number_of prs
          end).
  unfold number_of at 1. rewrite H. reflexivity.
Qed.

Lemma process_prs_numbers g owner repo output_file : forall prs pr_stats w stats w',
  process_prs g owner repo output_file pr_stats prs w = Some (Ok stats, w') ->
  exists added,
    stats = pr_stats ++ added /\
    record_numbers added `sublist_of` omap number_of prs /\
    length (omap number_of prs) = length prs.
Proof.
  induction prs as [|pr prs IH]; intros pr_stats w stats w' H.
  - injection H as <- <-. exists []. rewrite app_nil_r.
    split; [reflexivity|]. split; [constructor | reflexivity].
  - rewrite process_prs_cons, bind_run, process_pr_run in H. unfold try_body in H.
    rewrite bind_run in H.
    destruct (generate_pr_stats g pr owner repo w) as [[[s|e] w1]|] eqn:Hgen;
      try discriminate.
    + pose proof (generate_pr_stats_number _ _ _ _ _ _ _ Hgen) as Hn.
      rewrite bind_run in H.
      destruct (_append_pr_to_json output_file s w1) as [[[[]|e] w2]|]; try discriminate.
      * rewrite ret_run in H. destruct (IH _ _ _ _ H) as (added & -> & Hsub & Hall).
        exists (s :: added). rewrite <- app_assoc. split; [reflexivity|].
        rewrite (listed_number _ _ _ Hn). cbn [record_numbers map length].
        split; [apply sublist_skip; exact Hsub | congruence].
      * rewrite Hn in H. destruct (IH _ _ _ _ H) as (added & -> & Hsub & Hall).
        exists added. split; [reflexivity|].
        rewrite (listed_number _ _ _ Hn). cbn [length].
        split; [apply sublist_cons; exact Hsub | congruence].
    + destruct (py_getitem pr "number") as [n|] eqn:Hn; [|discriminate].
      destruct (IH _ _ _ _ H) as (added & -> & Hsub & Hall).
      exists added. split; [reflexivity|].
      rewrite (listed_number _ _ _ Hn). cbn [length].
      split; [apply sublist_cons; exact Hsub | congruence].
Qed.

(** X18.  The records of a run follow the listing: when [generate_stats]
    returns, the numbers of its records, in the order of the records, are
    a subsequence of the numbers of the pull requests in the order the
    service listed them; every item listed had a number, no pull request
    gives two records, and none is moved. *)
Theorem records_follow_the_listing g repo_spec date_from date_to author
    (output_file : option string) (w : world) (rs : RepositoryStats) (w' : world) :
  generate_stats g repo_spec date_from date_to author output_file w = Some (Ok rs, w') ->
  exists owner repo prs w1,
    get_pull_requests (client_of g) owner repo "all" (log_event (starting_line owner repo) w)
      = Some (Ok prs, w1) /\
    record_numbers (pull_requests rs) `sublist_of` omap number_of prs /\
    length (omap number_of prs) = length prs /\
    (length (pull_requests rs) <= length prs)%nat.
Proof.
  intros Hrun.
  destruct (split_on "/" repo_spec) as [|owner [|repo [|? ?]]] eqn:Hsplit;
    try (unfold generate_stats in Hrun; rewrite Hsplit in Hrun; discriminate Hrun).
  rewrite (generate_stats_unfold _ _ _ _ _ _ _ _ _ Hsplit) in Hrun.
  destruct (get_pull_requests (client_of g) owner repo "all" _) as [[[prs|e] w1]|] eqn:Hlist;
    try discriminate.
  destruct output_file as [path|]; [|discriminate].
  destruct (process_prs g owner repo (Some path) [] prs _) as [[[pr_stats|e] w3]|] eqn:Hloop;
    try discriminate.
  injection Hrun as <- <-. cbn [pull_requests repository_stats].
  destruct (process_prs_numbers _ _ _ _ _ _ _ _ _ Hloop) as (added & Hadded & Hsub & Hall).
  cbn [app] in Hadded. subst added.
  exists owner, repo, prs, w1. split; [exact Hlist|]. split; [exact Hsub|].
  split; [exact Hall|].
  apply sublist_length in Hsub. unfold record_numbers in Hsub.
  rewrite length_map, Hall in Hsub. exact Hsub.
Qed.

Lemma records_follow_the_listing_witness :
  exists owner repo prs w1,
    get_pull_requests (client_of (new_generator "secret")) owner repo "all"
      (log_event (starting_line owner repo) sample_world) = Some (Ok prs, w1) /\
    record_numbers
      (pull_requests
         (repository_stats "octo" "demo" "2024-01-01T00:00:00+00:00"
            [sample_stats 1 "2024-01-01T00:00:00Z"; sample_stats 3 "2024-01-03T00:00:00Z"]))
      `sublist_of` omap number_of prs /\
    length (omap number_of prs) = length prs /\
    (length
       (pull_requests
          (repository_stats "octo" "demo" "2024-01-01T00:00:00+00:00"
             [sample_stats 1 "2024-01-01T00:00:00Z"; sample_stats 3 "2024-01-03T00:00:00Z"]))
     <= length prs)%nat.
Proof.
  apply (records_follow_the_listing (new_generator "secret") "octo/demo" None None None
           (Some "pr_stats.json") sample_world _
           (end_of (generate_stats (new_generator "secret") "octo/demo" None None None
                      (Some "pr_stats.json")) sample_world)).
  vm_compute. reflexivity.
Defined.

(** *** The exports *)

(** X19.  [export_json] of the value a run returned, to the path the run
    wrote, replaces the file by the dict of that value: the
    [pull_requests] array is the one the file already had, the
    [repository] object, empty until then, now has [name], [owner] and
    [url], and [generated_at] is that of the value; one line is logged and
    no other file changes. *)
Theorem export_json_after_run g repo_spec date_from date_to author (path : string)
    (w : world) (rs : RepositoryStats) (w' : world) :
  generate_stats g repo_spec date_from date_to author (Some path) w = Some (Ok rs, w') ->
  exists owner repo,
    split_on "/" repo_spec = [owner; repo] /\
    export_json rs path w'
    = Some (Ok tt, log_event (Log INFO [Lit "Exported JSON to "; Fmt (JStr path)])
                     (written path (asdict_stats rs) w')) /\
    asdict_stats rs =
      JObj [("repository",
             JObj [("name", JStr repo); ("owner", JStr owner);
                   ("url", JStr (String.append "https://github.com/"
                                   (String.append owner (String.append "/" repo))))]);
            ("generated_at", JStr (generated_at rs));
            ("pull_requests", JArr (map asdict (pull_requests rs)))] /\
    persisted_pull_requests path w' = Some (map asdict (pull_requests rs)) /\
    persisted_pull_requests path (written path (asdict_stats rs) w')
    = persisted_pull_requests path w' /\
    (forall other, other <> path ->
       disk (written path (asdict_stats rs) w') !! other = disk w' !! other).
Proof.
  intros Hrun.
  destruct (generate_stats_run _ _ _ _ _ _ _ _ _ Hrun)
    as (owner & repo & prs & w0 & Hsplit & Hfile & Hloop & Hrepo).
  destruct (process_prs_invariant _ _ _ _ _ _ _ _ _ _ Hfile Hloop) as (Hfile' & _ & _).
  exists owner, repo. split; [exact Hsplit|]. split; [reflexivity|].
  assert (persisted_pull_requests path (written path (asdict_stats rs) w')
          = Some (map asdict (pull_requests rs))) as Hafter.
  { unfold persisted_pull_requests. cbn [disk written]. rewrite lookup_insert_eq.
    reflexivity. }
  split; [unfold asdict_stats; rewrite Hrepo; reflexivity|].
  split; [exact (persisted_document _ _ _ _ Hfile')|].
  split; [rewrite Hafter; symmetry; exact (persisted_document _ _ _ _ Hfile')|].
  intros other Hother. cbn [disk written]. apply lookup_insert_ne. congruence.
Qed.

Lemma export_json_after_run_witness :
  exists owner repo,
    split_on "/" "octo/demo" = [owner; repo] /\
    export_json
      (repository_stats "octo" "demo" "2024-01-01T00:00:00+00:00"
         [sample_stats 1 "2024-01-01T00:00:00Z"; sample_stats 3 "2024-01-03T00:00:00Z"])
      "pr_stats.json"
      (end_of (generate_stats (new_generator "secret") "octo/demo" None None None
                 (Some "pr_stats.json")) sample_world)
    = Some (Ok tt,
            log_event (Log INFO [Lit "Exported JSON to "; Fmt (JStr "pr_stats.json")])
              (written "pr_stats.json"
                 (asdict_stats
                    (repository_stats "octo" "demo" "2024-01-01T00:00:00+00:00"
                       [sample_stats 1 "2024-01-01T00:00:00Z";
                        sample_stats 3 "2024-01-03T00:00:00Z"]))
                 (end_of (generate_stats (new_generator "secret") "octo/demo" None None None
                            (Some "pr_stats.json")) sample_world))) /\
    asdict_stats
      (repository_stats "octo" "demo" "2024-01-01T00:00:00+00:00"
         [sample_stats 1 "2024-01-01T00:00:00Z"; sample_stats 3 "2024-01-03T00:00:00Z"]) =
      JObj [("repository",
             JObj [("name", JStr repo); ("owner", JStr owner);
                   ("url", JStr (String.append "https://github.com/"
                                   (String.append owner (String.append "/" repo))))]);
            ("generated_at", JStr "2024-01-01T00:00:00+00:00");
            ("pull_requests",
             JArr (map asdict [sample_stats 1 "2024-01-01T00:00:00Z";
                               sample_stats 3 "2024-01-03T00:00:00Z"]))] /\
    persisted_pull_requests "pr_stats.json"
      (end_of (generate_stats (new_generator "secret") "octo/demo" None None None
                 (Some "pr_stats.json")) sample_world)
    = Some (map asdict [sample_stats 1 "2024-01-01T00:00:00Z";
                        sample_stats 3 "2024-01-03T00:00:00Z"]) /\
    persisted_pull_requests "pr_stats.json"
      (written "pr_stats.json"
         (asdict_stats
            (repository_stats "octo" "demo" "2024-01-01T00:00:00+00:00"
               [sample_stats 1 "2024-01-01T00:00:00Z"; sample_stats 3 "2024-01-03T00:00:00Z"]))
         (end_of (generate_stats (new_generator "secret") "octo/demo" None None None
                    (Some "pr_stats.json")) sample_world))
    = persisted_pull_requests "pr_stats.json"
        (end_of (generate_stats (new_generator "secret") "octo/demo" None None None
                   (Some "pr_stats.json")) sample_world) /\
    (forall other, other <> "pr_stats.json" ->
       disk (written "pr_stats.json"
               (asdict_stats
                  (repository_stats "octo" "demo" "2024-01-01T00:00:00+00:00"
                     [sample_stats 1 "2024-01-01T00:00:00Z";
                      sample_stats 3 "2024-01-03T00:00:00Z"]))
               (end_of (generate_stats (new_generator "secret") "octo/demo" None None None
                          (Some "pr_stats.json")) sample_world)) !! other
       = disk (end_of (generate_stats (new_generator "secret") "octo/demo" None None None
                         (Some "pr_stats.json")) sample_world) !! other).
Proof.
  apply (export_json_after_run (new_generator "secret") "octo/demo" None None None
           "pr_stats.json" sample_world
           (repository_stats "octo" "demo" "2024-01-01T00:00:00+00:00"
              [sample_stats 1 "2024-01-01T00:00:00Z"; sample_stats 3 "2024-01-03T00:00:00Z"])).
  vm_compute. reflexivity.
Defined.

(** X20.  [export_csv] reads [pr.pr_number] for the first cell of a row,
    an attribute a [PullRequestStats] does not have.  For stats with one
    record or more it raises [AttributeError] on the first of them, once
    the file is opened and the header written: the file no longer holds
    JSON, so that an append to it then raises [JSONDecodeError], and the
    export is not logged.  For stats without records it returns, leaving
    the header alone in the file, and logs the export. *)
Theorem export_csv_fails_on_records (stats : RepositoryStats) (path : string) (w : world) :
  (pull_requests stats <> [] ->
   export_csv stats path w = Some (Raise AttributeError, csv_written path w) /\
   forall s, _append_pr_to_json (Some path) s (csv_written path w)
             = Some (Raise JSONDecodeError, csv_written path w)) /\
  (pull_requests stats = [] ->
   export_csv stats path w
   = Some (Ok tt, log_event (Log INFO [Lit "Exported CSV to "; Fmt (JStr path)])
                    (csv_written path w))).
Proof.
  unfold export_csv. rewrite bind_run. cbn [write_text]. fold (csv_written path w). split.
  - intros Hsome. destruct (pull_requests stats) as [|pr prs]; [destruct Hsome; reflexivity|].
    split; [reflexivity|]. intros s. rewrite append_run. cbn [disk csv_written].
    rewrite lookup_insert_eq. reflexivity.
  - intros ->. reflexivity.
Qed.

Lemma export_csv_fails_on_records_witness :
  export_csv
    (repository_stats "octo" "demo" "2024-01-01T00:00:00+00:00"
       [sample_stats 1 "2024-01-01T00:00:00Z"])
    "pr_stats.json" sample_loop_start
  = Some (Raise AttributeError, csv_written "pr_stats.json" sample_loop_start) /\
  forall s, _append_pr_to_json (Some "pr_stats.json") s
              (csv_written "pr_stats.json" sample_loop_start)
            = Some (Raise JSONDecodeError, csv_written "pr_stats.json" sample_loop_start).
Proof.
  apply (proj1 (export_csv_fails_on_records
                  (repository_stats "octo" "demo" "2024-01-01T00:00:00+00:00"
                     [sample_stats 1 "2024-01-01T00:00:00Z"])
                  "pr_stats.json" sample_loop_start)).
  discriminate.
Defined.

(** *** A timeline that is not served *)

Lemma no_timeline_created (pr x : json) :
  _get_request_to_review_timestamp pr (JArr []) = Ok x ->
  py_getitem pr "created_at" = Ok x.
Proof.
  unfold _get_request_to_review_timestamp.
  destruct (py_get pr "draft" (JBool false)) as [d|]; cbn [rbind]; [|discriminate].
  destruct (negb (truthy d)); cbn [py_iter rbind scan_timeline]; auto.
Qed.

(** X23.  A timeline request that is answered with any status but 200, a
    403, a 404 or a 500 alike, does not fail the pull request and leaves
    no trace in the log: [generate_pr_stats] goes on as if the pull
    request had no events.  The record it returns has an empty timeline,
    and its ready-for-review timestamp is the creation time of the pull
    request, for a draft too. *)
Theorem failed_timeline_is_silent g owner repo (pr n title50 : json)
    (raw_reviews reviews : list json) (r : response) (rest : list arrival)
    (w w1 : world) :
  py_getitem pr "number" = Ok n ->
  rbind (py_getitem pr "title") (py_prefix 50) = Ok title50 ->
  get_pr_reviews (client_of g) owner repo n (log_event (processing_line n title50) w)
    = Some (Ok raw_reviews, w1) ->
  comprehension get_review_stat raw_reviews = Ok reviews ->
  incoming w1 = Answer r :: rest ->
  status_code r <> 200 ->
  generate_pr_stats g pr owner repo w
  = Some (assemble pr raw_reviews reviews (JArr []),
          answered rest (log_event (Get (timeline_request (client_of g) owner repo n)) w1)) /\
  forall s, assemble pr raw_reviews reviews (JArr []) = Ok s ->
            timeline s = [] /\ request_to_review_timestamp s = created_at (pr_meta s).
Proof.
  intros Hn Ht Hrev Hproj Hin Hs. split.
  - rewrite generate_pr_stats_run, Hn, Ht, Hrev, Hproj.
    unfold get_pr_timeline. rewrite bind_run. unfold session_get, http_get. rewrite Hin.
    cbv zeta. apply Z.eqb_neq in Hs. rewrite Hs. reflexivity.
  - intros s H. unfold assemble in H. cbn [py_iter comprehension rbind] in H.
    repeat open_stage H. injection H as <-.
    cbn [timeline request_to_review_timestamp pr_meta created_at].
    split; [reflexivity|].
    match goal with
    | H1 : _get_request_to_review_timestamp pr (JArr []) = Ok ?a,
      H2 : py_getitem pr "created_at" = Ok ?b |- ?a = ?b =>
        apply no_timeline_created in H1; congruence
    end.
Qed.

Lemma failed_timeline_is_silent_witness :
  generate_pr_stats (new_generator "secret") draft_pr "octo" "demo"
    (serving [ok_answer (JArr []); rate_limited 1704067260])
  = Some (Ok (sample_stats 1 "2024-01-01T00:00:00Z"),
          end_of (generate_pr_stats (new_generator "secret") draft_pr "octo" "demo")
            (serving [ok_answer (JArr []); rate_limited 1704067260])).
Proof.
  apply (proj1 (failed_timeline_is_silent (new_generator "secret") "octo" "demo"
                  draft_pr (JInt 1) (JStr "Update") [] []
                  {| status_code := 403; body := None; reset := ResetAt 1704067260 |} []
                  (serving [ok_answer (JArr []); rate_limited 1704067260]) _
                  eq_refl eq_refl ltac:(vm_compute; reflexivity) eq_refl eq_refl
                  ltac:(discriminate))).
Defined.

End GeneratorEdges.

(** ** The derived timestamps: what they do not depend on *)

Module TimestampEdges.
Import Py PRStatsGenerator Terms Timestamps.

Lemma least_submitted_unique (m m' : string) (rs rs' : list dict) :
  (forall r, In r rs <-> In r rs') ->
  least_submitted m rs -> least_submitted m' rs' -> m = m'.
Proof.
  intros Hsame [(r & Hr & Hm) Hleast] [(r' & Hr' & Hm') Hleast'].
  apply String.leb_antisym.
  - apply (Hleast r' m'); [apply Hsame; exact Hr' | exact Hm'].
  - apply (Hleast' r m); [apply Hsame; exact Hr | exact Hm].
Qed.

Lemma earliest_submitted_same (rs rs' : list dict) :
  (forall r, In r rs <-> In r rs') ->
  all_stamped rs ->
  earliest_submitted (map JObj rs) = earliest_submitted (map JObj rs').
Proof.
  intros Hsame Hst.
  assert (all_stamped rs') as Hst'.
  { unfold all_stamped in *. rewrite List.Forall_forall in *.
    intros r Hr. apply Hst, Hsame, Hr. }
  destruct rs as [|r0 rs0] eqn:Ers.
  - destruct rs' as [|r' rs'0]; [reflexivity|].
    destruct (proj2 (Hsame r') (or_introl eq_refl)).
  - assert (rs' <> []) as Hne'.
    { intros ->. destruct (proj1 (Hsame r0) (or_introl eq_refl)). }
    rewrite <- Ers in *. assert (rs <> []) as Hne by (rewrite Ers; discriminate).
    destruct (earliest_submitted_least rs Hne Hst) as (m & -> & Hm).
    destruct (earliest_submitted_least rs' Hne' Hst') as (m' & -> & Hm').
    f_equal. f_equal. exact (least_submitted_unique m m' rs rs' Hsame Hm Hm').
Qed.

Lemma filter_same (p : dict -> bool) (rs rs' : list dict) :
  (forall r, p r = true -> (In r rs <-> In r rs')) ->
  forall r, In r (List.filter p rs) <-> In r (List.filter p rs').
Proof.
  intros Hsame r. rewrite !List.filter_In. split; intros [Hin Hp]; (split; [|exact Hp]);
    apply (Hsame r Hp); exact Hin.
Qed.

(** X21.  The two review timestamps depend on the qualifying reviews
    only, and not on their order: two lists of reviews with the same
    approved reviews, in any order and with any other reviews between
    them, even reviews without [submitted_at], give the same approval
    timestamp, when the approved reviews are stamped; likewise for the
    substantive reviews and the review-given timestamp. *)
Theorem review_timestamps_ignore_order_and_other_reviews (reviews reviews' : list dict) :
  ((forall r, has_state "APPROVED" r = true -> (In r reviews <-> In r reviews')) ->
   all_stamped (List.filter (has_state "APPROVED") reviews) ->
   _get_approval_timestamp (map JObj reviews)
   = _get_approval_timestamp (map JObj reviews')) /\
  ((forall r, substantive r = true -> (In r reviews <-> In r reviews')) ->
   all_stamped (List.filter substantive reviews) ->
   _get_review_given_timestamp (map JObj reviews)
   = _get_review_given_timestamp (map JObj reviews')).
Proof.
  split; intros Hsame Hst.
  - unfold _get_approval_timestamp.
    rewrite !(select_dicts is_approved (has_state "APPROVED")) by apply is_approved_dict.
    cbn [rbind]. apply earliest_submitted_same; [|exact Hst].
    apply filter_same. exact Hsame.
  - unfold _get_review_given_timestamp.
    rewrite !(select_dicts is_substantive substantive) by apply is_substantive_dict.
    cbn [rbind]. apply earliest_submitted_same; [|exact Hst].
    apply filter_same. exact Hsame.
Qed.

Lemma review_timestamps_ignore_order_and_other_reviews_witness :
  _get_approval_timestamp (map JObj [late_approval; pending_review; early_approval])
  = _get_approval_timestamp (map JObj [early_approval; late_approval]).
Proof.
  apply (proj1 (review_timestamps_ignore_order_and_other_reviews
                  [late_approval; pending_review; early_approval]
                  [early_approval; late_approval])).
  - intros r Hr. cbn [In]. split.
    + intros [<-|[<-|[<-|[]]]]; auto. discriminate Hr.
    + intros [<-|[<-|[]]]; auto.
  - repeat constructor; eexists; reflexivity.
Defined.

End TimestampEdges.

(** ** The requests of a run *)

Module RunRequests.
Import Py World GitHubAPIClient PRStatsGenerator Terms ClientFacts GeneratorFacts.
Import ClientEdges GeneratorEdges.

Section Sends.
Context (P : request -> Prop).

Lemma sends_quiet {A} (c : M A) :
  (forall w r w', c w = Some (r, w') -> requests_of (trace w') = requests_of (trace w)) ->
  sends_only P c.
Proof.
  intros H w r w' Hrun. exists []. rewrite app_nil_r. split; [eauto | constructor].
Qed.

Lemma sends_ret {A} (a : A) : sends_only P (mret a : M A).
Proof. apply sends_quiet. intros w r w' H. injection H as _ <-. reflexivity. Qed.

Lemma sends_raise {A} (e : exn) : sends_only P (raise e : M A).
Proof. apply sends_quiet. intros w r w' H. injection H as _ <-. reflexivity. Qed.

Lemma sends_lift {A} (r : result A) : sends_only P (lift r).
Proof.
  apply sends_quiet. intros w r' w' H. rewrite lift_run in H. injection H as _ <-.
  reflexivity.
Qed.

Lemma sends_logger (l : level) (msg : fstring) : sends_only P (logger l msg).
Proof.
  apply sends_quiet. intros w r w' H. injection H as _ <-. apply requests_of_log.
Qed.

Lemma sends_time_time : sends_only P time_time.
Proof. apply sends_quiet. intros w r w' H. injection H as _ <-. reflexivity. Qed.

Lemma sends_time_sleep (s : Z) : sends_only P (time_sleep s).
Proof.
  apply sends_quiet. intros w r w' H.
  destruct (time_sleep_run s w) as [E|[E|E]]; rewrite E in H; injection H as _ <-;
    [reflexivity | reflexivity | apply requests_of_sleep].
Qed.

Lemma sends_now_isoformat : sends_only P now_isoformat.
Proof. apply sends_quiet. intros w r w' H. injection H as _ <-. reflexivity. Qed.

Lemma sends_json_dump (path : string) (doc : json) : sends_only P (json_dump path doc).
Proof. apply sends_quiet. intros w r w' H. injection H as _ <-. reflexivity. Qed.

Lemma sends_json_load (path : string) : sends_only P (json_load path).
Proof.
  apply sends_quiet. intros w r w' H. unfold json_load in H.
  destruct (disk w !! path) as [[doc|]|]; injection H as _ <-; reflexivity.
Qed.

Lemma sends_open_path (output_file : option string) : sends_only P (open_path output_file).
Proof. destruct output_file; [apply sends_ret | apply sends_raise]. Qed.

Lemma sends_bind {A B} (c : M A) (k : A -> M B) :
  sends_only P c -> (forall a, sends_only P (k a)) -> sends_only P (c ≫= k).
Proof.
  intros Hc Hk w r w' H. rewrite bind_run in H.
  destruct (c w) as [[[a|e] w1]|] eqn:Hcw; [| |discriminate].
  - destruct (Hc _ _ _ Hcw) as (l1 & E1 & F1). destruct (Hk a _ _ _ H) as (l2 & E2 & F2).
    exists (l1 ++ l2). rewrite E2, E1, app_assoc. split; [reflexivity|].
    apply Forall_app. auto.
  - injection H as <- <-. exact (Hc _ _ _ Hcw).
Qed.

Lemma sends_try_except {A} (c : M A) (handler : exn -> M A) :
  sends_only P c -> (forall e, sends_only P (handler e)) ->
  sends_only P (try_except c handler).
Proof.
  intros Hc Hh w r w' H. unfold try_except in H.
  destruct (c w) as [[[a|e] w1]|] eqn:Hcw; [| |discriminate].
  - injection H as <- <-. exact (Hc _ _ _ Hcw).
  - destruct (Hc _ _ _ Hcw) as (l1 & E1 & F1). destruct (Hh e _ _ _ H) as (l2 & E2 & F2).
    exists (l1 ++ l2). rewrite E2, E1, app_assoc. split; [reflexivity|].
    apply Forall_app. auto.
Qed.

Lemma sends_foldM {A S} (f : S -> A -> M S) :
  (forall s x, sends_only P (f s x)) -> forall l s, sends_only P (foldM f s l).
Proof.
  intros Hf. induction l as [|x l IH]; intros s; cbn [foldM].
  - apply sends_ret.
  - apply sends_bind; [apply Hf | intros s'; apply IH].
Qed.

Lemma sends_http_get (q : request) : P q -> sends_only P (http_get q).
Proof.
  intros Hq w r w' H. unfold http_get in H.
  destruct (incoming w) as [|a rest]; [discriminate|].
  assert (w' = answered rest (log_event (Get q) w)) as ->
    by (destruct a; injection H as _ <-; reflexivity).
  exists [q]. cbn [trace answered log_event]. rewrite requests_of_get.
  split; [reflexivity | repeat constructor; exact Hq].
Qed.

Lemma Forall_repeated (q : request) (n : nat) : P q -> Forall P (repeat q n).
Proof. intros Hq. induction n as [|n IH]; cbn [repeat]; constructor; assumption. Qed.

Lemma sends_make_request c url params :
  P (api_request c url params) -> sends_only P (_make_request c url params).
Proof.
  intros Hq w r w' H.
  destruct (make_request_footprint _ _ _ _ _ _ H) as (_ & n & naps & Hreqs & _).
  eexists. split; [exact Hreqs|]. apply Forall_repeated. exact Hq.
Qed.

Lemma Forall_page_requests c url (p : dict) :
  (forall q, P (api_request c url (Some q))) ->
  forall tries page, Forall P (page_requests c url p page tries).
Proof.
  intros Hq. induction tries as [|k tries IH]; intros page; cbn [page_requests].
  - constructor.
  - apply Forall_app. split; [apply Forall_repeated, Hq | apply IH].
Qed.

Lemma sends_paginate c url params :
  (forall q, P (api_request c url (Some q))) -> sends_only P (_paginate c url params).
Proof.
  intros Hq w r w' H.
  destruct (paginate_from_footprint c url (or_empty params) (length (incoming w)) w
              (or_empty params) [] 1 r w') as [_ (tries & _ & Hreqs)]; auto.
  eexists. split; [exact Hreqs|]. apply Forall_page_requests. exact Hq.
Qed.

End Sends.

Lemma addressed_api (token owner repo : string) (rest : fstring) (params : option dict) :
  rest = [Lit "/pulls"] \/
  (exists n, rest = [Lit "/pulls/"; Fmt n; Lit "/reviews"]) \/
  (exists n, rest = [Lit "/issues/"; Fmt n; Lit "/timeline"]) ->
  addressed token owner repo
    (api_request (new_client token) (repo_url (new_client token) owner repo ++ rest) params).
Proof.
  intros Hrest. unfold addressed. split; [reflexivity|]. split; [reflexivity|].
  split; [left; reflexivity|]. exists rest. split; [reflexivity | exact Hrest].
Qed.

Lemma sends_get_pull_requests (token owner repo state : string) :
  sends_only (addressed token owner repo)
    (get_pull_requests (new_client token) owner repo state).
Proof. apply sends_paginate. intros q. apply addressed_api. left. reflexivity. Qed.

Lemma sends_get_pr_reviews (token owner repo : string) (n : json) :
  sends_only (addressed token owner repo) (get_pr_reviews (new_client token) owner repo n).
Proof. apply sends_paginate. intros q. apply addressed_api. right. left. eauto. Qed.

Lemma sends_get_pr_timeline (token owner repo : string) (n : json) :
  sends_only (addressed token owner repo) (get_pr_timeline (new_client token) owner repo n).
Proof.
  unfold get_pr_timeline, session_get. apply sends_bind.
  - apply sends_http_get. unfold addressed. split; [reflexivity|]. split; [reflexivity|].
    split; [right; reflexivity|]. eexists. split; [reflexivity|]. right. right. eauto.
  - intros response. destruct (status_code response =? 200); [apply sends_lift | apply sends_ret].
Qed.

Ltac sends_step :=
  first [ apply sends_ret | apply sends_raise | apply sends_lift | apply sends_logger
        | apply sends_now_isoformat | apply sends_json_dump | apply sends_json_load
        | apply sends_open_path
        | apply sends_get_pull_requests | apply sends_get_pr_reviews
        | apply sends_get_pr_timeline
        | apply sends_bind; [|intros ?] ].

Lemma sends_generate_pr_stats (token owner repo : string) (pr : json) :
  sends_only (addressed token owner repo)
    (generate_pr_stats (new_generator token) pr owner repo).
Proof. unfold generate_pr_stats. cbn [client_of new_generator]. repeat sends_step. Qed.

Lemma sends_append (P : request -> Prop) (output_file : option string)
    (stats : PullRequestStats) :
  sends_only P (_append_pr_to_json output_file stats).
Proof. unfold _append_pr_to_json. repeat sends_step. Qed.

Lemma sends_init (P : request -> Prop) (output_file : option string) (repo_info : dict) :
  sends_only P (_init_json_output output_file repo_info).
Proof. unfold _init_json_output. repeat sends_step. Qed.

Lemma sends_process_prs (token owner repo : string) (output_file : option string)
    (prs : list json) (pr_stats : list PullRequestStats) :
  sends_only (addressed token owner repo)
    (process_prs (new_generator token) owner repo output_file pr_stats prs).
Proof.
  unfold process_prs. apply sends_foldM. intros s pr. unfold process_pr.
  apply sends_try_except.
  - unfold try_body. apply sends_bind; [apply sends_generate_pr_stats|]. intros stats.
    apply sends_bind; [apply sends_append|]. intros _. apply sends_ret.
  - intros e. unfold except_body. repeat sends_step.
Qed.

(** X22.  Every request of a run of [generate_stats], whatever its
    outcome, carries the token it was made with ([Authorization: token
    ...]) and the user agent of the tool, and has the [Accept] header of
    the API or that of the timeline.  The URL the client builds for it,
    the text it gives to [session.get], is
    [https://api.github.com/repos/], the owner, a slash and the name,
    [owner] and [repo] being the two parts of the [repo_spec] put in as
    they are, followed by [/pulls], [/pulls/n/reviews] or
    [/issues/n/timeline].  Nothing is checked or escaped: where the HTTP
    library sends a text whose owner or name has dot segments, [?] or [#]
    in it is not part of the statement. *)
Theorem run_requests_are_addressed (token repo_spec : string)
    (date_from date_to author output_file : option string)
    (w : world) (r : result RepositoryStats) (w' : world) :
  generate_stats (new_generator token) repo_spec date_from date_to author output_file w
    = Some (r, w') ->
  exists reqs,
    requests_of (trace w') = requests_of (trace w) ++ reqs /\
    forall owner repo,
      split_on "/" repo_spec = [owner; repo] -> Forall (addressed token owner repo) reqs.
Proof.
  intros Hrun.
  destruct (split_on "/" repo_spec) as [|owner [|repo [|? ?]]] eqn:Hsplit;
    try (unfold generate_stats in Hrun; rewrite Hsplit in Hrun; injection Hrun as <- <-;
         exists []; rewrite app_nil_r; split; [reflexivity | intros ? ? ?; discriminate]).
  assert (sends_only (addressed token owner repo)
            (generate_stats (new_generator token) repo_spec date_from date_to author
               output_file)) as Hsends.
  { unfold generate_stats. rewrite Hsplit. cbn [client_of new_generator].
    apply sends_bind; [apply sends_logger|]. intros _.
    apply sends_bind; [apply sends_get_pull_requests|]. intros prs.
    apply sends_bind; [apply sends_logger|]. intros _.
    apply sends_bind; [apply sends_logger|]. intros _.
    apply sends_bind; [apply sends_init|]. intros _.
    apply sends_bind; [apply sends_process_prs|]. intros pr_stats.
    apply sends_bind; [apply sends_now_isoformat|]. intros now. apply sends_ret. }
  destruct (Hsends _ _ _ Hrun) as (reqs & Hreqs & Hall).
  exists reqs. split; [exact Hreqs|]. intros owner' repo' [= <- <-]. exact Hall.
Qed.

Lemma run_requests_are_addressed_witness :
  exists reqs,
    requests_of (trace (end_of (generate_stats (new_generator "secret") "octo/demo"
                                  None None None (Some "pr_stats.json")) sample_world))
    = requests_of (trace sample_world) ++ reqs /\
    forall owner repo,
      split_on "/" "octo/demo" = [owner; repo] -> Forall (addressed "secret" owner repo) reqs.
Proof.
  apply (run_requests_are_addressed "secret" "octo/demo" None None None
           (Some "pr_stats.json") sample_world
           (Ok (repository_stats "octo" "demo" "2024-01-01T00:00:00+00:00"
                  [sample_stats 1 "2024-01-01T00:00:00Z";
                   sample_stats 3 "2024-01-03T00:00:00Z"]))).
  vm_compute. reflexivity.
Defined.

End RunRequests.
